(** * The export pipeline of [index.js]: generate users, convert to a sheet, zip

    A shallow embedding of [src/index.js] (the Agenda job
    [generate-and-zip-users] and its three stages) together with the parts of
    the JavaScript runtime the stages rely on: strings as sequences of UTF-16
    code units, [JSON.stringify] / [JSON.parse], [Date.prototype.toISOString],
    [Object.keys], [String.prototype.trim], readline's line splitting, write
    streams whose data reaches the disk only when the event loop turns, the
    ExcelJS streaming workbook writer and the archiver, each by its documented
    contract.

    What the model leaves out: directories ([fs.mkdirSync]); the encoding of
    text files (a file holds the code units written to it); the value of a
    JSON number (it keeps its lexeme); the properties of strings, numbers
    and booleans (an object finds the properties of [Object.prototype], as
    the value [JInherited]); the bytes of the spreadsheet and of the archive
    (a file holds the workbook or the entries, and [bytes_of] stands for
    their serialisation); the text of the log lines (the log records which
    line was written; the figures of [logSystemStats] are modelled apart, in
    [StatsLine]); the 16384 columns a sheet is limited to (see [fits]); the
    scheduler and the web server around the job.

    Two simplifications of the streams. A write stream opens its file where
    [fs.createWriteStream] is called: the file is truncated there, and a file
    that cannot be opened is reported there, where Node does both in a later
    turn of the event loop (with the constants of the job: at the first
    checkpoint, after 100000 records have been drawn). A read stream reads
    its file at one moment: it sees what has reached the disk when readline
    delivers its first line, and nothing of what the writer appends while
    the converter runs. Both agree with Node on a file whose stream has
    drained, and on a disk that completes in each turn all that was written
    before it; the theorems below speak of the contents of the line-stream
    file in these two situations only.

    The module [Db] embeds [connectToDatabase] of [db.js], the cached
    database handle, with the driver as a parameter. *)

From Stdlib Require Import List NArith ZArith Lia Bool Arith Sorted.
From Stdlib Require Ascii String DecimalString.
Import String.StringSyntax.
Import ListNotations.

Set Warnings "-register-all".
Open Scope N_scope.

(* ================================================================== *)
(** ** JavaScript strings *)
(* ================================================================== *)

Module Str.

(** A JavaScript string is a finite sequence of UTF-16 code units. *)
Definition jsstring := list N.

(** A literal of the source, written as a Rocq string of ASCII characters. *)
Definition js (s : String.string) : jsstring :=
  map Ascii.N_of_ascii (String.list_ascii_of_string s).
Arguments js s%_string_scope.

Fixpoint str_eqb (a b : jsstring) : bool :=
  match a, b with
  | [], [] => true
  | x :: a', y :: b' => N.eqb x y && str_eqb a' b'
  | _, _ => false
  end.

(** [String(n)] for a non-negative integer. *)
Definition dec (n : N) : jsstring := js (DecimalString.NilZero.string_of_uint (N.to_uint n)).

(** [prefix.concat(...)] tested from the left: [strip_prefix p s] is the rest
    of [s] after [p]. *)
Fixpoint strip_prefix (p s : jsstring) : option jsstring :=
  match p, s with
  | [], _ => Some s
  | x :: p', y :: s' => if N.eqb x y then strip_prefix p' s' else None
  | _ :: _, [] => None
  end.

(** ECMAScript WhiteSpace and LineTerminator code points, the ones
    [String.prototype.trim] removes. *)
Definition is_js_space (c : N) : bool :=
  ((9 <=? c) && (c <=? 13)) || (c =? 32) || (c =? 160) || (c =? 5760)
  || ((8192 <=? c) && (c <=? 8202)) || (c =? 8232) || (c =? 8233)
  || (c =? 8239) || (c =? 8287) || (c =? 12288) || (c =? 65279).

Fixpoint trim_start (s : jsstring) : jsstring :=
  match s with
  | c :: r => if is_js_space c then trim_start r else s
  | [] => []
  end.

(** [s.trim()] *)
Definition trim (s : jsstring) : jsstring := rev (trim_start (rev (trim_start s))).

(** Truthiness of a string: the empty string is the only falsy one. *)
Definition truthy_string (s : jsstring) : bool :=
  match s with [] => false | _ :: _ => true end.

End Str.
Import Str.

(* ================================================================== *)
(** ** Dates *)
(* ================================================================== *)

Module JSDate.

(** Decimal digits of [n], exactly [w] of them (the low ones). *)
Fixpoint pad (w : nat) (n : Z) : jsstring :=
  match w with
  | O => []
  | S w' => pad w' (n / 10) ++ [Z.to_N (48 + n mod 10)]
  end.

(** Year, month and day of a day number counted from 1970-01-01 in the
    proleptic Gregorian calendar (ECMAScript's YearFromTime, MonthFromTime
    and DateFromTime). *)
Definition civil_from_days (days : Z) : Z * Z * Z :=
  let z := (days + 719468)%Z in
  let era := (z / 146097)%Z in
  let doe := (z mod 146097)%Z in
  let yoe := ((doe - doe / 1460 + doe / 36524 - doe / 146096) / 365)%Z in
  let doy := (doe - (365 * yoe + yoe / 4 - yoe / 100))%Z in
  let mp := ((5 * doy + 2) / 153)%Z in
  let d := (doy - (153 * mp + 2) / 5 + 1)%Z in
  let m := (if mp <? 10 then mp + 3 else mp - 9)%Z in
  let y := (yoe + era * 400 + (if m <=? 2 then 1 else 0))%Z in
  (y, m, d).

Definition year_string (y : Z) : jsstring :=
  if ((0 <=? y) && (y <=? 9999))%Z then pad 4 y
  else (if (y <? 0)%Z then js "-" else js "+") ++ pad 6 (Z.abs y).

(** [new Date(t).toISOString()] for a valid time value [t] (milliseconds since
    the epoch): [YYYY-MM-DDTHH:mm:ss.sssZ]. *)
Definition toISOString (t : Z) : jsstring :=
  let days := (t / 86400000)%Z in
  let ms := (t mod 86400000)%Z in
  let '(y, m, d) := civil_from_days days in
  year_string y ++ js "-" ++ pad 2 m ++ js "-" ++ pad 2 d ++ js "T"
  ++ pad 2 (ms / 3600000) ++ js ":" ++ pad 2 ((ms / 60000) mod 60) ++ js ":"
  ++ pad 2 ((ms / 1000) mod 60) ++ js "." ++ pad 3 (ms mod 1000) ++ js "Z".

End JSDate.

(* ================================================================== *)
(** ** JSON *)
(* ================================================================== *)

Module JSON.

(** Values produced by [JSON.parse]. A number keeps its lexeme; an object
    keeps its own properties in creation order. [JInherited k] is no JSON
    value and [JSON.parse] never returns it: it is the built-in function or
    object that reading the property [k] of a parsed object finds on
    [Object.prototype]. *)
Inductive json : Type :=
| JNull
| JBool (b : bool)
| JNum (lexeme : jsstring)
| JStr (s : jsstring)
| JArr (items : list json)
| JObj (props : list (jsstring * json))
| JInherited (name : jsstring).

(** *** Serialisation (QuoteJSONString, SerializeJSONObject) *)

Definition hex_digit (n : N) : N := if n <? 10 then 48 + n else 87 + n.

(** [\uXXXX] with lower-case hexadecimal digits. *)
Definition unicode_escape (c : N) : jsstring :=
  [92; 117; hex_digit (c / 4096); hex_digit ((c / 256) mod 16);
   hex_digit ((c / 16) mod 16); hex_digit (c mod 16)].

Definition is_lead (c : N) : bool := (55296 <=? c) && (c <=? 56319).
Definition is_trail (c : N) : bool := (56320 <=? c) && (c <=? 57343).

(** One code unit that is not a surrogate. *)
Definition quote_unit (c : N) : jsstring :=
  if c =? 8 then [92; 98]
  else if c =? 9 then [92; 116]
  else if c =? 10 then [92; 110]
  else if c =? 12 then [92; 102]
  else if c =? 13 then [92; 114]
  else if c =? 34 then [92; 34]
  else if c =? 92 then [92; 92]
  else if c <? 32 then unicode_escape c
  else [c].

(** A surrogate pair is copied, a lone surrogate is escaped. *)
Fixpoint quote_units (s : jsstring) : jsstring :=
  match s with
  | [] => []
  | c :: rest =>
      if is_lead c then
        match rest with
        | d :: rest' =>
            if is_trail d then c :: d :: quote_units rest'
            else unicode_escape c ++ quote_units rest
        | [] => unicode_escape c
        end
      else if is_trail c then unicode_escape c ++ quote_units rest
      else quote_unit c ++ quote_units rest
  end.

Definition QuoteJSONString (s : jsstring) : jsstring := 34 :: quote_units s ++ [34].

(** The values [generateUser] stores in a record: strings and [Date]s. *)
Inductive jsvalue : Type :=
| VString (s : jsstring)
| VDate (t : Z).

(** An object literal: its properties in the order they are written. *)
Definition jsobject := list (jsstring * jsvalue).

(** SerializeJSONProperty: a [Date] is replaced by its [toJSON()], the ISO
    string. *)
Definition serialize_value (v : jsvalue) : jsstring :=
  match v with
  | VString s => QuoteJSONString s
  | VDate t => QuoteJSONString (JSDate.toISOString t)
  end.

Definition serialize_property (p : jsstring * jsvalue) : jsstring :=
  QuoteJSONString (fst p) ++ [58] ++ serialize_value (snd p).

Fixpoint join_comma (l : list jsstring) : jsstring :=
  match l with
  | [] => []
  | [x] => x
  | x :: l' => x ++ [44] ++ join_comma l'
  end.

(** [JSON.stringify(o)] without indentation. *)
Definition stringify (o : jsobject) : jsstring :=
  [123] ++ join_comma (map serialize_property o) ++ [125].

(** *** Parsing *)

Definition is_json_ws (c : N) : bool :=
  (c =? 32) || (c =? 9) || (c =? 10) || (c =? 13).

Fixpoint skip_ws (s : jsstring) : jsstring :=
  match s with
  | c :: r => if is_json_ws c then skip_ws r else s
  | [] => []
  end.

Definition hex_value (c : N) : option N :=
  if (48 <=? c) && (c <=? 57) then Some (c - 48)
  else if (97 <=? c) && (c <=? 102) then Some (c - 87)
  else if (65 <=? c) && (c <=? 70) then Some (c - 55)
  else None.

(** The character a single-letter escape stands for. *)
Definition unescape (e : N) : option N :=
  if e =? 34 then Some 34
  else if e =? 92 then Some 92
  else if e =? 47 then Some 47
  else if e =? 98 then Some 8
  else if e =? 102 then Some 12
  else if e =? 110 then Some 10
  else if e =? 114 then Some 13
  else if e =? 116 then Some 9
  else None.

(** The characters of a string literal after its opening quote, up to and
    including the closing quote. *)
Fixpoint parse_chars (s : jsstring) : option (jsstring * jsstring) :=
  match s with
  | [] => None
  | c :: r =>
      if c =? 34 then Some ([], r)
      else if c =? 92 then
        match r with
        | [] => None
        | e :: r1 =>
            if e =? 117 then
              match r1 with
              | h1 :: h2 :: h3 :: h4 :: r2 =>
                  match hex_value h1, hex_value h2, hex_value h3, hex_value h4 with
                  | Some a, Some b, Some c', Some d =>
                      match parse_chars r2 with
                      | Some (t, rest) => Some ((a * 4096 + b * 256 + c' * 16 + d) :: t, rest)
                      | None => None
                      end
                  | _, _, _, _ => None
                  end
              | _ => None
              end
            else
              match unescape e with
              | Some u =>
                  match parse_chars r1 with
                  | Some (t, rest) => Some (u :: t, rest)
                  | None => None
                  end
              | None => None
              end
        end
      else if c <? 32 then None
      else
        match parse_chars r with
        | Some (t, rest) => Some (c :: t, rest)
        | None => None
        end
  end.

Definition is_digit (c : N) : bool := (48 <=? c) && (c <=? 57).

Fixpoint span_digits (s : jsstring) : jsstring * jsstring :=
  match s with
  | c :: r =>
      if is_digit c then let (ds, rest) := span_digits r in (c :: ds, rest)
      else ([], s)
  | [] => ([], [])
  end.

(** The integer part: [0] or a non-zero digit followed by digits. *)
Definition parse_int (s : jsstring) : option (jsstring * jsstring) :=
  match s with
  | c :: r =>
      if c =? 48 then Some ([48], r)
      else if is_digit c then let (ds, rest) := span_digits r in Some (c :: ds, rest)
      else None
  | [] => None
  end.

Definition parse_frac (s : jsstring) : option (jsstring * jsstring) :=
  match s with
  | c :: r =>
      if c =? 46 then
        match span_digits r with
        | ([], _) => None
        | (ds, rest) => Some (46 :: ds, rest)
        end
      else Some ([], s)
  | [] => Some ([], [])
  end.

Definition parse_exp (s : jsstring) : option (jsstring * jsstring) :=
  match s with
  | c :: r =>
      if (c =? 101) || (c =? 69) then
        let (sign, r1) :=
          match r with
          | g :: r' => if (g =? 43) || (g =? 45) then ([g], r') else ([], r)
          | [] => ([], r)
          end in
        match span_digits r1 with
        | ([], _) => None
        | (ds, rest) => Some (c :: sign ++ ds, rest)
        end
      else Some ([], s)
  | [] => Some ([], [])
  end.

(** A JSON number: its lexeme and the rest of the text. *)
Definition parse_number (s : jsstring) : option (jsstring * jsstring) :=
  let (sign, s1) :=
    match s with
    | c :: r => if c =? 45 then ([45], r) else ([], s)
    | [] => ([], s)
    end in
  match parse_int s1 with
  | Some (i, s2) =>
      match parse_frac s2 with
      | Some (f, s3) =>
          match parse_exp s3 with
          | Some (e, s4) => Some (sign ++ i ++ f ++ e, s4)
          | None => None
          end
      | None => None
      end
  | None => None
  end.

(** CreateDataProperty on the object being built: a repeated key keeps its
    first position and takes the later value. *)
Fixpoint obj_set (k : jsstring) (v : json) (props : list (jsstring * json))
  : list (jsstring * json) :=
  match props with
  | [] => [(k, v)]
  | (k', v') :: rest =>
      if str_eqb k k' then (k', v) :: rest else (k', v') :: obj_set k v rest
  end.

(** Recursive descent, bounded by [fuel]: a value or a member costs one unit
    and consumes at least one character, an array element costs two. *)
Fixpoint parse_value (fuel : nat) (s : jsstring) {struct fuel}
  : option (json * jsstring) :=
  match fuel with
  | O => None
  | S fuel' =>
      match skip_ws s with
      | [] => None
      | c :: r =>
          if c =? 123 then
            match skip_ws r with
            | c1 :: r1 =>
                if c1 =? 125 then Some (JObj [], r1)
                else parse_members fuel' [] r
            | [] => None
            end
          else if c =? 91 then
            match skip_ws r with
            | c1 :: r1 =>
                if c1 =? 93 then Some (JArr [], r1)
                else parse_elements fuel' [] r
            | [] => None
            end
          else if c =? 34 then
            match parse_chars r with
            | Some (t, rest) => Some (JStr t, rest)
            | None => None
            end
          else if c =? 116 then
            match strip_prefix (js "true") (c :: r) with
            | Some rest => Some (JBool true, rest)
            | None => None
            end
          else if c =? 102 then
            match strip_prefix (js "false") (c :: r) with
            | Some rest => Some (JBool false, rest)
            | None => None
            end
          else if c =? 110 then
            match strip_prefix (js "null") (c :: r) with
            | Some rest => Some (JNull, rest)
            | None => None
            end
          else
            match parse_number (c :: r) with
            | Some (lex, rest) => Some (JNum lex, rest)
            | None => None
            end
      end
  end

with parse_members (fuel : nat) (acc : list (jsstring * json)) (s : jsstring)
  {struct fuel} : option (json * jsstring) :=
  match fuel with
  | O => None
  | S fuel' =>
      match skip_ws s with
      | c :: r =>
          if c =? 34 then
            match parse_chars r with
            | Some (k, r1) =>
                match skip_ws r1 with
                | c1 :: r2 =>
                    if c1 =? 58 then
                      match parse_value fuel' r2 with
                      | Some (v, r3) =>
                          match skip_ws r3 with
                          | c2 :: r4 =>
                              if c2 =? 44 then parse_members fuel' (obj_set k v acc) r4
                              else if c2 =? 125 then Some (JObj (obj_set k v acc), r4)
                              else None
                          | [] => None
                          end
                      | None => None
                      end
                    else None
                | [] => None
                end
            | None => None
            end
          else None
      | [] => None
      end
  end

with parse_elements (fuel : nat) (acc : list json) (s : jsstring)
  {struct fuel} : option (json * jsstring) :=
  match fuel with
  | O => None
  | S fuel' =>
      match parse_value fuel' s with
      | Some (v, r1) =>
          match skip_ws r1 with
          | c :: r2 =>
              if c =? 44 then parse_elements fuel' (acc ++ [v]) r2
              else if c =? 93 then Some (JArr (acc ++ [v]), r2)
              else None
          | [] => None
          end
      | None => None
      end
  end.

Definition parse_with (fuel : nat) (text : jsstring) : option json :=
  match parse_value fuel text with
  | Some (v, rest) =>
      match skip_ws rest with
      | [] => Some v
      | _ :: _ => None
      end
  | None => None
  end.

(** [JSON.parse(text)]: [None] stands for the [SyntaxError] it throws. Twice
    the length of the text is fuel enough (lemma [parse_enough_fuel]). *)
Definition parse (text : jsstring) : option json :=
  parse_with (S (2 * length text)) text.

End JSON.

(* ================================================================== *)
(** ** Property access on parsed values *)
(* ================================================================== *)

Module JSObject.
Import JSON.

(** A canonical array index: the decimal string, without leading zero, of an
    integer below [2^32 - 1]. Such keys come first in property order. *)
Definition array_index (k : jsstring) : option N :=
  match k with
  | [] => None
  | c :: r =>
      if forallb is_digit k && (negb (c =? 48) || negb (truthy_string r)) then
        let n := fold_left (fun a d => a * 10 + (d - 48)) k 0 in
        if n <? 4294967295 then Some n else None
      else None
  end.

Fixpoint insert_index (n : N) (k : jsstring) (l : list (N * jsstring))
  : list (N * jsstring) :=
  match l with
  | [] => [(n, k)]
  | (m, k') :: rest =>
      if n <? m then (n, k) :: l else (m, k') :: insert_index n k rest
  end.

Definition index_keys (props : list (jsstring * json)) : list jsstring :=
  map snd
    (fold_right
       (fun p acc =>
          match array_index (fst p) with
          | Some n => insert_index n (fst p) acc
          | None => acc
          end) [] props).

Definition string_keys (props : list (jsstring * json)) : list jsstring :=
  filter (fun k => match array_index k with Some _ => false | None => true end)
         (map fst props).

(** OrdinaryOwnPropertyKeys: integer keys in ascending order, then the other
    keys in creation order. *)
Definition own_keys (props : list (jsstring * json)) : list jsstring :=
  index_keys props ++ string_keys props.

Definition indices (n : nat) : list jsstring :=
  map (fun i => dec (N.of_nat i)) (seq 0 n).

(** [Object.keys(v)]; [None] is the [TypeError] thrown for [null]. *)
Definition keys (v : json) : option (list jsstring) :=
  match v with
  | JNull => None
  | JBool _ | JNum _ | JInherited _ => Some []
  | JStr s => Some (indices (length s))
  | JArr items => Some (indices (length items))
  | JObj props => Some (own_keys props)
  end.

Fixpoint lookup (k : jsstring) (props : list (jsstring * json)) : option json :=
  match props with
  | [] => None
  | (k', v) :: rest => if str_eqb k k' then Some v else lookup k rest
  end.

(** The properties every parsed object inherits from [Object.prototype]. *)
Definition prototype_keys : list jsstring :=
  [ js "constructor"; js "hasOwnProperty"; js "isPrototypeOf";
    js "propertyIsEnumerable"; js "toLocaleString"; js "toString"; js "valueOf";
    js "__proto__"; js "__defineGetter__"; js "__defineSetter__";
    js "__lookupGetter__"; js "__lookupSetter__" ].

Definition inherited (k : jsstring) : bool := existsb (str_eqb k) prototype_keys.

(** [v[k]]; [None] is [undefined]. An object gives its own property or, for
    want of one, what it inherits from [Object.prototype]. What strings,
    numbers and booleans inherit from their prototypes is outside the
    model. *)
Definition get (v : json) (k : jsstring) : option json :=
  match v with
  | JObj props =>
      match lookup k props with
      | Some x => Some x
      | None => if inherited k then Some (JInherited k) else None
      end
  | JStr s =>
      if str_eqb k (js "length") then Some (JNum (dec (N.of_nat (length s))))
      else match array_index k with
           | Some i => option_map (fun c => JStr [c]) (nth_error s (N.to_nat i))
           | None => None
           end
  | JArr items =>
      if str_eqb k (js "length") then Some (JNum (dec (N.of_nat (length items))))
      else match array_index k with
           | Some i => nth_error items (N.to_nat i)
           | None => None
           end
  | _ => None
  end.

Fixpoint mantissa (lex : jsstring) : jsstring :=
  match lex with
  | c :: r => if (c =? 101) || (c =? 69) then [] else c :: mantissa r
  | [] => []
  end.

(** ToBoolean: [null], [false], a zero number and the empty string are falsy. *)
Definition truthy (v : json) : bool :=
  match v with
  | JNull => false
  | JBool b => b
  | JNum lex => existsb (fun c => (49 <=? c) && (c <=? 57)) (mantissa lex)
  | JStr s => truthy_string s
  | JArr _ | JObj _ | JInherited _ => true
  end.

End JSObject.

(* ================================================================== *)
(** ** Paths *)
(* ================================================================== *)

Module Path.

(** [path.join(dir, name)] for a normalised [dir] and a plain [name]. *)
Definition join (dir name : jsstring) : jsstring :=
  match rev dir with
  | c :: _ => if c =? 47 then dir ++ name else dir ++ [47] ++ name
  | [] => name
  end.

(** [path.basename(p)]: what follows the last separator. *)
Fixpoint basename_from (acc p : jsstring) : jsstring :=
  match p with
  | [] => acc
  | c :: r => if c =? 47 then basename_from r r else basename_from acc r
  end.

Definition basename (p : jsstring) : jsstring := basename_from p p.

End Path.

(* ================================================================== *)
(** ** ExcelJS: the streaming workbook writer *)
(* ================================================================== *)

Module Excel.
Import JSON.

Record column := { header : jsstring; key : jsstring; width : N }.

(** A cell holds the value assigned to it, or is empty when none was. How a
    value is written into the file belongs to the bytes of the sheet. *)
Definition cell := option json.
Definition row := list cell.

(** The sheet as written so far. [ws_columns] is [None] until
    [worksheet.columns] is assigned. Row 1 is the first element of
    [ws_rows]. *)
Record worksheet := {
  ws_name : jsstring;
  ws_columns : option (list column);
  ws_rows : list row
}.

(** The spreadsheet file: readable only once the workbook is committed. *)
Record workbook := { wb_sheet : worksheet; wb_committed : bool }.

(** [workbook.addWorksheet(name)] *)
Definition addWorksheet (name : jsstring) : worksheet :=
  {| ws_name := name; ws_columns := None; ws_rows := [] |}.

Definition header_row (cols : list column) : row :=
  map (fun c => Some (JStr (header c))) cols.

(** [worksheet.columns = cols]: the headers are written into row 1. With no
    column there is no header cell, and so no row 1. *)
Definition set_columns (cols : list column) (ws : worksheet) : worksheet :=
  {| ws_name := ws_name ws;
     ws_columns := Some cols;
     ws_rows := match cols with
                | [] => ws_rows ws
                | _ :: _ => header_row cols :: tl (ws_rows ws)
                end |}.

Definition columns_of (ws : worksheet) : list column :=
  match ws_columns ws with Some cols => cols | None => [] end.

(** [cell.value = x] for what a property read or an array item gave:
    [undefined] and [null] leave the cell empty. *)
Definition cell_of (x : option json) : cell :=
  match x with
  | Some JNull => None
  | _ => x
  end.

(** [column.key = k] enters the column under [k] in the key table of the
    sheet, from which [row.values] takes the cells of an object. Two keys
    never get there: the empty key (the setter tests [if (value)]) and
    [__proto__] (the assignment [_keys[k] = column] then sets the prototype
    of the table, and no property of its own). *)
Definition keyed (k : jsstring) : bool :=
  truthy_string k && negb (str_eqb k (js "__proto__")).

(** The cell of the value [v] in the column [c]: [v[c.key]] when the column
    is in the key table. *)
Definition cell_at (v : json) (c : column) : cell :=
  if keyed (key c) then cell_of (JSObject.get v (key c)) else None.

(** The cells of [row.values = v]: nothing for a falsy value, by position for
    an array, by column key otherwise. *)
Definition row_values (cols : list column) (v : json) : row :=
  if negb (JSObject.truthy v) then []
  else match v with
       | JArr items => map (fun x => cell_of (Some x)) items
       | _ => map (cell_at v) cols
       end.

(** [worksheet.addRow(v).commit()]: one more row after the last one. *)
Definition addRow (v : json) (ws : worksheet) : worksheet :=
  {| ws_name := ws_name ws;
     ws_columns := ws_columns ws;
     ws_rows := ws_rows ws ++ [row_values (columns_of ws) v] |}.

End Excel.

(* ================================================================== *)
(** ** The process: files, the write stream, the event loop, the log *)
(* ================================================================== *)

Module Sys.
Import JSON Excel.

(** A zip archive: its entries (name and uncompressed bytes) in order, the
    name of an entry whose local header was written but whose data could not
    be read, and whether the output stream has been closed. *)
Record archive := {
  zip_entries : list (jsstring * list N);
  zip_torn : option jsstring;
  zip_closed : bool
}.

Inductive content : Type :=
| CText (data : jsstring)
| CBook (wb : workbook)
| CZip (z : archive).

(** What a path names: nothing, a file, or a file that cannot be opened. *)
Inductive node : Type :=
| Absent
| File (c : content)
| Locked (c : content).

Inductive sink_state : Type := Open | Ending | Closed.

(** [fs.createWriteStream]: chunks wait in [st_pending] until the event loop
    writes them; [stream.end()] only asks for the close. *)
Record wstream := {
  st_path : jsstring;
  st_pending : list jsstring;
  st_state : sink_state
}.

(** The arguments of [console.log], by template. [MWroteBatch n b] is
    [`Wrote batch: ${n / b}`], the quotient being a JavaScript number. *)
Inductive message : Type :=
| MJobStarted
| MWroteBatch (written batchSize : N)
| MFinishedNDJSON
| MExcelRows (rowCount : N)
| MFinishedExcel
| MZipCreated (path : jsstring) (bytes : N)
| MJobCompleted.

(** The labels passed to [logSystemStats]. *)
Inductive label : Type :=
| LJobStart
| LAfterBatch (written batchSize : N)
| LCompletedNDJSON
| LExcelRows (rowCount : N)
| LCompletedExcel
| LCompletedZip
| LJobEnd.

Inductive event : Type :=
| Log (m : message)
| Stats (l : label)
| Sleep (ms : N).

Inductive error : Type :=
| SyntaxError (text : jsstring)
| TypeError
| EACCES (path : jsstring)
| ENOENT (path : jsstring).

(** How an [async] stage ends: its promise resolves, it rejects, an
    ['error'] event nobody listens to brings the process down, or the promise
    it awaits is never settled. *)
Inductive outcome : Type :=
| Resolved
| Rejected (e : error)
| Uncaught (e : error)
| Hangs.

Record world := {
  fs : jsstring -> node;
  out : option wstream;
  turns : nat;
  draws : nat;
  trace : list event
}.

(** An [async] function of the job: from the world in which it is called to
    the world in which its promise settles (or the process ends, or the
    function waits for ever), with the way it ends. *)
Definition stage := world -> outcome * world.

(** [await a(); await b()] *)
Definition and_then (a b : stage) : stage :=
  fun w => match a w with
           | (Resolved, w') => b w'
           | (r, w') => (r, w')
           end.

Declare Scope stage_scope.
Delimit Scope stage_scope with stage.
Notation "a ;; b" := (and_then a b) (at level 61, right associativity) : stage_scope.

(** One record of random values, as faker returns them for one user. *)
Record draw := {
  d_uuid : jsstring;
  d_username : jsstring;
  d_email : jsstring;
  d_avatar : jsstring;
  d_password : jsstring;
  d_birthdate : Z;
  d_past : Z
}.

(** What the program takes from its surroundings. [stat_swap t] tells
    whether, of two [lstat] calls queued in turn [t] of the event loop, the
    second completes before the first. *)
Record runtime := {
  dirname : jsstring;
  faker : nat -> draw;
  io_ops : nat -> nat;
  stat_swap : nat -> bool;
  bytes_of : content -> list N;
  pointer : archive -> N
}.

Definition fs_set (p : jsstring) (n : node) (f : jsstring -> node) : jsstring -> node :=
  fun q => if str_eqb q p then n else f q.

Definition with_fs (f : jsstring -> node) (w : world) : world :=
  {| fs := f; out := out w; turns := turns w; draws := draws w; trace := trace w |}.

Definition with_out (o : option wstream) (w : world) : world :=
  {| fs := fs w; out := o; turns := turns w; draws := draws w; trace := trace w |}.

Definition emit (e : event) (w : world) : world :=
  {| fs := fs w; out := out w; turns := turns w; draws := draws w;
     trace := trace w ++ [e] |}.

(** [console.log(...)] *)
Definition log (m : message) : world -> world := emit (Log m).

(** [logSystemStats(label)] *)
Definition logSystemStats (l : label) : world -> world := emit (Stats l).

(** Appending to the bytes of a text file on disk. *)
Definition append_text (p data : jsstring) (f : jsstring -> node) : jsstring -> node :=
  match f p with
  | File (CText d) => fs_set p (File (CText (d ++ data))) f
  | _ => f
  end.

(** [n] I/O operations of the write stream complete: each pending chunk is
    one, the close asked for by [end()] is one more. *)
Definition flush (n : nat) (w : world) : world :=
  match out w with
  | None => w
  | Some s =>
      let pend := st_pending s in
      let st' :=
        match st_state s with
        | Ending => if (length pend <? n)%nat then Closed else Ending
        | x => x
        end in
      with_out
        (Some {| st_path := st_path s; st_pending := skipn n pend; st_state := st' |})
        (with_fs (append_text (st_path s) (concat (firstn n pend)) (fs w)) w)
  end.

(** The event loop runs until no operation of the write stream is left. *)
Definition settle (w : world) : world :=
  match out w with
  | None => w
  | Some s => flush (S (length (st_pending s))) w
  end.

(** [fs.createWriteStream(p)]: the file is created or truncated. [None] when
    it cannot be opened. *)
Definition createWriteStream (p : jsstring) (w : world) : option world :=
  match fs w p with
  | Locked _ => None
  | _ =>
      Some (with_out (Some {| st_path := p; st_pending := []; st_state := Open |})
                     (with_fs (fs_set p (File (CText [])) (fs w)) w))
  end.

(** [stream.write(chunk)] *)
Definition stream_write (chunk : jsstring) (w : world) : world :=
  match out w with
  | Some s =>
      with_out (Some {| st_path := st_path s;
                        st_pending := st_pending s ++ [chunk];
                        st_state := st_state s |}) w
  | None => w
  end.

(** [stream.end()] *)
Definition stream_end (w : world) : world :=
  match out w with
  | Some s =>
      with_out (Some {| st_path := st_path s;
                        st_pending := st_pending s;
                        st_state := match st_state s with Open => Ending | x => x end |}) w
  | None => w
  end.

Definition sink_of (w : world) : option sink_state := option_map st_state (out w).

(** [for (let i = 0; i < n; i++) body(i)] *)
Definition for_loop (n : N) (body : N -> world -> world) (w : world) : world :=
  snd (N.iter n (fun iw => (N.succ (fst iw), body (fst iw) (snd iw))) (0, w)).

(** readline over a read stream with [crlfDelay: Infinity]: a line ends at
    LF, CR LF or CR; what follows the last terminator is a line when it is
    not empty. *)
Fixpoint split_from (cur s : jsstring) : list jsstring :=
  match s with
  | [] => match cur with [] => [] | _ :: _ => [cur] end
  | c :: r =>
      if c =? 10 then cur :: split_from [] r
      else if c =? 13 then
        match r with
        | d :: r' => if d =? 10 then cur :: split_from [] r' else cur :: split_from [] r
        | [] => [cur]
        end
      else split_from (cur ++ [c]) r
  end.

Definition split_lines (s : jsstring) : list jsstring := split_from [] s.

Section Program.

Variable rt : runtime.

(** One turn of the event loop: the operations the surroundings complete in
    it are carried out. *)
Definition io_turn (w : world) : world :=
  let w' := flush (io_ops rt (turns w)) w in
  {| fs := fs w'; out := out w'; turns := S (turns w); draws := draws w';
     trace := trace w' |}.

(** [await new Promise(resolve => setTimeout(resolve, ms))] *)
Definition sleep (ms : N) (w : world) : world := io_turn (emit (Sleep ms) w).

(** *** Paths *)

Definition dataDir : jsstring := Path.join (dirname rt) (js "data").
Definition ndjsonPath : jsstring := Path.join dataDir (js "users_stream.ndjson").
Definition xlsxPath : jsstring := Path.join dataDir (js "users_stream.xlsx").
Definition zipPath : jsstring := Path.join dataDir (js "users_export.zip").

(** *** User generator *)

Definition generateUser (w : world) : jsobject * world :=
  let d := faker rt (draws w) in
  ([ (js "userId", VString (d_uuid d));
     (js "username", VString (d_username d));
     (js "email", VString (d_email d));
     (js "avatar", VString (d_avatar d));
     (js "password", VString (d_password d));
     (js "birthdate", VDate (d_birthdate d));
     (js "registeredAt", VDate (d_past d)) ],
   {| fs := fs w; out := out w; turns := turns w; draws := S (draws w);
      trace := trace w |}).

(** *** Step 1: write users to the .ndjson file in batches *)

(** The body of the [for] loop of [writeUsersToNDJSON]. *)
Definition write_user (batchSize : N) (i : N) (w : world) : world :=
  let (user, w1) := generateUser w in
  let w2 := stream_write (stringify user ++ [10]) w1 in
  if (i + 1) mod 100000 =? 0 then
    sleep 500
      (logSystemStats (LAfterBatch (i + 1) batchSize)
         (log (MWroteBatch (i + 1) batchSize) w2))
  else w2.

(** [writeUsersToNDJSON] with its two constants as arguments. *)
Definition writeUsers (totalUsers batchSize : N) : stage :=
  fun w =>
    match createWriteStream ndjsonPath w with
    | None => (Uncaught (EACCES ndjsonPath), w)
    | Some w1 =>
        let w2 := for_loop totalUsers (write_user batchSize) w1 in
        let w3 := stream_end w2 in
        (Resolved, logSystemStats LCompletedNDJSON (log MFinishedNDJSON w3))
    end.

Definition writeUsersToNDJSON : stage := writeUsers 1000000 100000.

(** *** Step 2: convert the .ndjson file to .xlsx *)

Definition text_of (c : content) : jsstring :=
  match c with
  | CText s => s
  | _ => bytes_of rt c
  end.

(** The lines readline delivers for the file at [p], or the error of the
    read stream. *)
Definition read_lines (p : jsstring) (w : world) : error + list jsstring :=
  match fs w p with
  | File c => inr (split_lines (text_of c))
  | Absent => inl (ENOENT p)
  | Locked _ => inl (EACCES p)
  end.

(** [new ExcelJS.stream.xlsx.WorkbookWriter({ filename: p })] and
    [workbook.addWorksheet(name)]: the file is created or truncated. A file
    that cannot be opened is left as it is: the writer goes on in memory and
    nothing of it reaches the disk. *)
Definition create_book (p name : jsstring) (w : world) : world :=
  match fs w p with
  | Locked _ => w
  | _ =>
      with_fs (fs_set p (File (CBook {| wb_sheet := addWorksheet name;
                                        wb_committed := false |})) (fs w)) w
  end.

(** The rows committed so far are streamed to the file. *)
Definition write_book (p : jsstring) (ws : worksheet) (w : world) : world :=
  match fs w p with
  | Locked _ => w
  | _ =>
      with_fs (fs_set p (File (CBook {| wb_sheet := ws; wb_committed := false |})) (fs w)) w
  end.

(** [await workbook.commit()] *)
Definition commit_book (p : jsstring) (ws : worksheet) (w : world) : world :=
  with_fs (fs_set p (File (CBook {| wb_sheet := ws; wb_committed := true |})) (fs w)) w.

Definition column_of_key (k : jsstring) : column :=
  {| header := k; key := k; width := 20 |}.

(** The [for await (const line of rl)] loop, with its two variables
    [isFirstRow] and [rowCount]. *)
Fixpoint convert_lines (lines : list jsstring) (isFirstRow : bool) (rowCount : N)
  (ws : worksheet) (w : world) {struct lines} : (error + worksheet) * world :=
  match lines with
  | [] => (inr ws, w)
  | line :: rest =>
      if negb (truthy_string (trim line)) then
        convert_lines rest isFirstRow rowCount ws w
      else
        match parse line with
        | None => (inl (SyntaxError line), w)
        | Some user =>
            match (if isFirstRow
                   then option_map (fun ks => set_columns (map column_of_key ks) ws)
                                   (JSObject.keys user)
                   else Some ws) with
            | None => (inl TypeError, w)
            | Some ws1 =>
                let ws2 := addRow user ws1 in
                let w1 := write_book xlsxPath ws2 w in
                let rowCount' := rowCount + 1 in
                let w2 :=
                  if rowCount' mod 100000 =? 0 then
                    logSystemStats (LExcelRows rowCount') (log (MExcelRows rowCount') w1)
                  else w1 in
                convert_lines rest false rowCount' ws2 w2
            end
        end
  end.

(** The error of the read stream rejects the iteration over the lines.
    [workbook.commit()] on a file that could not be opened is never
    settled. *)
Definition convertNDJSONToXLSX : stage :=
  fun w =>
    let w1 := create_book xlsxPath (js "Users") w in
    let w2 := io_turn w1 in
    match read_lines ndjsonPath w2 with
    | inl e => (Rejected e, w2)
    | inr lines =>
        match convert_lines lines true 0 (addWorksheet (js "Users")) w2 with
        | (inl e, w3) => (Rejected e, w3)
        | (inr ws, w3) =>
            match fs w3 xlsxPath with
            | Locked _ => (Hangs, io_turn w3)
            | _ =>
                let w4 := commit_book xlsxPath ws (io_turn w3) in
                (Resolved, logSystemStats LCompletedExcel (log MFinishedExcel w4))
            end
        end
    end.

(** *** Step 3: zip the files *)

(** [archive.file] queues an [lstat] of each file, and a file becomes an
    entry when its [lstat] completes: the two files of [zipFiles] in the
    order queued, or the other way round. *)
Definition completion_order {A : Type} (swapped : bool) (a b : A) : list A :=
  if swapped then [b; a] else [a; b].

(** The files are appended one after the other, in the order their [lstat]
    completed. A file that cannot be stat-ed raises a ['warning'] and is left
    out; a file that cannot be read raises ['error'], which rejects the
    promise, after its local header has been written and before anything
    else is appended. *)
Fixpoint append_entries (f : jsstring -> node) (queue : list (jsstring * jsstring))
  (done : list (jsstring * list N))
  : (error * list (jsstring * list N) * jsstring) + list (jsstring * list N) :=
  match queue with
  | [] => inr done
  | (src, name) :: rest =>
      match f src with
      | Absent => append_entries f rest done
      | Locked _ => inl (EACCES src, done, name)
      | File c => append_entries f rest (done ++ [(name, bytes_of rt c)])
      end
  end.

Definition write_zip (p : jsstring) (z : archive) (w : world) : world :=
  with_fs (fs_set p (File (CZip z)) (fs w)) w.

Definition zipFiles : stage :=
  fun w =>
    match fs w zipPath with
    | Locked _ => (Uncaught (EACCES zipPath), w)
    | _ =>
        let w1 := write_zip zipPath
                    {| zip_entries := []; zip_torn := None; zip_closed := false |} w in
        let queue := completion_order (stat_swap rt (turns w))
                       (ndjsonPath, js "users_stream.ndjson")
                       (xlsxPath, js "users_stream.xlsx") in
        let w2 := io_turn w1 in
        match append_entries (fs w2) queue [] with
        | inl (e, done, torn) =>
            (Rejected e,
             write_zip zipPath
               {| zip_entries := done; zip_torn := Some torn; zip_closed := false |} w2)
        | inr es =>
            let z := {| zip_entries := es; zip_torn := None; zip_closed := true |} in
            let w3 := write_zip zipPath z w2 in
            (Resolved,
             logSystemStats LCompletedZip (log (MZipCreated zipPath (pointer rt z)) w3))
        end
    end.

(** *** Step 4: the Agenda job *)

Definition job_start : stage :=
  fun w => (Resolved, logSystemStats LJobStart (log MJobStarted w)).

Definition job_end : stage :=
  fun w => (Resolved, logSystemStats LJobEnd (log MJobCompleted w)).

(** [agenda.define('generate-and-zip-users', async job => ...)] *)
Definition job : stage :=
  (job_start ;; writeUsersToNDJSON ;; convertNDJSONToXLSX ;; zipFiles ;; job_end)%stage.

End Program.

(** The process as it starts: no file, no stream, nothing logged. *)
Definition boot : world :=
  {| fs := fun _ => Absent; out := None; turns := 0; draws := 0; trace := [] |}.

End Sys.

(* ================================================================== *)
(** ** Vocabulary of the properties *)
(* ================================================================== *)

Module Props.
Import JSON Excel Sys.

(** *** Serialising and parsing *)

(** What [parse_chars] does after it has read one more character [c]. *)
Definition and_cons (c : N) (r : option (jsstring * jsstring)) : option (jsstring * jsstring) :=
  match r with
  | Some (t, rest) => Some (c :: t, rest)
  | None => None
  end.

(** A printable code unit: not a control character, and neither of the
    separators U+2028 and U+2029. *)
Definition inline (c : N) : Prop := 32 <= c /\ c <> 8232 /\ c <> 8233.

Definition printable (s : jsstring) : Prop := Forall inline s.

(** A string without U+2028 and U+2029. *)
Definition plain (s : jsstring) : Prop := Forall (fun c => c <> 8232 /\ c <> 8233) s.

(** The string a value is serialised as ([toJSON] for a date). *)
Definition string_of_value (v : jsvalue) : jsstring :=
  match v with
  | VString s => s
  | VDate t => JSDate.toISOString t
  end.

(** A record whose keys and values hold no U+2028 and no U+2029. *)
Definition plain_object (o : jsobject) : Prop :=
  Forall (fun p => plain (fst p) /\ plain (string_of_value (snd p))) o.

(** The properties [JSON.parse] builds from the text of [o]. *)
Definition parsed_props (o : jsobject) (acc : list (jsstring * json))
  : list (jsstring * json) :=
  fold_left (fun a p => obj_set (fst p) (JStr (string_of_value (snd p))) a) o acc.

(** *** Records and lines *)


(** The seven fields of a user record, in the order [generateUser] writes
    them. *)
Definition user_fields : list jsstring :=
  [ js "userId"; js "username"; js "email"; js "avatar"; js "password";
    js "birthdate"; js "registeredAt" ].

Fixpoint keys_eqb (a b : list jsstring) : bool :=
  match a, b with
  | [], [] => true
  | x :: a', y :: b' => str_eqb x y && keys_eqb a' b'
  | _, _ => false
  end.

Definition nonempty_string (c : option json) : bool :=
  match c with
  | Some (JStr (_ :: _)) => true
  | _ => false
  end.

(** A parsed record with exactly the seven fields, each a non-empty string. *)
Definition complete_user (v : json) : bool :=
  match v with
  | JObj props =>
      keys_eqb (JSObject.own_keys props) user_fields
      && forallb (fun k => nonempty_string (JSObject.get v k)) user_fields
  | _ => false
  end.

(** No line or paragraph separator (U+2028, U+2029) in the string. *)
Definition one_line (s : jsstring) : bool :=
  forallb (fun c => negb ((c =? 8232) || (c =? 8233))) s.

(** Faker's contract for the five string fields: each is a non-empty string
    without line or paragraph separator. *)
Definition valid_draw (d : draw) : bool :=
  truthy_string (d_uuid d) && truthy_string (d_username d)
  && truthy_string (d_email d) && truthy_string (d_avatar d)
  && truthy_string (d_password d)
  && one_line (d_uuid d) && one_line (d_username d)
  && one_line (d_email d) && one_line (d_avatar d)
  && one_line (d_password d).

(** The test of the conversion loop: [line.trim()] is truthy. *)
Definition nonblank (line : jsstring) : bool := truthy_string (trim line).

(** The parsed values of the non-blank lines, when all of them parse. *)
Fixpoint records_of (lines : list jsstring) : option (list json) :=
  match lines with
  | [] => Some []
  | l :: rest =>
      if nonblank l then
        match parse l with
        | Some v => option_map (cons v) (records_of rest)
        | None => None
        end
      else records_of rest
  end.





(** *** The conversion loop *)

(** The loop seen from the sheet alone. *)
Fixpoint sheet_after (lines : list jsstring) (isFirstRow : bool) (ws : worksheet)
  : error + worksheet :=
  match lines with
  | [] => inr ws
  | line :: rest =>
      if negb (nonblank line) then sheet_after rest isFirstRow ws
      else
        match parse line with
        | None => inl (SyntaxError line)
        | Some user =>
            match (if isFirstRow
                   then option_map (fun ks => set_columns (map column_of_key ks) ws)
                                   (JSObject.keys user)
                   else Some ws) with
            | None => inl TypeError
            | Some ws1 => sheet_after rest false (addRow user ws1)
            end
        end
  end.

Definition add_rows (vs : list json) (ws : worksheet) : worksheet :=
  fold_left (fun s v => addRow v s) vs ws.

(** The sheet last streamed to the file while the loop runs; [cur] is the one
    on disk when it starts. *)
Fixpoint book_after (lines : list jsstring) (isFirstRow : bool) (ws cur : worksheet)
  : worksheet :=
  match lines with
  | [] => cur
  | line :: rest =>
      if negb (nonblank line) then book_after rest isFirstRow ws cur
      else
        match parse line with
        | None => cur
        | Some user =>
            match (if isFirstRow
                   then option_map (fun ks => set_columns (map column_of_key ks) ws)
                                   (JSObject.keys user)
                   else Some ws) with
            | None => cur
            | Some ws1 => book_after rest false (addRow user ws1) (addRow user ws1)
            end
        end
  end.

(** *** The stages *)

(** No chunk of the write stream is waiting to be written. *)
Definition quiet (w : world) : Prop :=
  match out w with
  | Some s => st_pending s = []
  | None => True
  end.

(** The three events of a checkpoint of the writer, after [written] records. *)
Definition checkpoint_events (batchSize written : N) : list event :=
  [ Log (MWroteBatch written batchSize);
    Stats (LAfterBatch written batchSize);
    Sleep 500 ].


(** [b, 2b, ..., count * b] *)
Definition multiples (b : N) (count : N) : list N :=
  map (fun k => N.of_nat k * b) (seq 1 (N.to_nat count)).

(** The events the loop has logged after [n] records. *)
Definition progress (b : N) (n : N) : list event :=
  flat_map (checkpoint_events b) (multiples 100000 (n / 100000)).

Section WithRuntime.

Variable rt : runtime.

(** The workbook at [xlsxPath]. *)
Definition table_of (w : world) : option workbook :=
  match fs w (xlsxPath rt) with
  | File (CBook b) => Some b
  | _ => None
  end.

(** The archive at [zipPath]. *)
Definition archive_of (w : world) : option archive :=
  match fs w (zipPath rt) with
  | File (CZip z) => Some z
  | _ => None
  end.

(** The record [generateUser] builds from one draw. *)
Definition user_of (d : draw) : jsobject :=
  [ (js "userId", VString (d_uuid d));
    (js "username", VString (d_username d));
    (js "email", VString (d_email d));
    (js "avatar", VString (d_avatar d));
    (js "password", VString (d_password d));
    (js "birthdate", VDate (d_birthdate d));
    (js "registeredAt", VDate (d_past d)) ].

(** The lines written for the draws [from], ..., [from + k - 1]. *)
Definition written (from k : nat) : list jsstring :=
  map (fun j => stringify (user_of (faker rt j))) (seq from k).

(** A world whose line-stream file holds [data] and nothing else. *)
Definition with_source (data : jsstring) : world :=
  with_fs (fs_set (ndjsonPath rt) (File (CText data)) (fs boot)) boot.

(** The state of the loop after [k] records: the file and the buffer hold,
    between them, the [k] lines in order, and the stream is open. *)
Definition writing (f0 : jsstring -> node) (d0 : nat) (tr : list event) (k : nat)
  (w : world) : Prop :=
  exists disk pend,
    fs w (ndjsonPath rt) = File (CText disk)
    /\ out w = Some {| st_path := ndjsonPath rt; st_pending := pend; st_state := Open |}
    /\ disk ++ concat pend = concat (map (fun l => l ++ [10]) (written d0 k))
    /\ draws w = (d0 + k)%nat
    /\ trace w = tr
    /\ (forall q, str_eqb q (ndjsonPath rt) = false -> fs w q = f0 q).

(** The files [zipFiles] queues in the world [w], with their entry names, in
    the order their [lstat] completes. *)
Definition queue (w : world) : list (jsstring * jsstring) :=
  completion_order (stat_swap rt (turns w))
    (ndjsonPath rt, js "users_stream.ndjson") (xlsxPath rt, js "users_stream.xlsx").

End WithRuntime.

(** The value [JSON.parse] gives for the line of one draw. *)
Definition parsed_user (d : draw) : json := JObj (parsed_props (user_of d) []).


(** A runtime to evaluate the program on: every draw is the same user, the
    disk completes a hundred operations per turn. *)
Definition sample_draw : draw :=
  {| d_uuid := js "6fd1e0c4-0f7c-4f0e-9d55-2b1c3a4d5e6f";
     d_username := js "Ada.Lovelace";
     d_email := js "ada@example.org";
     d_avatar := js "https://avatars.example.org/u/1815";
     d_password := js "s3cret";
     d_birthdate := 951782400000;
     d_past := 1730592000123 |}.

Definition sample_rt : runtime :=
  {| dirname := js "/srv/app";
     faker := fun _ => sample_draw;
     io_ops := fun _ => 100%nat;
     stat_swap := fun _ => false;
     bytes_of := fun c => match c with CText s => s | _ => [80; 75; 3; 4] end;
     pointer := fun z => N.of_nat (length (zip_entries z)) |}.

(** A source with a complete record, a blank line, and a record that lacks
    six of the seven keys and has one of its own; the last line ends in
    CR LF. *)
Definition sample_source : jsstring :=
  stringify (user_of sample_draw) ++ [10]
  ++ [32; 9] ++ [10]
  ++ stringify [ (js "userId", VString (js "7")); (js "nickname", VString (js "Zed")) ]
  ++ [13; 10].

(** The sample source followed by a line that is not JSON and by one more
    record. *)
Definition sample_broken : jsstring :=
  sample_source ++ js "{oops" ++ [10] ++ stringify (user_of sample_draw) ++ [10].

End Props.

(* ================================================================== *)
(** ** The line of [logSystemStats] *)
(* ================================================================== *)

Module StatsLine.

(** The integer [h] nearest to [100 * num / den], the larger one on a tie:
    the digits [Number.prototype.toFixed(2)] prints for the non-negative
    number [num / den]. *)
Definition hundredths (num den : N) : N := (200 * num + den) / (2 * den).

(** [(num / den).toFixed(2)] for a non-negative number below [10^21]. *)
Definition toFixed2 (num den : N) : jsstring :=
  let h := hundredths num den in
  dec (h / 100) ++ js "." ++ JSDate.pad 2 (Z.of_N (h mod 100)).

(** [(bytes / 1024 / 1024).toFixed(2)]: both divisions are exact on a byte
    count. *)
Definition megabytes (bytes : N) : jsstring := toFixed2 bytes 1048576.

(** What [process.memoryUsage()] and [os.loadavg()[0]] return: two byte
    counts and a non-negative number given as a fraction. *)
Record sample := {
  heapUsed : N;
  rss : N;
  load_num : N;
  load_den : N
}.

(** The text [logSystemStats(label)] passes to [console.log]. *)
Definition stats_line (label : jsstring) (m : sample) : jsstring :=
  [55357; 56589] ++ js " [" ++ label ++ js "] Memory Used: "
  ++ megabytes (heapUsed m) ++ js " MB | RSS: " ++ megabytes (rss m)
  ++ js " MB | CPU Load: " ++ toFixed2 (load_num m) (load_den m).

End StatsLine.

(* ================================================================== *)
(** ** The database handle of [db.js] *)
(* ================================================================== *)

Module Db.

(** [client.db(name)]: the handle of one database of one client. *)
Record db := { db_client : nat; db_name : jsstring }.

(** The module's variable [dbInstance] ([None] is [null]) and the number of
    calls made to [MongoClient.connect]. *)
Record dbstate := { dbInstance : option db; attempts : nat }.

(** [`${process.env.MONGO_URL}`]: an unset variable gives the text
    [undefined]. *)
Definition url (env : option jsstring) : jsstring :=
  match env with
  | Some s => s
  | None => js "undefined"
  end.

Definition dbName : jsstring := js "giftdb".

(** Where a call stands when it first suspends or returns. *)
Inductive started : Type :=
| Cached (d : db)
| Connecting (attempt : nat).

Section Connect.

(** [MongoClient.connect]: the client its [n]-th call yields for a URL, or
    [None] when the promise rejects. *)
Variable mongo : nat -> jsstring -> option nat.
Variable env : option jsstring.

(** [connectToDatabase] up to its [await]. *)
Definition connect_begin (st : dbstate) : started * dbstate :=
  match dbInstance st with
  | Some d => (Cached d, st)
  | None =>
      (Connecting (attempts st), {| dbInstance := None; attempts := S (attempts st) |})
  end.

(** [connectToDatabase] from its [await] on: [None] is the rejection. *)
Definition connect_finish (attempt : nat) (st : dbstate) : option db * dbstate :=
  match mongo attempt (url env) with
  | Some c =>
      let d := {| db_client := c; db_name := dbName |} in
      (Some d, {| dbInstance := Some d; attempts := attempts st |})
  | None => (None, st)
  end.

(** A call that nothing interleaves with. *)
Definition connectToDatabase (st : dbstate) : option db * dbstate :=
  match connect_begin st with
  | (Cached d, st') => (Some d, st')
  | (Connecting a, st') => connect_finish a st'
  end.

(** [k] calls, one after the other. *)
Fixpoint calls (k : nat) (st : dbstate) : list (option db) * dbstate :=
  match k with
  | O => ([], st)
  | S k' =>
      let (r, st1) := connectToDatabase st in
      let (rs, st2) := calls k' st1 in
      (r :: rs, st2)
  end.

End Connect.

End Db.

(* ================================================================== *)
(** ** Vocabulary of the further properties *)
(* ================================================================== *)

Module Cover.
Import JSON Excel Sys Props.

(** The two events of a progress report of the converter. *)
Definition excel_events (rowCount : N) : list event :=
  [ Log (MExcelRows rowCount); Stats (LExcelRows rowCount) ].

(** What the converter has logged after [n] rows. *)
Definition excel_progress (n : N) : list event :=
  flat_map excel_events (multiples 100000 (n / 100000)).

(** The rows the loop commits before it ends or throws. *)
Fixpoint committed_rows (lines : list jsstring) (isFirstRow : bool) : N :=
  match lines with
  | [] => 0
  | line :: rest =>
      if negb (nonblank line) then committed_rows rest isFirstRow
      else
        match parse line with
        | None => 0
        | Some user =>
            match (if isFirstRow then JSObject.keys user else Some []) with
            | None => 0
            | Some _ => N.succ (committed_rows rest false)
            end
        end
  end.

(** The row of one generated user: the five strings and the two dates in ISO
    form. *)
Definition row_of_draw (d : draw) : row :=
  [ Some (JStr (d_uuid d)); Some (JStr (d_username d)); Some (JStr (d_email d));
    Some (JStr (d_avatar d)); Some (JStr (d_password d));
    Some (JStr (JSDate.toISOString (d_birthdate d)));
    Some (JStr (JSDate.toISOString (d_past d))) ].

(** The text of the file written for the draws [from], ..., [from + k - 1]. *)
Definition text_of_draws (rt : runtime) (from k : nat) : jsstring :=
  concat (map (fun l => l ++ [10]) (written rt from k)).

(** The chunks waiting in the write stream. *)
Definition buffered (w : world) : list jsstring :=
  match out w with
  | Some s => st_pending s
  | None => []
  end.

(** The file at [p] as text, when it is a text file. *)
Definition on_disk (p : jsstring) (w : world) : option jsstring :=
  match fs w p with
  | File (CText d) => Some d
  | _ => None
  end.

(** The sample surroundings with a disk that completes 100000 operations in
    every turn of the event loop. *)
Definition prompt_rt : runtime :=
  {| dirname := dirname sample_rt;
     faker := faker sample_rt;
     io_ops := fun _ => N.to_nat 100000;
     stat_swap := stat_swap sample_rt;
     bytes_of := bytes_of sample_rt;
     pointer := pointer sample_rt |}.

(** The sample surroundings when, of the two [lstat] calls of the archiver,
    the second completes first. *)
Definition swapped_rt : runtime :=
  {| dirname := dirname sample_rt;
     faker := faker sample_rt;
     io_ops := io_ops sample_rt;
     stat_swap := fun _ => true;
     bytes_of := bytes_of sample_rt;
     pointer := pointer sample_rt |}.

(** The two events logged at the end of the job. *)
Definition closing (e : event) : bool :=
  match e with
  | Log MJobCompleted | Stats LJobEnd => true
  | _ => false
  end.

(** The lines of [ls], each followed by the terminator [nl]. *)
Definition terminated (nl : jsstring) (ls : list jsstring) : jsstring :=
  concat (map (fun l => l ++ nl) ls).

(** The lines of [ls] separated by [nl], the last one unterminated. *)
Fixpoint separated (nl : jsstring) (ls : list jsstring) : jsstring :=
  match ls with
  | [] => []
  | [l] => l
  | l :: rest => l ++ nl ++ separated nl rest
  end.

End Cover.

(* ================================================================== *)
(** ** Facts about strings and JSON *)
(* ================================================================== *)

Module StrFacts.

Lemma str_eqb_refl (a : jsstring) : str_eqb a a = true.
Proof.
  induction a as [|x a IH]; simpl; [reflexivity|].
  now rewrite N.eqb_refl, IH.
Qed.

Lemma str_eqb_eq (a b : jsstring) : str_eqb a b = true <-> a = b.
Proof.
  split.
  - revert b. induction a as [|x a IH]; intros [|y b] H; simpl in H; try discriminate.
    + reflexivity.
    + apply andb_true_iff in H. destruct H as [Hx Hr].
      apply N.eqb_eq in Hx. subst y. f_equal. now apply IH.
  - intros ->. apply str_eqb_refl.
Qed.

Lemma str_eqb_neq (a b : jsstring) : a <> b -> str_eqb a b = false.
Proof.
  intros H. destruct (str_eqb a b) eqn:E; [|reflexivity].
  apply str_eqb_eq in E. contradiction.
Qed.

End StrFacts.

Module JSONFacts.
Import JSON Sys Props.

Lemma hex_value_digit (n : N) : n < 16 -> hex_value (hex_digit n) = Some n.
Proof.
  intros H.
  assert (Hn : In n [0;1;2;3;4;5;6;7;8;9;10;11;12;13;14;15]).
  { simpl. lia. }
  simpl in Hn.
  repeat (destruct Hn as [<-|Hn]; [reflexivity|]). contradiction.
Qed.

Lemma hex_recompose (c : N) :
  c / 4096 * 4096 + (c / 256) mod 16 * 256 + (c / 16) mod 16 * 16 + c mod 16 = c.
Proof.
  assert (E1 : c / 256 = c / 16 / 16) by (rewrite N.Div0.div_div; reflexivity).
  assert (E2 : c / 4096 = c / 256 / 16) by (rewrite N.Div0.div_div; reflexivity).
  pose proof (N.div_mod c 16 ltac:(lia)) as H1.
  pose proof (N.div_mod (c / 16) 16 ltac:(lia)) as H2.
  pose proof (N.div_mod (c / 256) 16 ltac:(lia)) as H3.
  rewrite <- E1 in H2. rewrite <- E2 in H3.
  lia.
Qed.

Lemma parse_unicode_escape (c : N) (rest : jsstring) :
  c < 65536 ->
  parse_chars (unicode_escape c ++ rest) = and_cons c (parse_chars rest).
Proof.
  intros H. unfold unicode_escape.
  cbn [app parse_chars]. 
  change (92 =? 34) with false. change (92 =? 92) with true.
  change (117 =? 117) with true. cbv iota.
  assert (H16 : c / 4096 < 16) by (apply N.Div0.div_lt_upper_bound; lia).
  rewrite !hex_value_digit by (try assumption; apply N.mod_lt; lia).
  rewrite hex_recompose.
  reflexivity.
Qed.

Lemma parse_literal (c : N) (rest : jsstring) :
  c <> 34 -> c <> 92 -> 32 <= c ->
  parse_chars (c :: rest) = and_cons c (parse_chars rest).
Proof.
  intros H1 H2 H3. cbn [parse_chars].
  rewrite (proj2 (N.eqb_neq c 34)), (proj2 (N.eqb_neq c 92)) by assumption.
  rewrite (proj2 (N.ltb_ge c 32)) by assumption.
  reflexivity.
Qed.

Lemma parse_quote_unit (c : N) (rest : jsstring) :
  parse_chars (quote_unit c ++ rest) = and_cons c (parse_chars rest).
Proof.
  unfold quote_unit.
  destruct (N.eqb_spec c 8) as [->|H8]; [reflexivity|].
  destruct (N.eqb_spec c 9) as [->|H9]; [reflexivity|].
  destruct (N.eqb_spec c 10) as [->|H10]; [reflexivity|].
  destruct (N.eqb_spec c 12) as [->|H12]; [reflexivity|].
  destruct (N.eqb_spec c 13) as [->|H13]; [reflexivity|].
  destruct (N.eqb_spec c 34) as [->|H34]; [reflexivity|].
  destruct (N.eqb_spec c 92) as [->|H92]; [reflexivity|].
  destruct (N.ltb_spec c 32) as [Hlt|Hge].
  - apply parse_unicode_escape. lia.
  - apply parse_literal; assumption.
Qed.

Lemma lead_range (c : N) : is_lead c = true -> 55296 <= c <= 56319.
Proof. unfold is_lead. intros H. apply andb_true_iff in H. destruct H as [H1 H2].
  apply N.leb_le in H1, H2. lia. Qed.

Lemma trail_range (c : N) : is_trail c = true -> 56320 <= c <= 57343.
Proof. unfold is_trail. intros H. apply andb_true_iff in H. destruct H as [H1 H2].
  apply N.leb_le in H1, H2. lia. Qed.

(** Reading back a quoted string gives the string. *)
Lemma parse_quote_units_len (n : nat) :
  forall s rest, (length s <= n)%nat ->
  parse_chars (quote_units s ++ 34 :: rest) = Some (s, rest).
Proof.
  induction n as [|n IH]; intros s rest Hlen.
  - destruct s; [reflexivity | simpl in Hlen; lia].
  - destruct s as [|c s]; [reflexivity|].
    simpl in Hlen. cbn [quote_units].
    destruct (is_lead c) eqn:Hl.
    + apply lead_range in Hl.
      destruct s as [|d s].
      * rewrite parse_unicode_escape by lia. reflexivity.
      * destruct (is_trail d) eqn:Ht.
        -- apply trail_range in Ht. simpl in Hlen.
           cbn [app]. rewrite parse_literal by lia. rewrite parse_literal by lia.
           rewrite IH by lia. reflexivity.
        -- rewrite <- app_assoc, parse_unicode_escape by lia.
           rewrite IH by lia. reflexivity.
    + destruct (is_trail c) eqn:Ht.
      * apply trail_range in Ht.
        rewrite <- app_assoc, parse_unicode_escape by lia.
        rewrite IH by lia. reflexivity.
      * rewrite <- app_assoc, parse_quote_unit, IH by lia. reflexivity.
Qed.

Lemma parse_quote_units (s rest : jsstring) :
  parse_chars (quote_units s ++ 34 :: rest) = Some (s, rest).
Proof. apply (parse_quote_units_len (length s)). lia. Qed.


(** *** The text of a serialised object holds no line terminator *)

Lemma printable_app (a b : jsstring) : printable a -> printable b -> printable (a ++ b).
Proof. intros Ha Hb. apply Forall_app. now split. Qed.

Lemma hex_digit_inline (n : N) : n < 16 -> inline (hex_digit n).
Proof. unfold hex_digit, inline. intros H. destruct (n <? 10); lia. Qed.

Lemma unicode_escape_printable (c : N) : c < 65536 -> printable (unicode_escape c).
Proof.
  intros H. unfold unicode_escape, printable.
  assert (H16 : c / 4096 < 16) by (apply N.Div0.div_lt_upper_bound; lia).
  repeat (apply Forall_cons;
          [first [apply hex_digit_inline; first [assumption | apply N.mod_lt; lia]
                 | unfold inline; lia]|]).
  apply Forall_nil.
Qed.

Lemma quote_unit_printable (c : N) : c <> 8232 -> c <> 8233 -> printable (quote_unit c).
Proof.
  intros H1 H2. unfold quote_unit.
  repeat match goal with
         | |- printable (if ?c =? ?k then _ else _) =>
             destruct (c =? k); [repeat constructor; lia|]
         end.
  destruct (N.ltb_spec c 32).
  - apply unicode_escape_printable. lia.
  - repeat constructor; assumption.
Qed.

Lemma quote_units_printable_len (n : nat) :
  forall s, (length s <= n)%nat -> plain s -> printable (quote_units s).
Proof.
  induction n as [|n IH]; intros s Hlen Hp.
  - destruct s; [constructor | simpl in Hlen; lia].
  - destruct s as [|c s]; [constructor|].
    simpl in Hlen. inversion Hp as [|? ? [Hc1 Hc2] Hs]; subst. cbn [quote_units].
    destruct (is_lead c) eqn:Hl.
    + apply lead_range in Hl. destruct s as [|d s].
      * apply unicode_escape_printable. lia.
      * inversion Hs as [|? ? Hd Hs']; subst.
        destruct (is_trail d) eqn:Ht.
        -- apply trail_range in Ht. simpl in Hlen.
           constructor; [unfold inline; lia|]. constructor; [unfold inline; lia|].
           apply IH; [lia | exact Hs'].
        -- apply printable_app;
             [apply unicode_escape_printable; lia | apply IH; [lia | exact Hs]].
    + destruct (is_trail c) eqn:Ht.
      * apply trail_range in Ht.
        apply printable_app;
          [apply unicode_escape_printable; lia | apply IH; [lia | exact Hs]].
      * apply printable_app;
          [apply quote_unit_printable; assumption | apply IH; [lia | exact Hs]].
Qed.

Lemma quote_printable (s : jsstring) : plain s -> printable (QuoteJSONString s).
Proof.
  intros Hp. unfold QuoteJSONString. constructor; [unfold inline; lia|].
  apply printable_app.
  - apply (quote_units_printable_len (length s)); [lia | exact Hp].
  - repeat constructor; lia.
Qed.

Lemma serialize_property_printable (p : jsstring * jsvalue) :
  plain (fst p) -> plain (string_of_value (snd p)) ->
  printable (serialize_property p).
Proof.
  intros Hk Hv. unfold serialize_property.
  apply printable_app; [apply quote_printable; exact Hk|].
  apply printable_app; [repeat constructor; lia|].
  destruct (snd p); apply quote_printable; exact Hv.
Qed.

Lemma join_comma_printable (l : list jsstring) :
  Forall printable l -> printable (join_comma l).
Proof.
  induction l as [|x l IH]; intros H; [constructor|].
  inversion H as [|? ? Hx Hl]; subst.
  destruct l as [|y l]; [exact Hx|].
  change (join_comma (x :: y :: l)) with (x ++ [44] ++ join_comma (y :: l)).
  apply printable_app; [exact Hx|].
  apply printable_app; [repeat constructor; lia | apply IH; exact Hl].
Qed.

Lemma stringify_printable (o : jsobject) : plain_object o -> printable (stringify o).
Proof.
  intros Ho. unfold stringify.
  apply printable_app; [repeat constructor; lia|].
  apply printable_app; [|repeat constructor; lia].
  apply join_comma_printable.
  apply Forall_forall. intros x Hx. apply in_map_iff in Hx.
  destruct Hx as [p [<- Hp]].
  unfold plain_object in Ho. rewrite Forall_forall in Ho.
  destruct (Ho p Hp). now apply serialize_property_printable.
Qed.

(** *** Reading back a serialised object *)

Lemma serialize_property_app (p : jsstring * jsvalue) (tail : jsstring) :
  serialize_property p ++ tail =
  34 :: quote_units (fst p) ++ 34 :: 58 :: 34 ::
        quote_units (string_of_value (snd p)) ++ 34 :: tail.
Proof.
  unfold serialize_property, serialize_value, QuoteJSONString.
  destruct (snd p); cbn [string_of_value app];
    rewrite <- !app_assoc; cbn [app]; f_equal;
    rewrite <- !app_assoc; reflexivity.
Qed.

Lemma parse_member_last (fuel : nat) acc (k v tail : jsstring) :
  parse_members (S (S fuel)) acc
    (34 :: quote_units k ++ 34 :: 58 :: 34 :: quote_units v ++ 34 :: 125 :: tail)
  = Some (JObj (obj_set k (JStr v) acc), tail).
Proof.
  cbn [parse_members skip_ws]. change (is_json_ws 34) with false. cbv iota.
  change (34 =? 34) with true. cbv iota.
  rewrite parse_quote_units.
  cbn [skip_ws]. change (is_json_ws 58) with false. cbv iota.
  change (58 =? 58) with true. cbv iota.
  cbn [parse_value skip_ws]. change (is_json_ws 34) with false. cbv iota.
  change (34 =? 123) with false. change (34 =? 91) with false.
  change (34 =? 34) with true. cbv iota.
  rewrite parse_quote_units.
  cbn [skip_ws]. change (is_json_ws 125) with false. cbv iota.
  reflexivity.
Qed.

Lemma parse_member_next (fuel : nat) acc (k v tail : jsstring) :
  parse_members (S (S fuel)) acc
    (34 :: quote_units k ++ 34 :: 58 :: 34 :: quote_units v ++ 34 :: 44 :: tail)
  = parse_members (S fuel) (obj_set k (JStr v) acc) tail.
Proof.
  cbn [parse_members skip_ws]. change (is_json_ws 34) with false. cbv iota.
  change (34 =? 34) with true. cbv iota.
  rewrite parse_quote_units.
  cbn [skip_ws]. change (is_json_ws 58) with false. cbv iota.
  change (58 =? 58) with true. cbv iota.
  cbn [parse_value skip_ws]. change (is_json_ws 34) with false. cbv iota.
  change (34 =? 123) with false. change (34 =? 91) with false.
  change (34 =? 34) with true. cbv iota.
  rewrite parse_quote_units.
  cbn [skip_ws]. change (is_json_ws 44) with false. cbv iota.
  reflexivity.
Qed.

Lemma parse_members_props (o : jsobject) :
  forall acc fuel tail,
  o <> [] -> (length o < fuel)%nat ->
  parse_members fuel acc (join_comma (map serialize_property o) ++ 125 :: tail)
  = Some (JObj (parsed_props o acc), tail).
Proof.
  induction o as [|p o IH]; intros acc fuel tail Hne Hfuel; [contradiction|].
  destruct fuel as [|[|fuel]]; try (simpl in Hfuel; lia).
  destruct o as [|q o].
  - cbn [map join_comma]. rewrite serialize_property_app.
    rewrite parse_member_last. reflexivity.
  - change (join_comma (map serialize_property (p :: q :: o)))
      with (serialize_property p ++ [44] ++ join_comma (map serialize_property (q :: o))).
    rewrite <- app_assoc, serialize_property_app.
    cbn [app]. rewrite parse_member_next.
    rewrite IH; [reflexivity | discriminate | simpl in *; lia].
Qed.

Lemma join_comma_length (l : list jsstring) :
  Forall (fun x => x <> []) l -> (length l <= length (join_comma l))%nat.
Proof.
  induction l as [|x l IH]; intros H; [simpl; lia|].
  inversion H as [|? ? Hx Hl]; subst.
  destruct l as [|y l].
  - destruct x; [contradiction | simpl; lia].
  - change (join_comma (x :: y :: l)) with (x ++ [44] ++ join_comma (y :: l)).
    rewrite !length_app. specialize (IH Hl). simpl in *. lia.
Qed.

Lemma serialize_property_nonempty (p : jsstring * jsvalue) : serialize_property p <> [].
Proof. unfold serialize_property, QuoteJSONString. discriminate. Qed.

(** [JSON.parse(JSON.stringify(o))] for a non-empty record of strings and
    dates. *)
Lemma parse_stringify (o : jsobject) :
  o <> [] -> parse (stringify o) = Some (JObj (parsed_props o [])).
Proof.
  intros Hne. unfold parse, parse_with.
  assert (Hlen : (length o < length (stringify o))%nat).
  { unfold stringify. rewrite !length_app. simpl.
    assert (length o <= length (join_comma (map serialize_property o)))%nat.
    { rewrite <- (length_map serialize_property o). apply join_comma_length.
      apply Forall_forall. intros x Hx. apply in_map_iff in Hx.
      destruct Hx as [p [<- _]]. apply serialize_property_nonempty. }
    lia. }
  destruct o as [|p o]; [contradiction|].
  unfold stringify in *.
  remember (length ([123] ++ join_comma (map serialize_property (p :: o)) ++ [125])) as n eqn:Hn.
  cbn [app parse_value skip_ws]. change (is_json_ws 123) with false. cbv iota.
  change (123 =? 123) with true. cbv iota.
  assert (Hhead : exists r, join_comma (map serialize_property (p :: o)) ++ [125] = 34 :: r).
  { destruct o as [|q o].
    - cbn [map join_comma]. rewrite serialize_property_app. eexists. reflexivity.
    - change (join_comma (map serialize_property (p :: q :: o)))
        with (serialize_property p ++ [44] ++ join_comma (map serialize_property (q :: o))).
      rewrite <- app_assoc, serialize_property_app. eexists. reflexivity. }
  destruct Hhead as [r Hr]. rewrite Hr.
  cbn [skip_ws]. change (is_json_ws 34) with false. cbv iota.
  change (34 =? 125) with false. cbv iota.
  rewrite <- Hr.
  rewrite parse_members_props by (try discriminate; lia).
  reflexivity.
Qed.

End JSONFacts.

(* ================================================================== *)
(** ** The parser does not run out of fuel *)
(* ================================================================== *)

Module FuelFacts.
Import JSON.

Lemma skip_ws_length (s : jsstring) : (length (skip_ws s) <= length s)%nat.
Proof.
  induction s as [|c s IH]; [simpl; lia|].
  cbn [skip_ws]. destruct (is_json_ws c); simpl in *; lia.
Qed.

Lemma skip_ws_cons_length (s r : jsstring) (c : N) :
  skip_ws s = c :: r -> (length r < length s)%nat.
Proof.
  intros H. pose proof (skip_ws_length s) as L. rewrite H in L. simpl in L. lia.
Qed.

Lemma parse_chars_length_le (n : nat) :
  forall s t r, (length s <= n)%nat -> parse_chars s = Some (t, r) ->
  (length r < length s)%nat.
Proof.
  induction n as [|n IH]; intros s t r Hn H.
  - destruct s; [discriminate | simpl in Hn; lia].
  - destruct s as [|c s]; [discriminate|].
    simpl in Hn. cbn [parse_chars] in H.
    destruct (c =? 34).
    { inversion H; subst. simpl. lia. }
    destruct (c =? 92).
    { destruct s as [|e r1]; [discriminate|].
      destruct (e =? 117).
      - destruct r1 as [|h1 [|h2 [|h3 [|h4 r2]]]]; try discriminate.
        destruct (hex_value h1), (hex_value h2), (hex_value h3), (hex_value h4);
          try discriminate.
        destruct (parse_chars r2) as [[t' rest]|] eqn:E; [|discriminate].
        inversion H; subst. apply IH in E; simpl in *; lia.
      - destruct (unescape e); [|discriminate].
        destruct (parse_chars r1) as [[t' rest]|] eqn:E; [|discriminate].
        inversion H; subst. apply IH in E; simpl in *; lia. }
    destruct (c <? 32); [discriminate|].
    destruct (parse_chars s) as [[t' rest]|] eqn:E; [|discriminate].
    inversion H; subst. apply IH in E; simpl in *; lia.
Qed.

Lemma parse_chars_length (s t r : jsstring) :
  parse_chars s = Some (t, r) -> (length r < length s)%nat.
Proof. apply (parse_chars_length_le (length s)). lia. Qed.

Lemma strip_prefix_length (p : jsstring) :
  forall s r, strip_prefix p s = Some r -> (length r + length p = length s)%nat.
Proof.
  induction p as [|x p IH]; intros s r H.
  - destruct s; inversion H; simpl; lia.
  - destruct s as [|y s]; [discriminate|]. cbn [strip_prefix] in H.
    destruct (x =? y); [|discriminate]. apply IH in H. simpl. lia.
Qed.

Lemma span_digits_length (s : jsstring) :
  (length (snd (span_digits s)) <= length s)%nat.
Proof.
  induction s as [|c s IH]; [simpl; lia|].
  cbn [span_digits]. destruct (is_digit c); [|simpl; lia].
  destruct (span_digits s) as [ds rest]. simpl in *. lia.
Qed.

Lemma parse_int_length (s i r : jsstring) :
  parse_int s = Some (i, r) -> (length r < length s)%nat.
Proof.
  destruct s as [|c s]; [discriminate|]. cbn [parse_int].
  destruct (c =? 48); [intros H; inversion H; simpl; lia|].
  destruct (is_digit c); [|discriminate].
  pose proof (span_digits_length s) as L.
  destruct (span_digits s) as [ds rest]. intros H. inversion H; subst. simpl in *. lia.
Qed.

Lemma parse_frac_length (s f r : jsstring) :
  parse_frac s = Some (f, r) -> (length r <= length s)%nat.
Proof.
  destruct s as [|c s]; [intros H; inversion H; simpl; lia|]. cbn [parse_frac].
  destruct (c =? 46); [|intros H; inversion H; simpl; lia].
  pose proof (span_digits_length s) as L.
  destruct (span_digits s) as [[|d ds] rest]; [discriminate|].
  intros H. inversion H; subst. simpl in *. lia.
Qed.

Lemma parse_exp_length (s e r : jsstring) :
  parse_exp s = Some (e, r) -> (length r <= length s)%nat.
Proof.
  destruct s as [|c s]; [intros H; inversion H; simpl; lia|]. cbn [parse_exp].
  destruct ((c =? 101) || (c =? 69)); [|intros H; inversion H; simpl; lia].
  destruct s as [|g s'].
  - cbn. discriminate.
  - destruct ((g =? 43) || (g =? 45)).
    + pose proof (span_digits_length s') as L.
      destruct (span_digits s') as [[|d ds] rest]; [discriminate|].
      intros H. inversion H; subst. simpl in *. lia.
    + pose proof (span_digits_length (g :: s')) as L.
      destruct (span_digits (g :: s')) as [[|d ds] rest]; [discriminate|].
      intros H. inversion H; subst. simpl in *. lia.
Qed.

Lemma parse_number_length (s l r : jsstring) :
  parse_number s = Some (l, r) -> (length r < length s)%nat.
Proof.
  unfold parse_number.
  assert (Hsign : forall sign s1,
             (let (sign', s1') :=
                match s with
                | c :: r0 => if c =? 45 then ([45], r0) else ([], s)
                | [] => ([], s)
                end in (sign', s1')) = (sign, s1) -> (length s1 <= length s)%nat).
  { intros sign s1. destruct s as [|c s0]; [intros H; inversion H; simpl; lia|].
    destruct (c =? 45); intros H; inversion H; simpl; lia. }
  destruct (match s with
            | c :: r0 => if c =? 45 then ([45], r0) else ([], s)
            | [] => ([], s)
            end) as [sign s1] eqn:E.
  specialize (Hsign sign s1 eq_refl).
  destruct (parse_int s1) as [[i s2]|] eqn:Ei; [|discriminate].
  destruct (parse_frac s2) as [[f s3]|] eqn:Ef; [|discriminate].
  destruct (parse_exp s3) as [[e s4]|] eqn:Ee; [|discriminate].
  intros H. inversion H; subst.
  apply parse_int_length in Ei. apply parse_frac_length in Ef.
  apply parse_exp_length in Ee. lia.
Qed.

(** Every successful call consumes at least one character. *)
Lemma parse_progress (fuel : nat) :
  (forall s v r, parse_value fuel s = Some (v, r) -> (length r < length s)%nat)
  /\ (forall acc s v r, parse_members fuel acc s = Some (v, r) -> (length r < length s)%nat)
  /\ (forall acc s v r, parse_elements fuel acc s = Some (v, r) -> (length r < length s)%nat).
Proof.
  induction fuel as [|f (IHv & IHm & IHe)].
  - repeat split; intros; discriminate.
  - split; [|split].
    + intros s v r. cbn [parse_value].
      destruct (skip_ws s) as [|c r0] eqn:Es; [discriminate|].
      pose proof (skip_ws_cons_length _ _ _ Es) as L0.
      pose proof (skip_ws_length s) as Ls. rewrite Es in Ls.
      destruct (c =? 123).
      { destruct (skip_ws r0) as [|c1 r1] eqn:E1; [discriminate|].
        pose proof (skip_ws_cons_length _ _ _ E1) as L1.
        destruct (c1 =? 125); [intros H; inversion H; subst; lia|].
        intros H. apply IHm in H. lia. }
      destruct (c =? 91).
      { destruct (skip_ws r0) as [|c1 r1] eqn:E1; [discriminate|].
        pose proof (skip_ws_cons_length _ _ _ E1) as L1.
        destruct (c1 =? 93); [intros H; inversion H; subst; lia|].
        intros H. apply IHe in H. lia. }
      destruct (c =? 34).
      { destruct (parse_chars r0) as [[t rest]|] eqn:E; [|discriminate].
        apply parse_chars_length in E. intros H. inversion H; subst. lia. }
      destruct (c =? 116).
      { destruct (strip_prefix (js "true") (c :: r0)) as [rest|] eqn:E; [|discriminate].
        apply strip_prefix_length in E. intros H. inversion H; subst. simpl in *. lia. }
      destruct (c =? 102).
      { destruct (strip_prefix (js "false") (c :: r0)) as [rest|] eqn:E; [|discriminate].
        apply strip_prefix_length in E. intros H. inversion H; subst. simpl in *. lia. }
      destruct (c =? 110).
      { destruct (strip_prefix (js "null") (c :: r0)) as [rest|] eqn:E; [|discriminate].
        apply strip_prefix_length in E. intros H. inversion H; subst. simpl in *. lia. }
      destruct (parse_number (c :: r0)) as [[lex rest]|] eqn:E; [|discriminate].
      apply parse_number_length in E. intros H. inversion H; subst. simpl in *. lia.
    + intros acc s v r. cbn [parse_members].
      destruct (skip_ws s) as [|c r0] eqn:Es; [discriminate|].
      pose proof (skip_ws_cons_length _ _ _ Es) as L0.
      destruct (c =? 34); [|discriminate].
      destruct (parse_chars r0) as [[k r1]|] eqn:Ek; [|discriminate].
      apply parse_chars_length in Ek.
      destruct (skip_ws r1) as [|c1 r2] eqn:E1; [discriminate|].
      pose proof (skip_ws_cons_length _ _ _ E1) as L1.
      destruct (c1 =? 58); [|discriminate].
      destruct (parse_value f r2) as [[v' r3]|] eqn:Ev; [|discriminate].
      apply IHv in Ev.
      destruct (skip_ws r3) as [|c2 r4] eqn:E3; [discriminate|].
      pose proof (skip_ws_cons_length _ _ _ E3) as L3.
      destruct (c2 =? 44); [intros H'; apply IHm in H'; lia|].
      destruct (c2 =? 125); [|discriminate].
      intros H'. inversion H'; subst. lia.
    + intros acc s v r. cbn [parse_elements].
      destruct (parse_value f s) as [[v' r1]|] eqn:Ev; [|discriminate].
      apply IHv in Ev.
      destruct (skip_ws r1) as [|c r2] eqn:E1; [discriminate|].
      pose proof (skip_ws_cons_length _ _ _ E1) as L1.
      destruct (c =? 44); [intros H'; apply IHe in H'; lia|].
      destruct (c =? 93); [|discriminate].
      intros H'. inversion H'; subst. lia.
Qed.

(** Past twice the length of the text, more fuel changes nothing: a [None]
    of [parse] is a rejection of the text, never a lack of fuel. *)
Lemma parse_fuel_stable (fuel : nat) :
  (forall s more, (2 * length s < fuel)%nat ->
     parse_value (fuel + more) s = parse_value fuel s)
  /\ (forall acc s more, (2 * length s < fuel)%nat ->
     parse_members (fuel + more) acc s = parse_members fuel acc s)
  /\ (forall acc s more, (2 * length s + 1 < fuel)%nat ->
     parse_elements (fuel + more) acc s = parse_elements fuel acc s).
Proof.
  induction fuel as [|f (IHv & IHm & IHe)].
  - repeat split; intros; lia.
  - split; [|split].
    + intros s more Hs. cbn [Nat.add parse_value].
      destruct (skip_ws s) as [|c r0] eqn:Es; [reflexivity|].
      pose proof (skip_ws_cons_length _ _ _ Es) as L0.
      destruct (c =? 123).
      { destruct (skip_ws r0) as [|c1 r1]; [reflexivity|].
        destruct (c1 =? 125); [reflexivity|]. apply IHm. lia. }
      destruct (c =? 91); [|reflexivity].
      destruct (skip_ws r0) as [|c1 r1]; [reflexivity|].
      destruct (c1 =? 93); [reflexivity|]. apply IHe. lia.
    + intros acc s more Hs. cbn [Nat.add parse_members].
      destruct (skip_ws s) as [|c r0] eqn:Es; [reflexivity|].
      pose proof (skip_ws_cons_length _ _ _ Es) as L0.
      destruct (c =? 34); [|reflexivity].
      destruct (parse_chars r0) as [[k r1]|] eqn:Ek; [|reflexivity].
      apply parse_chars_length in Ek.
      destruct (skip_ws r1) as [|c1 r2] eqn:E1; [reflexivity|].
      pose proof (skip_ws_cons_length _ _ _ E1) as L1.
      destruct (c1 =? 58); [|reflexivity].
      rewrite IHv by lia.
      destruct (parse_value f r2) as [[v' r3]|] eqn:Ev; [|reflexivity].
      apply (proj1 (parse_progress f)) in Ev.
      destruct (skip_ws r3) as [|c2 r4] eqn:E3; [reflexivity|].
      pose proof (skip_ws_cons_length _ _ _ E3) as L3.
      destruct (c2 =? 44); [|reflexivity]. apply IHm. lia.
    + intros acc s more Hs. cbn [Nat.add parse_elements].
      rewrite IHv by lia.
      destruct (parse_value f s) as [[v' r1]|] eqn:Ev; [|reflexivity].
      apply (proj1 (parse_progress f)) in Ev.
      destruct (skip_ws r1) as [|c r2] eqn:E1; [reflexivity|].
      pose proof (skip_ws_cons_length _ _ _ E1) as L1.
      destruct (c =? 44); [|reflexivity]. apply IHe. lia.
Qed.

(** [JSON.parse] is the parser with unbounded fuel. *)
Lemma parse_enough_fuel (text : jsstring) (more : nat) :
  parse_with (S (2 * length text) + more) text = parse text.
Proof.
  unfold parse, parse_with.
  rewrite (proj1 (parse_fuel_stable (S (2 * length text)))) by lia.
  reflexivity.
Qed.

End FuelFacts.

(* ================================================================== *)
(** ** Facts about paths and files *)
(* ================================================================== *)

Module PathFacts.
Import Sys.

Lemma basename_from_plain (s acc : jsstring) :
  forallb (fun c => negb (c =? 47)) s = true -> Path.basename_from acc s = acc.
Proof.
  revert acc. induction s as [|c s IH]; intros acc H; [reflexivity|].
  simpl in H. apply andb_true_iff in H. destruct H as [Hc Hs].
  cbn [Path.basename_from]. apply negb_true_iff in Hc. rewrite Hc.
  now apply IH.
Qed.

Lemma basename_app (p name : jsstring) :
  forallb (fun c => negb (c =? 47)) name = true ->
  Path.basename (p ++ 47 :: name) = name.
Proof.
  intros H. unfold Path.basename.
  generalize (p ++ 47 :: name) at 1. 
  induction p as [|c p IH]; intros acc.
  - cbn [app Path.basename_from]. change (47 =? 47) with true. cbv iota.
    now apply basename_from_plain.
  - cbn [app Path.basename_from]. destruct (c =? 47); apply IH.
Qed.

Lemma join_plain (dir name : jsstring) (c : N) :
  c <> 47 -> Path.join (dir ++ [c]) name = dir ++ c :: 47 :: name.
Proof.
  intros Hc. unfold Path.join. rewrite rev_app_distr. cbn [rev app].
  rewrite (proj2 (N.eqb_neq c 47) Hc).
  rewrite <- !app_assoc. reflexivity.
Qed.

Section Paths.

Variable rt : runtime.

Lemma dataDir_shape : exists pre, dataDir rt = pre ++ [97].
Proof.
  unfold dataDir, Path.join.
  destruct (rev (dirname rt)) as [|c r].
  - exists (js "dat"). reflexivity.
  - destruct (c =? 47).
    + exists (dirname rt ++ js "dat"). rewrite <- app_assoc. reflexivity.
    + exists (dirname rt ++ [47] ++ js "dat"). rewrite <- !app_assoc. reflexivity.
Qed.

Lemma in_dataDir (name : jsstring) :
  Path.join (dataDir rt) name = dataDir rt ++ 47 :: name.
Proof.
  destruct dataDir_shape as [pre E]. rewrite E.
  rewrite join_plain by discriminate. rewrite <- app_assoc. reflexivity.
Qed.

Lemma ndjsonPath_eq : ndjsonPath rt = dataDir rt ++ 47 :: js "users_stream.ndjson".
Proof. apply in_dataDir. Qed.

Lemma xlsxPath_eq : xlsxPath rt = dataDir rt ++ 47 :: js "users_stream.xlsx".
Proof. apply in_dataDir. Qed.

Lemma zipPath_eq : zipPath rt = dataDir rt ++ 47 :: js "users_export.zip".
Proof. apply in_dataDir. Qed.

Lemma ndjson_xlsx : str_eqb (ndjsonPath rt) (xlsxPath rt) = false.
Proof.
  apply StrFacts.str_eqb_neq. rewrite ndjsonPath_eq, xlsxPath_eq.
  intros H. apply app_inv_head in H. discriminate.
Qed.

Lemma xlsx_ndjson : str_eqb (xlsxPath rt) (ndjsonPath rt) = false.
Proof.
  apply StrFacts.str_eqb_neq. rewrite ndjsonPath_eq, xlsxPath_eq.
  intros H. apply app_inv_head in H. discriminate.
Qed.

Lemma ndjson_zip : str_eqb (ndjsonPath rt) (zipPath rt) = false.
Proof.
  apply StrFacts.str_eqb_neq. rewrite ndjsonPath_eq, zipPath_eq.
  intros H. apply app_inv_head in H. discriminate.
Qed.

Lemma xlsx_zip : str_eqb (xlsxPath rt) (zipPath rt) = false.
Proof.
  apply StrFacts.str_eqb_neq. rewrite xlsxPath_eq, zipPath_eq.
  intros H. apply app_inv_head in H. discriminate.
Qed.

Lemma basename_ndjson : Path.basename (ndjsonPath rt) = js "users_stream.ndjson".
Proof. rewrite ndjsonPath_eq. now apply basename_app. Qed.

Lemma basename_xlsx : Path.basename (xlsxPath rt) = js "users_stream.xlsx".
Proof. rewrite xlsxPath_eq. now apply basename_app. Qed.

End Paths.

Lemma fs_set_same (p : jsstring) (n : node) (f : jsstring -> node) :
  fs_set p n f p = n.
Proof. unfold fs_set. now rewrite StrFacts.str_eqb_refl. Qed.

Lemma fs_set_other (p q : jsstring) (n : node) (f : jsstring -> node) :
  str_eqb q p = false -> fs_set p n f q = f q.
Proof. unfold fs_set. now intros ->. Qed.

End PathFacts.

(* ================================================================== *)
(** ** Step 1: the writer *)
(* ================================================================== *)

Module WriterFacts.
Import JSON Excel Sys Props PathFacts JSONFacts.

Lemma for_loop_iter (n : N) (body : N -> world -> world) (w : world) :
  N.iter n (fun iw => (N.succ (fst iw), body (fst iw) (snd iw))) (0, w)
  = (n, for_loop n body w).
Proof.
  unfold for_loop.
  induction n as [|n IH] using N.peano_ind; [reflexivity|].
  rewrite N.iter_succ, IH. reflexivity.
Qed.

Lemma for_loop_zero (body : N -> world -> world) (w : world) :
  for_loop 0 body w = w.
Proof. reflexivity. Qed.

Lemma for_loop_succ (n : N) (body : N -> world -> world) (w : world) :
  for_loop (N.succ n) body w = body n (for_loop n body w).
Proof.
  unfold for_loop at 1. rewrite N.iter_succ, for_loop_iter. reflexivity.
Qed.

(** *** What a turn of the event loop does to the stream and its file *)

Lemma flush_text (n : nat) (w : world) (p disk : jsstring) (pend : list jsstring)
  (st : sink_state) :
  out w = Some {| st_path := p; st_pending := pend; st_state := st |} ->
  fs w p = File (CText disk) ->
  fs (flush n w) p = File (CText (disk ++ concat (firstn n pend)))
  /\ out (flush n w) =
     Some {| st_path := p; st_pending := skipn n pend;
             st_state := match st with
                         | Ending => if (length pend <? n)%nat then Closed else Ending
                         | x => x
                         end |}
  /\ trace (flush n w) = trace w /\ draws (flush n w) = draws w
  /\ (forall q, str_eqb q p = false -> fs (flush n w) q = fs w q).
Proof.
  intros Ho Hf. unfold flush. rewrite Ho. cbn.
  unfold append_text. rewrite Hf. rewrite fs_set_same. repeat split.
  - destruct st; reflexivity.
  - intros q Hq. now rewrite fs_set_other.
Qed.

Lemma flush_frame (n : nat) (w : world) :
  trace (flush n w) = trace w /\ draws (flush n w) = draws w
  /\ turns (flush n w) = turns w.
Proof. unfold flush. destruct (out w); auto. Qed.

Lemma io_turn_frame (rt : runtime) (w : world) :
  trace (io_turn rt w) = trace w /\ draws (io_turn rt w) = draws w.
Proof.
  destruct (flush_frame (io_ops rt (turns w)) w) as (Ht & Hd & _).
  unfold io_turn. cbn. auto.
Qed.

Lemma firstn_skipn_concat (n : nat) (l : list jsstring) :
  concat (firstn n l) ++ concat (skipn n l) = concat l.
Proof. rewrite <- concat_app, firstn_skipn. reflexivity. Qed.

Section Writer.

Variable rt : runtime.

Lemma generateUser_spec (w : world) :
  fst (generateUser rt w) = user_of (faker rt (draws w)).
Proof. reflexivity. Qed.

Lemma writing_emit f0 d0 tr k e w :
  writing rt f0 d0 tr k w -> writing rt f0 d0 (tr ++ [e]) k (emit e w).
Proof.
  intros (disk & pend & Hf & Ho & Hd & Hn & Ht & Hfr).
  exists disk, pend. cbn. rewrite Ht. repeat split; assumption.
Qed.

Lemma writing_turn f0 d0 tr k w :
  writing rt f0 d0 tr k w -> writing rt f0 d0 tr k (io_turn rt w).
Proof.
  intros (disk & pend & Hf & Ho & Hd & Hn & Ht & Hfr).
  destruct (flush_text (io_ops rt (turns w)) w _ _ _ _ Ho Hf)
    as (Hf' & Ho' & Ht' & Hn' & Hfr').
  exists (disk ++ concat (firstn (io_ops rt (turns w)) pend)),
         (skipn (io_ops rt (turns w)) pend).
  unfold io_turn. cbn. repeat split; try congruence.
  - rewrite <- app_assoc, firstn_skipn_concat. exact Hd.
  - intros q Hq. rewrite Hfr' by assumption. now apply Hfr.
Qed.

Lemma written_succ d0 k :
  written rt d0 (S k) = written rt d0 k ++ [stringify (user_of (faker rt (d0 + k)))].
Proof. unfold written. rewrite seq_S, map_app. reflexivity. Qed.

Lemma writing_record f0 d0 tr k w :
  writing rt f0 d0 tr k w ->
  writing rt f0 d0 tr (S k)
    (stream_write (stringify (fst (generateUser rt w)) ++ [10]) (snd (generateUser rt w))).
Proof.
  intros (disk & pend & Hf & Ho & Hd & Hn & Ht & Hfr).
  exists disk, (pend ++ [stringify (user_of (faker rt (draws w))) ++ [10]]).
  unfold stream_write, generateUser. cbn [fst snd out]. rewrite Ho.
  unfold with_out. cbn [fs out draws trace st_path st_pending st_state].
  repeat split; try assumption; try lia.
  rewrite written_succ, map_app, !concat_app, app_assoc, Hd, Hn.
  cbn [map concat]. rewrite !app_nil_r. reflexivity.
Qed.

Lemma multiples_succ (b count : N) :
  multiples b (N.succ count) = multiples b count ++ [N.succ count * b].
Proof.
  unfold multiples. rewrite N2Nat.inj_succ, seq_S, map_app. cbn [map].
  replace (N.of_nat (1 + N.to_nat count)) with (N.succ count) by lia.
  reflexivity.
Qed.

Lemma progress_hit (b n : N) :
  (n + 1) mod 100000 = 0 ->
  progress b (n + 1) = progress b n ++ checkpoint_events b (n + 1).
Proof.
  intros H. unfold progress.
  assert (E : (n + 1) / 100000 = N.succ (n / 100000)
              /\ N.succ (n / 100000) * 100000 = n + 1).
  { pose proof (N.div_mod (n + 1) 100000 ltac:(lia)) as Hq.
    rewrite H in Hq.
    assert (Hd : n / 100000 = (n + 1) / 100000 - 1)
      by (symmetry; apply N.div_unique with 99999; lia).
    lia. }
  destruct E as [E1 E2]. rewrite E1, multiples_succ, flat_map_app, E2.
  cbn [flat_map]. rewrite app_nil_r. reflexivity.
Qed.

Lemma progress_miss (b n : N) :
  (n + 1) mod 100000 <> 0 -> progress b (n + 1) = progress b n.
Proof.
  intros H. unfold progress.
  replace ((n + 1) / 100000) with (n / 100000); [reflexivity|].
  pose proof (N.div_mod (n + 1) 100000 ltac:(lia)) as Hq.
  pose proof (N.mod_lt (n + 1) 100000 ltac:(lia)) as Hr.
  symmetry. apply N.div_unique with ((n + 1) mod 100000 - 1); [lia|].
  generalize dependent ((n + 1) mod 100000).
  generalize dependent ((n + 1) / 100000). intros q r. lia.
Qed.

Lemma writing_loop (b : N) f0 d0 tr (w1 : world) :
  writing rt f0 d0 tr 0 w1 ->
  forall n, writing rt f0 d0 (tr ++ progress b n) (N.to_nat n)
                    (for_loop n (write_user rt b) w1).
Proof.
  intros H0 n. induction n as [|n IH] using N.peano_ind.
  - rewrite for_loop_zero. unfold progress. cbn. rewrite app_nil_r. exact H0.
  - rewrite for_loop_succ, N2Nat.inj_succ.
    set (w := for_loop n (write_user rt b) w1) in *.
    unfold write_user.
    pose proof (writing_record _ _ _ _ _ IH) as Hrec.
    destruct (generateUser rt w) as [user wg] eqn:Eg. cbn [fst snd] in Hrec.
    rewrite <- N.add_1_r.
    destruct (N.eqb_spec ((n + 1) mod 100000) 0) as [Hhit|Hmiss].
    + rewrite progress_hit by assumption. unfold checkpoint_events, sleep.
      apply writing_turn.
      replace (tr ++ progress b n ++
               [Log (MWroteBatch (n + 1) b); Stats (LAfterBatch (n + 1) b); Sleep 500])
        with ((((tr ++ progress b n) ++ [Log (MWroteBatch (n + 1) b)])
               ++ [Stats (LAfterBatch (n + 1) b)]) ++ [Sleep 500])
        by (rewrite <- !app_assoc; reflexivity).
      apply writing_emit. unfold logSystemStats, log.
      apply writing_emit. apply writing_emit. exact Hrec.
    + rewrite progress_miss by assumption. exact Hrec.
Qed.

Lemma createWriteStream_writing (w w1 : world) :
  createWriteStream (ndjsonPath rt) w = Some w1 ->
  writing rt (fs w) (draws w) (trace w) 0 w1.
Proof.
  unfold createWriteStream. intros H.
  exists [], [].
  destruct (fs w (ndjsonPath rt)); inversion H; subst; cbn;
    rewrite fs_set_same; repeat split; auto;
    intros q Hq; now rewrite fs_set_other.
Qed.

Lemma createWriteStream_unlocked (p : jsstring) (w : world) :
  (forall c, fs w p <> Locked c) -> exists w1, createWriteStream p w = Some w1.
Proof.
  intros H. unfold createWriteStream.
  destruct (fs w p) eqn:E; eauto. exfalso. eapply H. reflexivity.
Qed.

(** The stage as a whole: it resolves with the stream ending, every line in
    the file or in the buffer. *)
Lemma writeUsers_spec (n b : N) (w : world) :
  (forall c, fs w (ndjsonPath rt) <> Locked c) ->
  exists disk pend w',
    writeUsers rt n b w = (Resolved, w')
    /\ fs w' (ndjsonPath rt) = File (CText disk)
    /\ out w' = Some {| st_path := ndjsonPath rt; st_pending := pend; st_state := Ending |}
    /\ disk ++ concat pend = concat (map (fun l => l ++ [10]) (written rt (draws w) (N.to_nat n)))
    /\ trace w' = trace w ++ progress b n ++ [Log MFinishedNDJSON; Stats LCompletedNDJSON]
    /\ (forall q, str_eqb q (ndjsonPath rt) = false -> fs w' q = fs w q).
Proof.
  intros Hu. destruct (createWriteStream_unlocked (ndjsonPath rt) w Hu) as [w1 E1].
  pose proof (writing_loop b _ _ _ _ (createWriteStream_writing w w1 E1) n) as H.
  destruct H as (disk & pend & Hf & Ho & Hd & Hn & Ht & Hfr).
  unfold writeUsers. rewrite E1.
  exists disk, pend. eexists. split; [reflexivity|].
  unfold stream_end. rewrite Ho. cbn. rewrite Ht, <- !app_assoc.
  repeat split; assumption.
Qed.

End Writer.

End WriterFacts.

(* ================================================================== *)
(** ** The lines of a generated file *)
(* ================================================================== *)

Module LineFacts.
Import JSON Excel Sys Props PathFacts JSONFacts WriterFacts.

Lemma split_from_line (line : jsstring) :
  forall cur rest, printable line ->
  split_from cur (line ++ 10 :: rest) = (cur ++ line) :: split_from [] rest.
Proof.
  induction line as [|c line IH]; intros cur rest Hp.
  - cbn [app split_from]. change (10 =? 10) with true. cbn [orb].
    rewrite app_nil_r. reflexivity.
  - inversion Hp as [|? ? (Hc & Hc1 & Hc2) Hl]; subst.
    cbn [app split_from].
    rewrite (proj2 (N.eqb_neq c 10)) by lia.
    rewrite (proj2 (N.eqb_neq c 13)) by lia. cbn [orb].
    rewrite IH by assumption. rewrite <- app_assoc. reflexivity.
Qed.

Lemma split_lines_terminated (ls : list jsstring) :
  Forall printable ls ->
  split_lines (concat (map (fun l => l ++ [10]) ls)) = ls.
Proof.
  unfold split_lines. induction ls as [|l ls IH]; intros H; [reflexivity|].
  inversion H as [|? ? Hl Hls]; subst.
  cbn [map concat]. rewrite <- app_assoc. cbn [app].
  rewrite split_from_line by assumption. cbn [app]. now rewrite IH.
Qed.

Lemma toISOString_nonempty (t : Z) : JSDate.toISOString t <> [].
Proof.
  unfold JSDate.toISOString.
  destruct (JSDate.civil_from_days (t / 86400000)) as [[y m] d].
  intros H. apply app_eq_nil in H. destruct H as [_ H]. discriminate.
Qed.

Lemma pad_digits (w : nat) :
  forall n, Forall (fun c => 48 <= c <= 57) (JSDate.pad w n).
Proof.
  induction w as [|w IH]; intros n; [constructor|].
  cbn [JSDate.pad]. apply Forall_app. split; [apply IH|].
  constructor; [|constructor].
  pose proof (Z.mod_pos_bound n 10 ltac:(lia)). lia.
Qed.

Lemma pad_plain (w : nat) (n : Z) : plain (JSDate.pad w n).
Proof.
  eapply Forall_impl; [|apply pad_digits]. cbn. intros c Hc. lia.
Qed.

Lemma plain_app (a b : jsstring) : plain a -> plain b -> plain (a ++ b).
Proof. intros Ha Hb. apply Forall_app. now split. Qed.

Lemma toISOString_plain (t : Z) : plain (JSDate.toISOString t).
Proof.
  unfold JSDate.toISOString.
  destruct (JSDate.civil_from_days (t / 86400000)) as [[y m] d].
  assert (Hy : plain (JSDate.year_string y)).
  { unfold JSDate.year_string.
    destruct ((0 <=? y)%Z && (y <=? 9999)%Z); [apply pad_plain|].
    apply plain_app; [|apply pad_plain].
    destruct (y <? 0)%Z; repeat constructor; discriminate. }
  repeat (apply plain_app;
          [first [exact Hy | apply pad_plain | repeat constructor; discriminate]|]).
  repeat constructor; discriminate.
Qed.

Lemma one_line_plain (s : jsstring) : one_line s = true -> plain s.
Proof.
  unfold one_line, plain. rewrite forallb_forall, Forall_forall.
  intros H c Hc. specialize (H c Hc).
  apply negb_true_iff, orb_false_iff in H. destruct H as [H1 H2].
  apply N.eqb_neq in H1, H2. now split.
Qed.

Lemma truthy_nonempty (s : jsstring) : s <> [] -> truthy_string s = true.
Proof. destruct s; [contradiction | reflexivity]. Qed.

Lemma truthy_string_inv (s : jsstring) : truthy_string s = true -> s <> [].
Proof. destruct s; [discriminate | discriminate]. Qed.

(** A line of the form [{...}] is not blank. *)
Lemma braces_nonblank (mid : jsstring) : nonblank (123 :: mid ++ [125]) = true.
Proof.
  unfold nonblank, trim. cbn [trim_start]. change (is_js_space 123) with false.
  cbv iota. cbn [rev]. rewrite rev_app_distr. cbn [rev app trim_start].
  change (is_js_space 125) with false. cbv iota.
  destruct (rev mid ++ [123]) eqn:E.
  - destruct (rev mid); discriminate.
  - cbn [rev]. destruct (rev l ++ [n]) eqn:E'; [destruct (rev l); discriminate|].
    destruct ((n0 :: l0) ++ [125]) eqn:E''; [discriminate | reflexivity].
Qed.

Lemma stringify_nonblank (o : jsobject) : nonblank (stringify o) = true.
Proof. unfold stringify. apply braces_nonblank. Qed.

Section Lines.

Variable rt : runtime.

Lemma parse_user (d : draw) :
  parse (stringify (user_of d)) =
  Some (JObj [ (js "userId", JStr (d_uuid d));
               (js "username", JStr (d_username d));
               (js "email", JStr (d_email d));
               (js "avatar", JStr (d_avatar d));
               (js "password", JStr (d_password d));
               (js "birthdate", JStr (JSDate.toISOString (d_birthdate d)));
               (js "registeredAt", JStr (JSDate.toISOString (d_past d))) ]).
Proof. rewrite parse_stringify by discriminate. reflexivity. Qed.

Lemma user_keys (d : draw) :
  JSObject.keys
    (JObj [ (js "userId", JStr (d_uuid d));
            (js "username", JStr (d_username d));
            (js "email", JStr (d_email d));
            (js "avatar", JStr (d_avatar d));
            (js "password", JStr (d_password d));
            (js "birthdate", JStr (JSDate.toISOString (d_birthdate d)));
            (js "registeredAt", JStr (JSDate.toISOString (d_past d))) ])
  = Some user_fields.
Proof. reflexivity. Qed.

Lemma parse_user_complete (d : draw) :
  valid_draw d = true ->
  exists v, parse (stringify (user_of d)) = Some v /\ complete_user v = true.
Proof.
  intros Hv. eexists. split; [apply parse_user|].
  unfold valid_draw in Hv.
  repeat (apply andb_true_iff in Hv; destruct Hv as [Hv ?]).
  repeat match goal with H : one_line _ = true |- _ => clear H end.
  pose proof (toISOString_nonempty (d_birthdate d)) as Hb.
  pose proof (toISOString_nonempty (d_past d)) as Hp.
  unfold complete_user.
  apply andb_true_iff. split; [reflexivity|].
  cbn [forallb user_fields].
  change (JSObject.get _ (js "userId")) with (Some (JStr (d_uuid d))).
  change (JSObject.get _ (js "username")) with (Some (JStr (d_username d))).
  change (JSObject.get _ (js "email")) with (Some (JStr (d_email d))).
  change (JSObject.get _ (js "avatar")) with (Some (JStr (d_avatar d))).
  change (JSObject.get _ (js "password")) with (Some (JStr (d_password d))).
  change (JSObject.get _ (js "birthdate"))
    with (Some (JStr (JSDate.toISOString (d_birthdate d)))).
  change (JSObject.get _ (js "registeredAt"))
    with (Some (JStr (JSDate.toISOString (d_past d)))).
  unfold nonempty_string.
  destruct (d_uuid d), (d_username d), (d_email d), (d_avatar d), (d_password d),
    (JSDate.toISOString (d_birthdate d)), (JSDate.toISOString (d_past d));
    try discriminate; try contradiction; reflexivity.
Qed.

Lemma user_plain (d : draw) : valid_draw d = true -> plain_object (user_of d).
Proof.
  intros Hv. unfold valid_draw in Hv.
  repeat (apply andb_true_iff in Hv; destruct Hv as [Hv ?]).
  repeat match goal with H : one_line _ = true |- _ => apply one_line_plain in H end.
  unfold plain_object, user_of.
  repeat (constructor;
          [split; [repeat constructor; discriminate
                  | cbn [snd string_of_value]; first [assumption | apply toISOString_plain]]|]).
  constructor.
Qed.

Lemma written_printable (d0 k : nat) :
  (forall n, valid_draw (faker rt n) = true) ->
  Forall printable (written rt d0 k).
Proof.
  intros Hv. apply Forall_forall. intros l Hl. apply in_map_iff in Hl.
  destruct Hl as [j [<- _]]. apply stringify_printable, user_plain, Hv.
Qed.

Lemma written_length (d0 k : nat) : length (written rt d0 k) = k.
Proof. unfold written. now rewrite length_map, length_seq. Qed.

(** Once the event loop has drained the stream the file holds the lines. *)
Lemma settle_written (w' : world) (disk : jsstring) (pend : list jsstring) (ls : list jsstring) :
  fs w' (ndjsonPath rt) = File (CText disk) ->
  out w' = Some {| st_path := ndjsonPath rt; st_pending := pend; st_state := Ending |} ->
  disk ++ concat pend = concat (map (fun l => l ++ [10]) ls) ->
  fs (settle w') (ndjsonPath rt) = File (CText (concat (map (fun l => l ++ [10]) ls)))
  /\ out (settle w') = Some {| st_path := ndjsonPath rt; st_pending := []; st_state := Closed |}
  /\ (forall q, str_eqb q (ndjsonPath rt) = false -> fs (settle w') q = fs w' q).
Proof.
  intros Hf Ho Hd. unfold settle. rewrite Ho. cbn [st_pending].
  destruct (flush_text (S (length pend)) w' _ _ _ _ Ho Hf) as (Hf' & Ho' & _ & _ & Hfr).
  rewrite Hf', Ho'. rewrite firstn_all2, skipn_all2 by lia.
  rewrite Hd. split; [reflexivity|]. split; [|exact Hfr].
  replace (length pend <? S (length pend))%nat with true
    by (symmetry; apply Nat.ltb_lt; lia).
  reflexivity.
Qed.

End Lines.

End LineFacts.

(* ================================================================== *)
(** ** Step 2: the converter *)
(* ================================================================== *)

Module ConvertFacts.
Import JSON Excel Sys Props PathFacts JSONFacts WriterFacts LineFacts.

Lemma append_text_nil (p : jsstring) (f : jsstring -> node) (q : jsstring) :
  append_text p [] f q = f q.
Proof.
  unfold append_text. destruct (f p) as [|c|c] eqn:E; try reflexivity.
  destruct c; try reflexivity.
  unfold fs_set. destruct (str_eqb q p) eqn:Eq; [|reflexivity].
  apply StrFacts.str_eqb_eq in Eq. subst q. now rewrite app_nil_r, E.
Qed.

Lemma flush_quiet (n : nat) (w : world) :
  quiet w ->
  (forall p, fs (flush n w) p = fs w p) /\ quiet (flush n w)
  /\ trace (flush n w) = trace w.
Proof.
  unfold quiet, flush. destruct (out w) as [s|] eqn:Eo; [|now rewrite Eo].
  intros Hp. rewrite Hp. cbn. rewrite firstn_nil, skipn_nil. cbn.
  repeat split. intros p. apply append_text_nil.
Qed.

Lemma add_rows_spec (vs : list json) :
  forall ws,
  ws_columns (add_rows vs ws) = ws_columns ws
  /\ ws_rows (add_rows vs ws) = ws_rows ws ++ map (row_values (columns_of ws)) vs
  /\ ws_name (add_rows vs ws) = ws_name ws.
Proof.
  induction vs as [|v vs IH]; intros ws; cbn [add_rows fold_left map].
  - rewrite app_nil_r. auto.
  - destruct (IH (addRow v ws)) as (Hc & Hr & Hn). unfold add_rows in *.
    rewrite Hc, Hr, Hn. cbn. rewrite <- app_assoc. auto.
Qed.


Lemma sheet_after_rows (lines : list jsstring) :
  forall vs ws, records_of lines = Some vs ->
  sheet_after lines false ws = inr (add_rows vs ws).
Proof.
  induction lines as [|l lines IH]; intros vs ws H; cbn [records_of] in H.
  - inversion H. reflexivity.
  - cbn [sheet_after]. destruct (nonblank l); cbn [negb].
    + destruct (parse l) as [v|]; [|discriminate].
      destruct (records_of lines) as [vs'|]; [|discriminate].
      inversion H; subst. cbn [add_rows fold_left]. now apply IH.
    + now apply IH.
Qed.


Lemma sheet_after_first (lines : list jsstring) :
  forall v vs ks ws, records_of lines = Some (v :: vs) ->
  JSObject.keys v = Some ks ->
  sheet_after lines true ws
  = inr (add_rows (v :: vs) (set_columns (map column_of_key ks) ws)).
Proof.
  induction lines as [|l lines IH]; intros v vs ks ws H Hk; cbn [records_of] in H.
  - discriminate.
  - cbn [sheet_after]. destruct (nonblank l); cbn [negb].
    + destruct (parse l) as [v'|]; [|discriminate].
      destruct (records_of lines) as [vs'|] eqn:E; [|discriminate].
      inversion H; subst. rewrite Hk. cbn [option_map].
      cbn [add_rows fold_left]. now apply sheet_after_rows.
    + now apply IH with (1 := H).
Qed.

Lemma records_of_app (pre post : list jsstring) (vs : list json) :
  records_of pre = Some vs ->
  records_of (pre ++ post) = option_map (app vs) (records_of post).
Proof.
  revert vs. induction pre as [|l pre IH]; intros vs H; cbn [records_of app] in *.
  - inversion H. destruct (records_of post); reflexivity.
  - destruct (nonblank l).
    + destruct (parse l) as [v|]; [|discriminate].
      destruct (records_of pre) as [vs'|]; [|discriminate].
      inversion H; subst. rewrite (IH vs' eq_refl).
      destruct (records_of post); reflexivity.
    + now apply IH.
Qed.

(** The loop stops at the first line that does not parse. *)
Lemma sheet_after_bad_rows (pre : list jsstring) :
  forall vs bad post ws, records_of pre = Some vs ->
  nonblank bad = true -> parse bad = None ->
  sheet_after (pre ++ bad :: post) false ws = inl (SyntaxError bad).
Proof.
  induction pre as [|l pre IH]; intros vs bad post ws H Hb Hp; cbn [records_of app] in *.
  - cbn [sheet_after]. rewrite Hb, Hp. reflexivity.
  - cbn [sheet_after]. destruct (nonblank l); cbn [negb].
    + destruct (parse l) as [v|]; [|discriminate].
      destruct (records_of pre) as [vs'|] eqn:E; [|discriminate].
      now apply IH with (vs := vs').
    + now apply IH with (vs := vs).
Qed.

Lemma sheet_after_bad (pre : list jsstring) :
  forall vs bad post ws, records_of pre = Some vs ->
  hd_error vs <> Some JNull ->
  nonblank bad = true -> parse bad = None ->
  sheet_after (pre ++ bad :: post) true ws = inl (SyntaxError bad).
Proof.
  induction pre as [|l pre IH]; intros vs bad post ws H Hnn Hb Hp;
    cbn [records_of app] in *.
  - cbn [sheet_after]. rewrite Hb, Hp. reflexivity.
  - cbn [sheet_after]. destruct (nonblank l); cbn [negb].
    + destruct (parse l) as [v|]; [|discriminate].
      destruct (records_of pre) as [vs'|] eqn:E; [|discriminate].
      inversion H; subst. cbn [hd_error] in Hnn.
      destruct v; try (exfalso; apply Hnn; reflexivity);
        cbn [JSObject.keys option_map];
        now apply sheet_after_bad_rows with (vs := vs').
    + now apply IH with (vs := vs).
Qed.

Lemma sheet_after_some_bad (lines : list jsstring) :
  forall b ws,
  (exists bad, In bad lines /\ nonblank bad = true /\ parse bad = None) ->
  exists e, sheet_after lines b ws = inl e.
Proof.
  induction lines as [|l lines IH]; intros b ws [bad [Hin [Hb Hp]]]; [contradiction|].
  cbn [sheet_after]. destruct Hin as [->|Hin].
  - rewrite Hb, Hp. cbn [negb]. eauto.
  - destruct (nonblank l); cbn [negb]; [|apply IH; eauto].
    destruct (parse l); [|eauto].
    destruct (if b then _ else _); [apply IH|]; eauto.
Qed.




Section Convert.

Variable rt : runtime.

Lemma write_book_other (p q : jsstring) (ws : worksheet) (w : world) :
  str_eqb q p = false -> fs (write_book p ws w) q = fs w q.
Proof.
  intros H. unfold write_book. destruct (fs w p); try reflexivity;
    cbn; now rewrite fs_set_other.
Qed.

Lemma write_book_frame (p : jsstring) (ws : worksheet) (w : world) :
  out (write_book p ws w) = out w /\ trace (write_book p ws w) = trace w
  /\ draws (write_book p ws w) = draws w.
Proof. unfold write_book. destruct (fs w p); auto. Qed.

Lemma write_book_file (p : jsstring) (ws : worksheet) (w : world) (c : content) :
  fs w p = File c ->
  fs (write_book p ws w) p = File (CBook {| wb_sheet := ws; wb_committed := false |}).
Proof. intros H. unfold write_book. rewrite H. cbn. apply fs_set_same. Qed.

Lemma create_book_unlocked (p name : jsstring) (w : world) :
  (forall c, fs w p <> Locked c) ->
  create_book p name w
  = with_fs (fs_set p (File (CBook {| wb_sheet := addWorksheet name;
                                      wb_committed := false |})) (fs w)) w.
Proof.
  intros H. unfold create_book. destruct (fs w p) eqn:E; try reflexivity.
  exfalso. eapply H. reflexivity.
Qed.

(** The file the converter writes is the only one it touches, and it stays
    uncommitted while the loop runs. *)
Lemma convert_lines_spec (lines : list jsstring) :
  forall b rc ws w,
  let r := convert_lines rt lines b rc ws w in
  fst r = sheet_after lines b ws
  /\ (forall p, str_eqb p (xlsxPath rt) = false -> fs (snd r) p = fs w p)
  /\ out (snd r) = out w
  /\ (forall cur,
        fs w (xlsxPath rt) = File (CBook {| wb_sheet := cur; wb_committed := false |}) ->
        fs (snd r) (xlsxPath rt)
        = File (CBook {| wb_sheet := book_after lines b ws cur; wb_committed := false |})).
Proof.
  induction lines as [|l lines IH]; intros b rc ws w; cbn zeta.
  - cbn. auto.
  - cbn [convert_lines sheet_after book_after]. fold (nonblank l).
    destruct (nonblank l); cbn [negb]; [|apply IH].
    destruct (parse l) as [v|]; [|cbn; auto].
    destruct (if b then _ else _) as [ws1|]; [|cbn; auto].
    match goal with
    | |- context [convert_lines rt lines false ?rc' ?ws' ?w'] =>
        specialize (IH false rc' ws' w')
    end.
    cbn zeta in IH. destruct IH as (H1 & H2 & H3 & H4).
    destruct (write_book_frame (xlsxPath rt) (addRow v ws1) w) as (Fo & _ & _).
    split; [exact H1|]. split; [|split].
    + intros p Hp. rewrite H2 by assumption.
      destruct (_ =? 0); cbn [fs logSystemStats log emit]; now apply write_book_other.
    + rewrite H3. destruct (_ =? 0); cbn [out logSystemStats log emit]; exact Fo.
    + intros cur Hcur. apply H4.
      destruct (_ =? 0); cbn [fs logSystemStats log emit];
        now apply write_book_file with (c := CBook {| wb_sheet := cur; wb_committed := false |}).
Qed.

(** What the stage does to a source file at rest. *)
Lemma convert_spec (w : world) (data : jsstring) :
  quiet w ->
  fs w (ndjsonPath rt) = File (CText data) ->
  (forall c, fs w (xlsxPath rt) <> Locked c) ->
  exists w' b,
    convertNDJSONToXLSX rt w
    = (match sheet_after (split_lines data) true (addWorksheet (js "Users")) with
       | inl e => Rejected e
       | inr _ => Resolved
       end, w')
    /\ fs w' (ndjsonPath rt) = File (CText data)
    /\ table_of rt w' = Some b
    /\ match sheet_after (split_lines data) true (addWorksheet (js "Users")) with
       | inl _ =>
           b = {| wb_sheet := book_after (split_lines data) true
                                (addWorksheet (js "Users")) (addWorksheet (js "Users"));
                  wb_committed := false |}
       | inr ws => b = {| wb_sheet := ws; wb_committed := true |}
       end.
Proof.
  intros Hq Hsrc Hu.
  unfold convertNDJSONToXLSX. rewrite (create_book_unlocked _ _ _ Hu).
  set (w1 := with_fs (fs_set (xlsxPath rt) _ (fs w)) w).
  assert (Hq1 : quiet w1) by exact Hq.
  destruct (flush_quiet (io_ops rt (turns w1)) w1 Hq1) as (Hfs & Hq2 & _).
  set (w2 := io_turn rt w1).
  assert (Hfs2 : forall p, fs w2 p = fs w1 p) by (intros p; apply Hfs).
  assert (Hq3 : quiet w2) by exact Hq2.
  assert (Hsrc2 : fs w2 (ndjsonPath rt) = File (CText data)).
  { rewrite Hfs2. unfold w1. cbn. rewrite fs_set_other by apply ndjson_xlsx. exact Hsrc. }
  unfold read_lines. rewrite Hsrc2. cbn [text_of].
  pose proof (convert_lines_spec (split_lines data) true 0 (addWorksheet (js "Users")) w2) as Hc.
  cbn zeta in Hc. destruct Hc as (H1 & H2 & H3 & H4).
  destruct (convert_lines rt (split_lines data) true 0 (addWorksheet (js "Users")) w2)
    as [res w3] eqn:Ec.
  cbn [fst snd] in *. rewrite <- H1.
  specialize (H4 (addWorksheet (js "Users"))).
  rewrite Hfs2 in H4. unfold w1 in H4. cbn in H4. rewrite fs_set_same in H4.
  specialize (H4 eq_refl).
  destruct res as [e|ws].
  - exists w3. eexists. split; [reflexivity|]. split; [|split].
    + rewrite H2 by apply ndjson_xlsx. exact Hsrc2.
    + unfold table_of. rewrite H4. reflexivity.
    + reflexivity.
  - rewrite H4. eexists. eexists. split; [reflexivity|]. split; [|split].
    + cbn. rewrite fs_set_other by apply ndjson_xlsx.
      assert (Hq4 : quiet w3) by (unfold quiet; rewrite H3; exact Hq3).
      destruct (flush_quiet (io_ops rt (turns w3)) w3 Hq4) as (Hfs3 & _ & _).
      rewrite Hfs3. rewrite H2 by apply ndjson_xlsx. exact Hsrc2.
    + unfold table_of. cbn. rewrite fs_set_same. reflexivity.
    + reflexivity.
Qed.

End Convert.

End ConvertFacts.

(* ================================================================== *)
(** ** Step 3: the archiver *)
(* ================================================================== *)

Module ZipFacts.
Import JSON Excel Sys Props PathFacts JSONFacts WriterFacts LineFacts ConvertFacts.

Section Zip.

Variable rt : runtime.

Lemma append_entries_ext (f g : jsstring -> node) (q : list (jsstring * jsstring)) :
  forall done,
  (forall src, In src (map fst q) -> f src = g src) ->
  append_entries rt f q done = append_entries rt g q done.
Proof.
  induction q as [|[src name] q IH]; intros done H; [reflexivity|].
  cbn [append_entries]. rewrite (H src) by (left; reflexivity).
  destruct (g src); try reflexivity; apply IH; intros s Hs; apply H; right; exact Hs.
Qed.

Lemma queue_sources (w : world) (src : jsstring) :
  In src (map fst (queue rt w)) -> src = ndjsonPath rt \/ src = xlsxPath rt.
Proof.
  unfold queue, completion_order. destruct (stat_swap rt (turns w)); cbn; intuition.
Qed.

(** The stage on files at rest: what it returns is decided by the two source
    files as they are when it starts and by the order in which their [lstat]
    completes. *)
Lemma zipFiles_spec (w : world) :
  quiet w ->
  (forall c, fs w (zipPath rt) <> Locked c) ->
  exists w',
    zipFiles rt w
    = (match append_entries rt (fs w) (queue rt w) [] with
       | inl (e, _, _) => Rejected e
       | inr _ => Resolved
       end, w')
    /\ archive_of rt w'
       = Some match append_entries rt (fs w) (queue rt w) [] with
              | inl (_, done, torn) =>
                  {| zip_entries := done; zip_torn := Some torn; zip_closed := false |}
              | inr es => {| zip_entries := es; zip_torn := None; zip_closed := true |}
              end
    /\ (forall p, str_eqb p (zipPath rt) = false -> fs w' p = fs w p)
    /\ quiet w'
    /\ trace w'
       = trace w
         ++ match append_entries rt (fs w) (queue rt w) [] with
            | inl _ => []
            | inr es =>
                [ Log (MZipCreated (zipPath rt)
                         (pointer rt {| zip_entries := es; zip_torn := None;
                                        zip_closed := true |}));
                  Stats LCompletedZip ]
            end.
Proof.
  intros Hq Hu. unfold zipFiles.
  set (w1 := write_zip (zipPath rt) _ w).
  assert (Hq1 : quiet w1) by exact Hq.
  destruct (flush_quiet (io_ops rt (turns w1)) w1 Hq1) as (Hfs & Hq2 & _).
  destruct (io_turn_frame rt w1) as (Ht2 & _).
  assert (Hfs2 : forall p, fs (io_turn rt w1) p = fs w1 p) by (intros p; apply Hfs).
  assert (Hq3 : quiet (io_turn rt w1)) by exact Hq2.
  assert (Hsrc : forall p, str_eqb p (zipPath rt) = false -> fs (io_turn rt w1) p = fs w p).
  { intros p Hp. rewrite Hfs2. unfold w1. cbn. now rewrite fs_set_other. }
  fold (queue rt w).
  assert (E : append_entries rt (fs (io_turn rt w1)) (queue rt w) []
              = append_entries rt (fs w) (queue rt w) []).
  { apply append_entries_ext. intros src Hin.
    destruct (queue_sources w src Hin) as [->| ->]; apply Hsrc.
    - apply ndjson_zip.
    - apply xlsx_zip. }
  rewrite E.
  assert (Eu : forall (A : Type) (a b : A),
             match fs w (zipPath rt) with Locked _ => a | _ => b end = b).
  { intros A a b. destruct (fs w (zipPath rt)) eqn:El; try reflexivity.
    exfalso. eapply Hu. reflexivity. }
  rewrite Eu.
  assert (Ht1 : trace (io_turn rt w1) = trace w) by (rewrite Ht2; reflexivity).
  destruct (append_entries rt (fs w) (queue rt w) []) as [[[e done] torn]|es].
  - eexists. split; [reflexivity|].
    refine (conj _ (conj _ (conj _ _))).
    + unfold archive_of. cbn. now rewrite fs_set_same.
    + intros p Hp. cbn. rewrite fs_set_other by assumption. now apply Hsrc.
    + exact Hq3.
    + cbn [trace write_zip with_fs]. rewrite Ht1, app_nil_r. reflexivity.
  - eexists. split; [reflexivity|].
    refine (conj _ (conj _ (conj _ _))).
    + unfold archive_of. cbn. now rewrite fs_set_same.
    + intros p Hp. cbn. rewrite fs_set_other by assumption. now apply Hsrc.
    + exact Hq3.
    + cbn [trace write_zip with_fs logSystemStats log emit].
      rewrite Ht1, <- app_assoc. reflexivity.
Qed.

(** The promise resolves only from the handler of the output's ['close']
    event: a resolved archiver has left a closed archive. *)
Lemma zipFiles_resolved_closed (w : world) :
  quiet w ->
  fst (zipFiles rt w) = Resolved ->
  exists z, archive_of rt (snd (zipFiles rt w)) = Some z /\ zip_closed z = true.
Proof.
  intros Hq Hr.
  assert (Hu : forall c, fs w (zipPath rt) <> Locked c).
  { intros c Hc. unfold zipFiles in Hr. rewrite Hc in Hr. discriminate. }
  destruct (zipFiles_spec w Hq Hu) as (w' & H1 & H3 & _).
  rewrite H1 in Hr |- *. cbn [fst snd] in *. rewrite H3.
  destruct (append_entries rt (fs w) (queue rt w) []) as [[[e done] torn]|es];
    [discriminate|].
  eexists. split; reflexivity.
Qed.

(** A source file that cannot be read makes the archive emit ['error'], which
    rejects the promise. *)
Lemma zipFiles_unreadable_source (w : world) (c1 c2 : content) :
  quiet w ->
  (forall c, fs w (zipPath rt) <> Locked c) ->
  fs w (ndjsonPath rt) = File c1 ->
  fs w (xlsxPath rt) = Locked c2 ->
  fst (zipFiles rt w) = Rejected (EACCES (xlsxPath rt)).
Proof.
  intros Hq Hu H1 H2.
  destruct (zipFiles_spec w Hq Hu) as (w' & E & _).
  rewrite E. unfold queue, completion_order.
  destruct (stat_swap rt (turns w)); cbn [append_entries fst];
    rewrite ?H1, ?H2; cbn [append_entries]; rewrite ?H1, ?H2; reflexivity.
Qed.

(** An output file that cannot be opened emits ['error'] on the output
    stream, which has no listener: the promise is neither resolved nor
    rejected. *)
Lemma zipFiles_unwritable_destination (w : world) (c : content) :
  fs w (zipPath rt) = Locked c ->
  zipFiles rt w = (Uncaught (EACCES (zipPath rt)), w).
Proof. intros H. unfold zipFiles. now rewrite H. Qed.

End Zip.

End ZipFacts.

(* ================================================================== *)
(** ** Properties of the generation stage *)
(* ================================================================== *)

Import JSON Excel Sys Props PathFacts JSONFacts WriterFacts LineFacts ConvertFacts ZipFacts.
Import Cover.

(** C1. For every [totalUsers], the generation stage resolves and, once the
    write stream has drained, the line-stream file holds exactly [totalUsers]
    lines; each is non-empty, is not blank, and parses as an object with
    exactly the seven fields [userId], [username], [email], [avatar],
    [password], [birthdate], [registeredAt], each a non-empty string. Faker is
    taken to return non-empty strings of one line, and the file to be
    writable. *)
Theorem generation_writes_total_records
  (rt : runtime) (totalUsers batchSize : N) (w : world) :
  (forall n, valid_draw (faker rt n) = true) ->
  (forall c, fs w (ndjsonPath rt) <> Locked c) ->
  let r := writeUsers rt totalUsers batchSize w in
  fst r = Resolved
  /\ exists data,
       fs (settle (snd r)) (ndjsonPath rt) = File (CText data)
       /\ length (split_lines data) = N.to_nat totalUsers
       /\ Forall (fun line =>
                    line <> [] /\ nonblank line = true
                    /\ exists v, parse line = Some v /\ complete_user v = true)
                 (split_lines data).
Proof.
  intros Hfaker Hu r.
  destruct (writeUsers_spec rt totalUsers batchSize w Hu)
    as (disk & pend & w' & Hr & Hf & Ho & Hd & _ & _).
  subst r. rewrite Hr. cbn [fst snd]. split; [reflexivity|].
  destruct (settle_written rt _ _ _ _ Hf Ho Hd) as (Hs & _ & _).
  eexists. split; [exact Hs|].
  rewrite split_lines_terminated by (apply written_printable, Hfaker).
  split; [apply written_length|].
  apply Forall_forall. intros line Hl. apply in_map_iff in Hl.
  destruct Hl as [j [<- _]].
  split; [discriminate|]. split; [apply stringify_nonblank|].
  apply parse_user_complete, Hfaker.
Qed.

Lemma generation_writes_total_records_witness :
  let r := writeUsers sample_rt 3 2 boot in
  fst r = Resolved
  /\ exists data,
       fs (settle (snd r)) (ndjsonPath sample_rt) = File (CText data)
       /\ length (split_lines data) = N.to_nat 3
       /\ Forall (fun line =>
                    line <> [] /\ nonblank line = true
                    /\ exists v, parse line = Some v /\ complete_user v = true)
                 (split_lines data).
Proof.
  apply (generation_writes_total_records sample_rt 3 2 boot).
  - intros n. reflexivity.
  - intros c. discriminate.
Defined.


Lemma multiples_step (f : N -> list event) (n : N) :
  flat_map f (multiples 100000 ((n + 1) / 100000))
  = flat_map f (multiples 100000 (n / 100000))
    ++ (if (n + 1) mod 100000 =? 0 then f (n + 1) else []).
Proof.
  destruct (N.eqb_spec ((n + 1) mod 100000) 0) as [H|H].
  - assert (E : (n + 1) / 100000 = N.succ (n / 100000)
                /\ N.succ (n / 100000) * 100000 = n + 1).
    { pose proof (N.div_mod (n + 1) 100000 ltac:(lia)) as Hq.
      rewrite H in Hq.
      assert (Hd : n / 100000 = (n + 1) / 100000 - 1)
        by (symmetry; apply N.div_unique with 99999; lia).
      lia. }
    destruct E as [E1 E2]. rewrite E1, multiples_succ, flat_map_app, E2.
    cbn [flat_map]. rewrite app_nil_r. reflexivity.
  - rewrite app_nil_r.
    replace ((n + 1) / 100000) with (n / 100000); [reflexivity|].
    pose proof (N.div_mod (n + 1) 100000 ltac:(lia)) as Hq.
    pose proof (N.mod_lt (n + 1) 100000 ltac:(lia)) as Hr.
    symmetry. apply N.div_unique with ((n + 1) mod 100000 - 1); [lia|].
    generalize dependent ((n + 1) mod 100000).
    generalize dependent ((n + 1) / 100000). intros q r. lia.
Qed.



(** The conversion resolves only after [workbook.commit()] has been awaited:
    a resolved conversion leaves a committed workbook. *)
Lemma converted_table_is_committed (rt : runtime) (w w' : world) :
  convertNDJSONToXLSX rt w = (Resolved, w') ->
  exists ws, table_of rt w' = Some {| wb_sheet := ws; wb_committed := true |}.
Proof.
  unfold convertNDJSONToXLSX. intros H.
  set (w1 := create_book (xlsxPath rt) (js "Users") w) in *.
  destruct (read_lines rt (ndjsonPath rt) (io_turn rt w1)) as [e|lines]; [discriminate|].
  destruct (convert_lines rt lines true 0 (addWorksheet (js "Users")) (io_turn rt w1))
    as [[e|ws] w3]; [discriminate|].
  destruct (fs w3 (xlsxPath rt)); inversion H; subst;
    exists ws; unfold table_of; cbn; now rewrite fs_set_same.
Qed.

(** C3. The job enters the conversion stage in the world the writer leaves,
    and in that world the line-stream sink has been asked to end but is not
    closed: [writeUsersToNDJSON] calls [stream.end()] and returns, and nothing
    waits for the stream to finish. This holds whatever the event loop
    completes in each of its turns. *)
Theorem conversion_entered_before_sink_closed (rt : runtime) :
  let r := writeUsersToNDJSON rt (snd (job_start boot)) in
  fst r = Resolved
  /\ job rt boot = (convertNDJSONToXLSX rt ;; zipFiles rt ;; job_end)%stage (snd r)
  /\ sink_of (snd r) = Some Ending.
Proof.
  assert (Hu : forall c, fs (snd (job_start boot)) (ndjsonPath rt) <> Locked c)
    by (intros c; discriminate).
  destruct (writeUsers_spec rt 1000000 100000 _ Hu)
    as (disk & pend & w' & Hr & _ & Ho & _ & _ & _).
  cbn zeta. unfold writeUsersToNDJSON at 1 2 3. rewrite Hr. cbn [fst snd].
  split; [reflexivity|]. split.
  - unfold job, and_then at 1 2. cbn [job_start].
    change (logSystemStats LJobStart (log MJobStarted boot)) with (snd (job_start boot)).
    unfold writeUsersToNDJSON. rewrite Hr. reflexivity.
  - unfold sink_of. rewrite Ho. reflexivity.
Qed.


(* ================================================================== *)
(** ** Properties of the conversion stage *)
(* ================================================================== *)






(** *** The order of [Object.keys] *)






Lemma own_keys_plain (props : list (jsstring * json)) :
  Forall (fun k => JSObject.array_index k = None) (map fst props) ->
  JSObject.own_keys props = map fst props.
Proof.
  intros H. unfold JSObject.own_keys, JSObject.index_keys, JSObject.string_keys.
  assert (E : fold_right
                (fun p acc =>
                   match JSObject.array_index (fst p) with
                   | Some n => JSObject.insert_index n (fst p) acc
                   | None => acc
                   end) [] props = []).
  { induction props as [|[k v] props IH]; [reflexivity|].
    inversion H as [|? ? Hk Hrest]; subst. cbn [fold_right fst].
    cbn [fst] in Hk. rewrite Hk. now apply IH. }
  rewrite E. cbn [map app].
  induction (map fst props) as [|k ks IH]; [reflexivity|].
  inversion H as [|? ? Hk Hrest]; subst. cbn [filter]. rewrite Hk.
  f_equal. now apply IH.
Qed.


(** *** The log of the converter *)

(** One committed row: the report is logged when the count reaches a
    multiple of 100000. *)
Lemma convert_step_log (rt : runtime) (rc : N) (ws : worksheet) (w : world)
  (tr : list event) :
  trace w = tr ++ excel_progress rc ->
  let w1 := write_book (xlsxPath rt) ws w in
  let w2 := if (rc + 1) mod 100000 =? 0
            then logSystemStats (LExcelRows (rc + 1)) (log (MExcelRows (rc + 1)) w1)
            else w1 in
  trace w2 = tr ++ excel_progress (rc + 1) /\ draws w2 = draws w.
Proof.
  intros Ht. cbn zeta. unfold excel_progress. rewrite multiples_step.
  fold (excel_progress rc).
  destruct (write_book_frame (xlsxPath rt) ws w) as (_ & Ft & Fd).
  destruct (_ =? 0); cbn [trace draws logSystemStats log emit];
    rewrite Ft, Fd, Ht, <- ?app_assoc, ?app_nil_r; auto.
Qed.

Lemma convert_lines_log (rt : runtime) (lines : list jsstring) :
  forall b rc ws w tr,
  trace w = tr ++ excel_progress rc ->
  let r := convert_lines rt lines b rc ws w in
  trace (snd r) = tr ++ excel_progress (rc + committed_rows lines b)
  /\ draws (snd r) = draws w.
Proof.
  induction lines as [|l lines IH]; intros b rc ws w tr Ht; cbn zeta.
  - cbn. rewrite N.add_0_r. auto.
  - cbn [convert_lines committed_rows]. fold (nonblank l).
    destruct (nonblank l); cbn [negb]; [|apply IH; exact Ht].
    destruct (parse l) as [v|]; [|cbn; rewrite N.add_0_r; auto].
    assert (Hstep : forall ws1,
      let r := convert_lines rt lines false (rc + 1) (addRow v ws1)
                 (if (rc + 1) mod 100000 =? 0
                  then logSystemStats (LExcelRows (rc + 1))
                         (log (MExcelRows (rc + 1))
                            (write_book (xlsxPath rt) (addRow v ws1) w))
                  else write_book (xlsxPath rt) (addRow v ws1) w) in
      trace (snd r) = tr ++ excel_progress (rc + N.succ (committed_rows lines false))
      /\ draws (snd r) = draws w).
    { intros ws1. cbn zeta.
      destruct (convert_step_log rt rc (addRow v ws1) w tr Ht) as [H1 H2].
      cbn zeta in H1, H2.
      match goal with
      | |- context [convert_lines rt lines false ?rc' ?ws' ?w'] =>
          destruct (IH false rc' ws' w' tr H1) as [H3 H4]
      end.
      cbn zeta in H3, H4. rewrite H3, H4, H2.
      replace (rc + 1 + committed_rows lines false)
        with (rc + N.succ (committed_rows lines false)) by lia.
      auto. }
    destruct b.
    + destruct (JSObject.keys v) as [ks|]; cbn [option_map].
      * apply Hstep.
      * cbn. rewrite N.add_0_r. auto.
    + apply Hstep.
Qed.

Lemma committed_rows_rest (lines : list jsstring) :
  forall vs, records_of lines = Some vs ->
  committed_rows lines false = N.of_nat (length vs).
Proof.
  induction lines as [|l lines IH]; intros vs H; cbn [records_of] in H.
  - inversion H. reflexivity.
  - cbn [committed_rows]. destruct (nonblank l); cbn [negb]; [|now apply IH].
    destruct (parse l) as [v|]; [|discriminate].
    destruct (records_of lines) as [vs'|]; [|discriminate].
    inversion H; subst. rewrite (IH vs' eq_refl). cbn [length]. lia.
Qed.

Lemma committed_rows_records (lines : list jsstring) :
  forall vs, records_of lines = Some vs ->
  hd_error vs <> Some JNull ->
  committed_rows lines true = N.of_nat (length vs).
Proof.
  induction lines as [|l lines IH]; intros vs H Hn; cbn [records_of] in H.
  - inversion H. reflexivity.
  - cbn [committed_rows]. destruct (nonblank l); cbn [negb]; [|now apply IH].
    destruct (parse l) as [v|]; [|discriminate].
    destruct (records_of lines) as [vs'|] eqn:E; [|discriminate].
    inversion H; subst. cbn [hd_error] in Hn.
    rewrite (committed_rows_rest lines vs' E).
    destruct v; try (exfalso; apply Hn; reflexivity); cbn [JSObject.keys length]; lia.
Qed.

(** The converter on a source file at rest, with what it leaves in every
    field of the world. *)
Lemma convert_full (rt : runtime) (w : world) (data : jsstring) :
  quiet w ->
  fs w (ndjsonPath rt) = File (CText data) ->
  (forall c, fs w (xlsxPath rt) <> Locked c) ->
  exists w',
    convertNDJSONToXLSX rt w
    = (match sheet_after (split_lines data) true (addWorksheet (js "Users")) with
       | inl e => Rejected e
       | inr _ => Resolved
       end, w')
    /\ (forall p, str_eqb p (xlsxPath rt) = false -> fs w' p = fs w p)
    /\ table_of rt w'
       = Some match sheet_after (split_lines data) true (addWorksheet (js "Users")) with
              | inl _ =>
                  {| wb_sheet := book_after (split_lines data) true
                                   (addWorksheet (js "Users")) (addWorksheet (js "Users"));
                     wb_committed := false |}
              | inr ws => {| wb_sheet := ws; wb_committed := true |}
              end
    /\ quiet w'
    /\ draws w' = draws w
    /\ trace w'
       = trace w ++ excel_progress (committed_rows (split_lines data) true)
         ++ match sheet_after (split_lines data) true (addWorksheet (js "Users")) with
            | inl _ => []
            | inr _ => [Log MFinishedExcel; Stats LCompletedExcel]
            end.
Proof.
  intros Hq Hsrc Hu.
  unfold convertNDJSONToXLSX. rewrite (create_book_unlocked _ _ _ Hu).
  set (w1 := with_fs (fs_set (xlsxPath rt) _ (fs w)) w).
  assert (Hq1 : quiet w1) by exact Hq.
  destruct (flush_quiet (io_ops rt (turns w1)) w1 Hq1) as (Hfs & Hq2 & _).
  destruct (io_turn_frame rt w1) as (Ht2 & Hd2).
  set (w2 := io_turn rt w1) in *.
  assert (Hfs2 : forall p, fs w2 p = fs w1 p) by (intros p; apply Hfs).
  assert (Hq3 : quiet w2) by exact Hq2.
  assert (Hsrc2 : fs w2 (ndjsonPath rt) = File (CText data)).
  { rewrite Hfs2. unfold w1. cbn. rewrite fs_set_other by apply ndjson_xlsx. exact Hsrc. }
  unfold read_lines. rewrite Hsrc2. cbn [text_of].
  pose proof (convert_lines_spec rt (split_lines data) true 0 (addWorksheet (js "Users")) w2) as Hc.
  cbn zeta in Hc. destruct Hc as (H1 & H2 & H3 & H4).
  assert (Ht0 : trace w2 = trace w ++ excel_progress 0)
    by (rewrite Ht2; unfold w1; cbn; now rewrite app_nil_r).
  pose proof (convert_lines_log rt (split_lines data) true 0 (addWorksheet (js "Users"))
                w2 (trace w) Ht0) as Hl.
  cbn zeta in Hl. rewrite N.add_0_l in Hl. destruct Hl as (Hl1 & Hl2).
  destruct (convert_lines rt (split_lines data) true 0 (addWorksheet (js "Users")) w2)
    as [res w3] eqn:Ec.
  cbn [fst snd] in *. rewrite <- H1.
  specialize (H4 (addWorksheet (js "Users"))).
  rewrite Hfs2 in H4. unfold w1 in H4. cbn in H4. rewrite fs_set_same in H4.
  specialize (H4 eq_refl).
  assert (Hq4 : quiet w3) by (unfold quiet; rewrite H3; exact Hq3).
  assert (Hfr3 : forall p, str_eqb p (xlsxPath rt) = false -> fs w3 p = fs w p).
  { intros p Hp. rewrite H2, Hfs2 by assumption. unfold w1. cbn.
    now rewrite fs_set_other. }
  destruct res as [e|ws].
  - exists w3. split; [reflexivity|].
    refine (conj _ (conj _ (conj _ (conj _ _)))).
    + exact Hfr3.
    + unfold table_of. rewrite H4. reflexivity.
    + exact Hq4.
    + rewrite Hl2, Hd2. reflexivity.
    + rewrite Hl1, app_nil_r. reflexivity.
  - rewrite H4.
    destruct (flush_quiet (io_ops rt (turns w3)) w3 Hq4) as (Hfs3 & Hq5 & _).
    destruct (io_turn_frame rt w3) as (Ht3 & Hd3).
    eexists. split; [reflexivity|].
    refine (conj _ (conj _ (conj _ (conj _ _)))).
    + intros p Hp. cbn. rewrite fs_set_other by assumption.
      rewrite Hfs3. now apply Hfr3.
    + unfold table_of. cbn. rewrite fs_set_same. reflexivity.
    + exact Hq5.
    + change (draws (io_turn rt w3) = draws w). rewrite Hd3, Hl2, Hd2. reflexivity.
    + change ((trace (io_turn rt w3) ++ [Log MFinishedExcel]) ++ [Stats LCompletedExcel]
              = trace w ++ excel_progress (committed_rows (split_lines data) true)
                ++ [Log MFinishedExcel; Stats LCompletedExcel]).
      rewrite Ht3, Hl1, <- !app_assoc. reflexivity.
Qed.

Lemma sheet_after_null (pre : list jsstring) :
  forall line post ws,
  Forall (fun l => nonblank l = false) pre ->
  nonblank line = true ->
  parse line = Some JNull ->
  sheet_after (pre ++ line :: post) true ws = inl TypeError
  /\ (forall cur, book_after (pre ++ line :: post) true ws cur = cur)
  /\ committed_rows (pre ++ line :: post) true = 0.
Proof.
  induction pre as [|l pre IH]; intros line post ws Hpre Hb Hp.
  - cbn [app sheet_after book_after committed_rows]. rewrite Hb, Hp. cbn. auto.
  - inversion Hpre as [|? ? Hl Hrest]; subst.
    cbn [app sheet_after book_after committed_rows]. rewrite Hl. cbn [negb].
    now apply IH.
Qed.





(** A first record without a key sets no column and writes no header row:
    the two records of this source give two rows, both empty. *)
Example empty_object_has_no_header_row :
  let data := js "{}" ++ [10] ++ stringify [ (js "a", VString (js "1")) ] ++ [10] in
  let r := convertNDJSONToXLSX sample_rt (with_source sample_rt data) in
  fst r = Resolved
  /\ option_map (fun b => (ws_columns (wb_sheet b), ws_rows (wb_sheet b)))
                (table_of sample_rt (snd r))
     = Some (Some [], [[]; []]).
Proof. vm_compute. split; reflexivity. Qed.




(** A record that drifts from the schema: its extra key is dropped, its
    missing keys give empty cells. *)
Example drifted_record_is_projected :
  option_map (fun b => (option_map (map header) (ws_columns (wb_sheet b)),
                        nth_error (ws_rows (wb_sheet b)) 2))
    (table_of sample_rt
       (snd (convertNDJSONToXLSX sample_rt (with_source sample_rt sample_source))))
  = Some (Some user_fields,
          Some [Some (JStr (js "7")); None; None; None; None; None; None]).
Proof. vm_compute. reflexivity. Qed.

(** Keys that are array indices come first, in ascending order, whatever
    their place in the line. *)
Example index_keys_come_first :
  let data := stringify [ (js "b", VString (js "x")); (js "10", VString (js "y"));
                          (js "2", VString (js "z")) ] ++ [10] in
  option_map (fun b => option_map (map header) (ws_columns (wb_sheet b)))
    (table_of sample_rt (snd (convertNDJSONToXLSX sample_rt (with_source sample_rt data))))
  = Some (Some [js "2"; js "10"; js "b"]).
Proof. vm_compute. reflexivity. Qed.





(** The sample with a line that is not JSON: the stage rejects at that line
    with three rows written (the header and two records) and nothing
    committed. *)
Example broken_sample_aborts :
  let r := convertNDJSONToXLSX sample_rt (with_source sample_rt sample_broken) in
  fst r = Rejected (SyntaxError (js "{oops"))
  /\ option_map (fun b => (length (ws_rows (wb_sheet b)), wb_committed b))
                (table_of sample_rt (snd r)) = Some (3%nat, false).
Proof. vm_compute. split; reflexivity. Qed.


(** C9. When some non-blank line of a source at rest does not parse, the
    conversion rejects; the workbook at [xlsxPath] is left uncommitted, and
    the line-stream file is what it was. *)
Theorem failed_conversion_leaves_table_unfinalized
  (rt : runtime) (w : world) (data : jsstring) :
  quiet w ->
  fs w (ndjsonPath rt) = File (CText data) ->
  (forall c, fs w (xlsxPath rt) <> Locked c) ->
  (exists bad, In bad (split_lines data) /\ nonblank bad = true /\ parse bad = None) ->
  exists e w' b,
    convertNDJSONToXLSX rt w = (Rejected e, w')
    /\ table_of rt w' = Some b
    /\ wb_committed b = false
    /\ fs w' (ndjsonPath rt) = fs w (ndjsonPath rt).
Proof.
  intros Hq Hsrc Hu Hbad.
  destruct (convert_spec rt w data Hq Hsrc Hu) as (w' & b & Hrun & Hkeep & Htab & Hb).
  destruct (sheet_after_some_bad (split_lines data) true (addWorksheet (js "Users")) Hbad)
    as [e He].
  rewrite He in Hrun, Hb.
  exists e, w', b. split; [exact Hrun|]. split; [exact Htab|].
  split; [subst b; reflexivity|]. now rewrite Hkeep, Hsrc.
Qed.

Lemma failed_conversion_leaves_table_unfinalized_witness :
  exists e w' b,
    convertNDJSONToXLSX sample_rt (with_source sample_rt sample_broken) = (Rejected e, w')
    /\ table_of sample_rt w' = Some b
    /\ wb_committed b = false
    /\ fs w' (ndjsonPath sample_rt)
       = fs (with_source sample_rt sample_broken) (ndjsonPath sample_rt).
Proof.
  apply (failed_conversion_leaves_table_unfinalized sample_rt
           (with_source sample_rt sample_broken) sample_broken).
  - exact I.
  - reflexivity.
  - intros c. discriminate.
  - exists (js "{oops"). split; [|split].
    + vm_compute. tauto.
    + reflexivity.
    + reflexivity.
Defined.

(* ================================================================== *)
(** ** Properties of the archiving stage *)
(* ================================================================== *)

(** C7, as the code has it. With the two source files present and at rest,
    the archiver resolves and leaves a closed archive with exactly two
    entries, the line-stream file and the table file under their base names,
    each holding the bytes of its source, so of the same size. The entries
    come in the order in which the two [lstat] calls of the archiver
    complete: the order supplied, or the other way round. *)
Theorem archive_holds_both_files (rt : runtime) (w : world) (c1 c2 : content) :
  quiet w ->
  fs w (ndjsonPath rt) = File c1 ->
  fs w (xlsxPath rt) = File c2 ->
  (forall c, fs w (zipPath rt) <> Locked c) ->
  let e1 := (Path.basename (ndjsonPath rt), bytes_of rt c1) in
  let e2 := (Path.basename (xlsxPath rt), bytes_of rt c2) in
  exists w' z,
    zipFiles rt w = (Resolved, w')
    /\ archive_of rt w' = Some z
    /\ zip_closed z = true
    /\ zip_torn z = None
    /\ zip_entries z = (if stat_swap rt (turns w) then [e2; e1] else [e1; e2])
    /\ (zip_entries z = [e1; e2] \/ zip_entries z = [e2; e1])
    /\ fst e1 = js "users_stream.ndjson"
    /\ fst e2 = js "users_stream.xlsx"
    /\ length (snd e1) = length (bytes_of rt c1)
    /\ length (snd e2) = length (bytes_of rt c2)
    /\ fs w' (ndjsonPath rt) = File c1
    /\ fs w' (xlsxPath rt) = File c2.
Proof.
  intros Hq H1 H2 Hu. cbn zeta.
  destruct (zipFiles_spec rt w Hq Hu) as (w' & Ef & Ea & Hfr & _).
  rewrite basename_ndjson, basename_xlsx.
  assert (E : append_entries rt (fs w) (queue rt w) []
              = inr (if stat_swap rt (turns w)
                     then [ (js "users_stream.xlsx", bytes_of rt c2);
                            (js "users_stream.ndjson", bytes_of rt c1) ]
                     else [ (js "users_stream.ndjson", bytes_of rt c1);
                            (js "users_stream.xlsx", bytes_of rt c2) ])).
  { unfold queue, completion_order.
    destruct (stat_swap rt (turns w)); cbn [append_entries];
      rewrite ?H1, ?H2; cbn [append_entries]; rewrite ?H1, ?H2; reflexivity. }
  rewrite E in Ef, Ea.
  exists w'. eexists. split; [exact Ef|]. split; [exact Ea|].
  cbn [zip_closed zip_torn zip_entries fst snd].
  refine (conj eq_refl (conj eq_refl (conj eq_refl (conj _ _)))).
  - destruct (stat_swap rt (turns w)); [right|left]; reflexivity.
  - refine (conj eq_refl (conj eq_refl (conj eq_refl (conj eq_refl (conj _ _))))).
    + rewrite Hfr by apply ndjson_zip. exact H1.
    + rewrite Hfr by apply xlsx_zip. exact H2.
Qed.

Lemma archive_holds_both_files_witness :
  let rt := sample_rt in
  let w := snd (convertNDJSONToXLSX sample_rt (with_source sample_rt sample_source)) in
  let c1 := CText sample_source in
  let c2 := CBook {| wb_sheet :=
                       add_rows [JObj (parsed_props (user_of sample_draw) []);
                                 JObj [ (js "userId", JStr (js "7"));
                                        (js "nickname", JStr (js "Zed")) ]]
                         (set_columns (map column_of_key user_fields)
                            (addWorksheet (js "Users")));
                     wb_committed := true |} in
  let e1 := (Path.basename (ndjsonPath rt), bytes_of rt c1) in
  let e2 := (Path.basename (xlsxPath rt), bytes_of rt c2) in
  exists w' z,
    zipFiles rt w = (Resolved, w')
    /\ archive_of rt w' = Some z
    /\ zip_closed z = true
    /\ zip_torn z = None
    /\ zip_entries z = (if stat_swap rt (turns w) then [e2; e1] else [e1; e2])
    /\ (zip_entries z = [e1; e2] \/ zip_entries z = [e2; e1])
    /\ fst e1 = js "users_stream.ndjson"
    /\ fst e2 = js "users_stream.xlsx"
    /\ length (snd e1) = length (bytes_of rt c1)
    /\ length (snd e2) = length (bytes_of rt c2)
    /\ fs w' (ndjsonPath rt) = File c1
    /\ fs w' (xlsxPath rt) = File c2.
Proof.
  apply (archive_holds_both_files sample_rt
           (snd (convertNDJSONToXLSX sample_rt (with_source sample_rt sample_source)))).
  - exact I.
  - vm_compute. reflexivity.
  - vm_compute. reflexivity.
  - intros c H. vm_compute in H. discriminate H.
Defined.

(** C7 as stated fails when the [lstat] of the table file completes before
    that of the line-stream file: the archive is complete and closed, but
    the table file is its first entry, not the second as supplied. *)
Lemma archive_order_follows_the_stats :
  let w := snd (convertNDJSONToXLSX swapped_rt (with_source swapped_rt sample_source)) in
  let r := zipFiles swapped_rt w in
  let names := option_map (fun z => map fst (zip_entries z))
                          (archive_of swapped_rt (snd r)) in
  fst r = Resolved
  /\ names = Some [js "users_stream.xlsx"; js "users_stream.ndjson"]
  /\ names <> Some [js "users_stream.ndjson"; js "users_stream.xlsx"].
Proof. vm_compute. repeat split; discriminate. Qed.

(** C8. A source file that is missing does not make the archiver fail: with
    the table file absent the promise resolves, and the archive is closed
    holding the line-stream file alone. The archive's ['warning'] for the
    file that cannot be stat-ed has no listener; only ['error'] rejects. *)
Theorem archiver_skips_missing_source (rt : runtime) (w : world) (c1 : content) :
  quiet w ->
  fs w (ndjsonPath rt) = File c1 ->
  fs w (xlsxPath rt) = Absent ->
  (forall c, fs w (zipPath rt) <> Locked c) ->
  exists w' z,
    zipFiles rt w = (Resolved, w')
    /\ archive_of rt w' = Some z
    /\ zip_closed z = true
    /\ zip_entries z = [ (js "users_stream.ndjson", bytes_of rt c1) ].
Proof.
  intros Hq H1 H2 Hu.
  destruct (zipFiles_spec rt w Hq Hu) as (w' & Ef & Ea & _).
  assert (E : append_entries rt (fs w) (queue rt w) []
              = inr [ (js "users_stream.ndjson", bytes_of rt c1) ]).
  { unfold queue, completion_order.
    destruct (stat_swap rt (turns w)); cbn [append_entries];
      rewrite ?H2; cbn [append_entries]; rewrite H1; cbn [append_entries];
      rewrite ?H2; reflexivity. }
  rewrite E in Ef, Ea.
  exists w'. eexists. split; [exact Ef|]. split; [exact Ea|]. split; reflexivity.
Qed.

Lemma archiver_skips_missing_source_witness :
  exists w' z,
    zipFiles sample_rt (with_source sample_rt sample_source) = (Resolved, w')
    /\ archive_of sample_rt w' = Some z
    /\ zip_closed z = true
    /\ zip_entries z
       = [ (js "users_stream.ndjson", bytes_of sample_rt (CText sample_source)) ].
Proof.
  apply (archiver_skips_missing_source sample_rt (with_source sample_rt sample_source)).
  - exact I.
  - reflexivity.
  - reflexivity.
  - intros c. discriminate.
Defined.

(* ================================================================== *)
(** ** From the generator to the sheet *)
(* ================================================================== *)

Lemma records_of_users (ds : list draw) :
  records_of (map (fun d => stringify (user_of d)) ds) = Some (map parsed_user ds).
Proof.
  induction ds as [|d ds IH]; [reflexivity|].
  cbn [map records_of]. rewrite stringify_nonblank.
  rewrite parse_stringify by discriminate. rewrite IH. reflexivity.
Qed.

Lemma written_users (rt : runtime) (d0 k : nat) :
  written rt d0 k = map (fun d => stringify (user_of d)) (map (faker rt) (seq d0 k)).
Proof. unfold written. now rewrite map_map. Qed.

(** The writer on a file it can open, with what it leaves in every field of
    the world. *)
Lemma writeUsers_full (rt : runtime) (n b : N) (w : world) :
  (forall c, fs w (ndjsonPath rt) <> Locked c) ->
  exists disk pend w',
    writeUsers rt n b w = (Resolved, w')
    /\ fs w' (ndjsonPath rt) = File (CText disk)
    /\ out w' = Some {| st_path := ndjsonPath rt; st_pending := pend; st_state := Ending |}
    /\ disk ++ concat pend = text_of_draws rt (draws w) (N.to_nat n)
    /\ draws w' = (draws w + N.to_nat n)%nat
    /\ (forall q, str_eqb q (ndjsonPath rt) = false -> fs w' q = fs w q).
Proof.
  intros Hu. destruct (createWriteStream_unlocked (ndjsonPath rt) w Hu) as [w1 E1].
  pose proof (writing_loop rt b _ _ _ _ (createWriteStream_writing rt w w1 E1) n) as H.
  destruct H as (disk & pend & Hf & Ho & Hd & Hn & Ht & Hfr).
  unfold writeUsers. rewrite E1.
  exists disk, pend. eexists. split; [reflexivity|].
  unfold stream_end. rewrite Ho. cbn.
  repeat split; assumption.
Qed.

Lemma row_of_parsed_user (d : draw) :
  row_values (map column_of_key user_fields) (parsed_user d) = row_of_draw d.
Proof. reflexivity. Qed.

(** The writer followed by the event loop, seen from the converter. *)
Lemma settled_source (rt : runtime) (n b : N) (w : world) :
  (forall c, fs w (ndjsonPath rt) <> Locked c) ->
  let w1 := settle (snd (writeUsers rt n b w)) in
  quiet w1
  /\ fs w1 (ndjsonPath rt) = File (CText (text_of_draws rt (draws w) (N.to_nat n)))
  /\ (forall q, str_eqb q (ndjsonPath rt) = false -> fs w1 q = fs w q)
  /\ draws w1 = (draws w + N.to_nat n)%nat.
Proof.
  intros Hu. cbn zeta.
  destruct (writeUsers_full rt n b w Hu)
    as (disk & pend & w' & Hr & Hf & Ho & Hd & Hn & Hfr).
  rewrite Hr. cbn [snd].
  destruct (settle_written rt _ _ _ _ Hf Ho Hd) as (Hs & Hso & Hsf).
  refine (conj _ (conj _ (conj _ _))).
  - unfold quiet. rewrite Hso. reflexivity.
  - exact Hs.
  - intros q Hq. rewrite Hsf by assumption. now apply Hfr.
  - unfold settle. rewrite Ho.
    destruct (flush_frame (S (length pend)) w') as (_ & Hdr & _).
    cbn [st_pending]. rewrite Hdr. exact Hn.
Qed.

Lemma worksheet_eq (ws : worksheet) (name : jsstring) (cols : option (list column))
  (rows : list row) :
  ws_name ws = name -> ws_columns ws = cols -> ws_rows ws = rows ->
  ws = {| ws_name := name; ws_columns := cols; ws_rows := rows |}.
Proof. destruct ws. cbn. intros. subst. reflexivity. Qed.

(** The sheet the converter builds from generated lines. *)
Lemma sheet_of_draws (rt : runtime) (d0 k : nat) :
  sheet_after (written rt d0 (S k)) true (addWorksheet (js "Users"))
  = inr {| ws_name := js "Users";
           ws_columns := Some (map column_of_key user_fields);
           ws_rows := map (fun f => Some (JStr f)) user_fields
                      :: map (fun j => row_of_draw (faker rt j)) (seq d0 (S k)) |}.
Proof.
  assert (Hrec : records_of (written rt d0 (S k))
                 = Some (parsed_user (faker rt d0)
                         :: map parsed_user (map (faker rt) (seq (S d0) k)))).
  { rewrite written_users, records_of_users. reflexivity. }
  rewrite (sheet_after_first _ _ _ user_fields _ Hrec eq_refl). f_equal.
  destruct (add_rows_spec
              (parsed_user (faker rt d0) :: map parsed_user (map (faker rt) (seq (S d0) k)))
              (set_columns (map column_of_key user_fields) (addWorksheet (js "Users"))))
    as (Hc & Hr & Hn).
  apply worksheet_eq; [rewrite Hn; reflexivity|rewrite Hc; reflexivity|].
  rewrite Hr.
  change (ws_rows (set_columns (map column_of_key user_fields) (addWorksheet (js "Users"))))
    with [map (fun f => Some (JStr f)) user_fields].
  change (columns_of (set_columns (map column_of_key user_fields)
                        (addWorksheet (js "Users"))))
    with (map column_of_key user_fields).
  cbn [app]. f_equal. cbn [seq map]. rewrite row_of_parsed_user. f_equal.
  rewrite !map_map. apply map_ext. intros j. apply row_of_parsed_user.
Qed.

Lemma committed_rows_written (rt : runtime) (d0 k : nat) :
  committed_rows (written rt d0 k) true = N.of_nat k.
Proof.
  assert (Hrec : records_of (written rt d0 k)
                 = Some (map parsed_user (map (faker rt) (seq d0 k))))
    by (rewrite written_users; apply records_of_users).
  rewrite (committed_rows_records _ _ Hrec).
  - now rewrite !length_map, length_seq.
  - destruct k; cbn; discriminate.
Qed.

Lemma table_of_file (rt : runtime) (w : world) (bk : workbook) :
  table_of rt w = Some bk -> fs w (xlsxPath rt) = File (CBook bk).
Proof.
  unfold table_of. destruct (fs w (xlsxPath rt)) as [|c|c]; try discriminate.
  destruct c; try discriminate. intros H. inversion H. reflexivity.
Qed.

Lemma zip_ndjson (rt : runtime) : str_eqb (zipPath rt) (ndjsonPath rt) = false.
Proof.
  apply StrFacts.str_eqb_neq. rewrite ndjsonPath_eq, zipPath_eq.
  intros H. apply app_inv_head in H. discriminate.
Qed.

Lemma zip_xlsx (rt : runtime) : str_eqb (zipPath rt) (xlsxPath rt) = false.
Proof.
  apply StrFacts.str_eqb_neq. rewrite xlsxPath_eq, zipPath_eq.
  intros H. apply app_inv_head in H. discriminate.
Qed.

(* ================================================================== *)
(** ** The schema of generated files *)
(* ================================================================== *)

(** C10. [generateUser] returns a record whose keys are [userId],
    [username], [email], [avatar], [password], [birthdate], [registeredAt],
    each once and in that order. So every line of a generated file parses to
    an object with exactly those keys in that order, and the converter, run
    on the file once it is written, sets exactly those seven columns in that
    order (header and key the field name) and writes them as the header row.
    This holds for the file of the job's writer, and for any record count
    above zero. Faker is taken to return non-empty strings of one line, and
    the two files to be writable. *)
Theorem generated_records_share_schema (rt : runtime) (w : world) :
  (forall n, valid_draw (faker rt n) = true) ->
  (forall c, fs w (ndjsonPath rt) <> Locked c) ->
  (forall c, fs w (xlsxPath rt) <> Locked c) ->
  let seven := [ js "userId"; js "username"; js "email"; js "avatar"; js "password";
                 js "birthdate"; js "registeredAt" ] in
  let same_schema := fun w1 : world =>
    exists data,
      fs w1 (ndjsonPath rt) = File (CText data)
      /\ Forall (fun line =>
                   exists v, parse line = Some v /\ JSObject.keys v = Some seven)
                (split_lines data)
      /\ exists w2 ws,
           convertNDJSONToXLSX rt w1 = (Resolved, w2)
           /\ table_of rt w2 = Some {| wb_sheet := ws; wb_committed := true |}
           /\ ws_columns ws
              = Some (map (fun k => {| header := k; key := k; width := 20 |}) seven)
           /\ hd_error (ws_rows ws) = Some (map (fun k => Some (JStr k)) seven) in
  (forall w0, map fst (fst (generateUser rt w0)) = seven)
  /\ NoDup seven
  /\ length seven = 7%nat
  /\ same_schema (settle (snd (writeUsersToNDJSON rt w)))
  /\ (forall totalUsers batchSize,
        0 < totalUsers -> same_schema (settle (snd (writeUsers rt totalUsers batchSize w)))).
Proof.
  intros Hfaker Hu Hx. cbn zeta.
  assert (Hgen : forall totalUsers batchSize, 0 < totalUsers ->
    exists data,
      fs (settle (snd (writeUsers rt totalUsers batchSize w))) (ndjsonPath rt)
      = File (CText data)
      /\ Forall (fun line =>
                   exists v, parse line = Some v /\ JSObject.keys v = Some user_fields)
                (split_lines data)
      /\ exists w2 ws,
           convertNDJSONToXLSX rt (settle (snd (writeUsers rt totalUsers batchSize w)))
           = (Resolved, w2)
           /\ table_of rt w2 = Some {| wb_sheet := ws; wb_committed := true |}
           /\ ws_columns ws = Some (map column_of_key user_fields)
           /\ hd_error (ws_rows ws) = Some (map (fun k => Some (JStr k)) user_fields)).
  { intros n b Hpos.
    destruct (settled_source rt n b w Hu) as (Hq & Hsrc & Hfr & _).
    cbn zeta in Hq, Hsrc, Hfr.
    set (w1 := settle (snd (writeUsers rt n b w))) in *.
    assert (E : split_lines (text_of_draws rt (draws w) (N.to_nat n))
                = written rt (draws w) (N.to_nat n)).
    { unfold text_of_draws. apply split_lines_terminated. now apply written_printable. }
    eexists. split; [exact Hsrc|]. rewrite E. split.
    - apply Forall_forall. intros line Hl. apply in_map_iff in Hl.
      destruct Hl as [j [<- _]]. eexists. split; [apply parse_user | apply user_keys].
    - assert (Hx1 : forall c, fs w1 (xlsxPath rt) <> Locked c).
      { intros c. rewrite Hfr by apply xlsx_ndjson. apply Hx. }
      destruct (convert_spec rt w1 _ Hq Hsrc Hx1) as (w2 & bk & Hrun & _ & Htab & Hb).
      rewrite E in Hrun, Hb.
      destruct (N.to_nat n) as [|k] eqn:Ek; [lia|].
      rewrite sheet_of_draws in Hrun, Hb. subst bk.
      exists w2. eexists. split; [exact Hrun|]. split; [exact Htab|].
      split; reflexivity. }
  split; [reflexivity|]. split.
  { repeat (constructor; [cbn; intuition discriminate|]). constructor. }
  split; [reflexivity|]. split.
  - apply (Hgen 1000000 100000). reflexivity.
  - exact Hgen.
Qed.

Lemma generated_records_share_schema_witness :
  let rt := sample_rt in
  let w := boot in
  let seven := [ js "userId"; js "username"; js "email"; js "avatar"; js "password";
                 js "birthdate"; js "registeredAt" ] in
  let same_schema := fun w1 : world =>
    exists data,
      fs w1 (ndjsonPath rt) = File (CText data)
      /\ Forall (fun line =>
                   exists v, parse line = Some v /\ JSObject.keys v = Some seven)
                (split_lines data)
      /\ exists w2 ws,
           convertNDJSONToXLSX rt w1 = (Resolved, w2)
           /\ table_of rt w2 = Some {| wb_sheet := ws; wb_committed := true |}
           /\ ws_columns ws
              = Some (map (fun k => {| header := k; key := k; width := 20 |}) seven)
           /\ hd_error (ws_rows ws) = Some (map (fun k => Some (JStr k)) seven) in
  (forall w0, map fst (fst (generateUser rt w0)) = seven)
  /\ NoDup seven
  /\ length seven = 7%nat
  /\ same_schema (settle (snd (writeUsersToNDJSON rt w)))
  /\ (forall totalUsers batchSize,
        0 < totalUsers -> same_schema (settle (snd (writeUsers rt totalUsers batchSize w)))).
Proof.
  apply (generated_records_share_schema sample_rt boot).
  - intros n. reflexivity.
  - intros c. discriminate.
  - intros c. discriminate.
Defined.

(* ================================================================== *)
(** ** Further properties: the writer *)
(* ================================================================== *)

(** X1. Whatever the line-stream file held before, once the stream has
    drained it holds exactly the serialised records of this run, one per
    line in the order they were generated, each followed by a line feed; the
    generator has been called once per record; the sink is closed with
    nothing left in its buffer. *)
Theorem written_file_is_the_draws (rt : runtime) (n b : N) (w : world) :
  (forall c, fs w (ndjsonPath rt) <> Locked c) ->
  let w' := snd (writeUsers rt n b w) in
  on_disk (ndjsonPath rt) (settle w') = Some (text_of_draws rt (draws w) (N.to_nat n))
  /\ draws (settle w') = (draws w + N.to_nat n)%nat
  /\ sink_of (settle w') = Some Closed
  /\ buffered (settle w') = [].
Proof.
  intros Hu. cbn zeta.
  destruct (writeUsers_full rt n b w Hu)
    as (disk & pend & w' & Hr & Hf & Ho & Hd & Hn & _).
  rewrite Hr. cbn [snd].
  destruct (settle_written rt _ _ _ _ Hf Ho Hd) as (Hs & Hso & _).
  unfold on_disk, sink_of, buffered. rewrite Hso.
  unfold text_of_draws. rewrite Hs.
  repeat split; try reflexivity.
  unfold settle. rewrite Ho. unfold flush. rewrite Ho. cbn. exact Hn.
Qed.

Lemma written_file_is_the_draws_witness :
  let w' := snd (writeUsers sample_rt 3 2 (with_source sample_rt sample_broken)) in
  on_disk (ndjsonPath sample_rt) (settle w')
  = Some (text_of_draws sample_rt (draws (with_source sample_rt sample_broken)) (N.to_nat 3))
  /\ draws (settle w') = (draws (with_source sample_rt sample_broken) + N.to_nat 3)%nat
  /\ sink_of (settle w') = Some Closed
  /\ buffered (settle w') = [].
Proof.
  apply (written_file_is_the_draws sample_rt 3 2 (with_source sample_rt sample_broken)).
  intros c H. vm_compute in H. discriminate H.
Defined.


(* ================================================================== *)
(** ** Further properties: the converter *)
(* ================================================================== *)



(** X4. A source whose first non-blank line is the JSON text [null] makes the
    converter reject with a [TypeError] (from [Object.keys(null)]), not a
    [SyntaxError]: no column is set and no row written, the workbook is left
    uncommitted, nothing is logged, and whatever follows the line is not
    read. *)
Theorem null_first_record_is_type_error
  (rt : runtime) (w : world) (data : jsstring) (pre : list jsstring)
  (line : jsstring) (post : list jsstring) :
  quiet w ->
  fs w (ndjsonPath rt) = File (CText data) ->
  (forall c, fs w (xlsxPath rt) <> Locked c) ->
  split_lines data = pre ++ line :: post ->
  Forall (fun l => nonblank l = false) pre ->
  nonblank line = true ->
  parse line = Some JNull ->
  let r := convertNDJSONToXLSX rt w in
  fst r = Rejected TypeError
  /\ table_of rt (snd r)
     = Some {| wb_sheet := {| ws_name := js "Users"; ws_columns := None; ws_rows := [] |};
               wb_committed := false |}
  /\ trace (snd r) = trace w.
Proof.
  intros Hq Hsrc Hu Hsplit Hpre Hb Hp. cbn zeta.
  destruct (convert_full rt w data Hq Hsrc Hu) as (w' & Hr & _ & Htab & _ & _ & Ht).
  destruct (sheet_after_null pre line post (addWorksheet (js "Users")) Hpre Hb Hp)
    as (Hs & Hbk & Hc).
  rewrite Hsplit, Hs in Hr, Htab, Ht. rewrite Hc in Ht. rewrite Hbk in Htab.
  rewrite Hr. cbn [fst snd]. split; [reflexivity|]. split; [exact Htab|].
  rewrite Ht. unfold excel_progress. cbn. now rewrite app_nil_r.
Qed.

Lemma null_first_record_is_type_error_witness :
  let data := [32; 10] ++ js "null" ++ [10] ++ stringify (user_of sample_draw) ++ [10] in
  let r := convertNDJSONToXLSX sample_rt (with_source sample_rt data) in
  fst r = Rejected TypeError
  /\ table_of sample_rt (snd r)
     = Some {| wb_sheet := {| ws_name := js "Users"; ws_columns := None; ws_rows := [] |};
               wb_committed := false |}
  /\ trace (snd r) = trace (with_source sample_rt data).
Proof.
  apply (null_first_record_is_type_error sample_rt
           (with_source sample_rt
              ([32; 10] ++ js "null" ++ [10] ++ stringify (user_of sample_draw) ++ [10]))
           ([32; 10] ++ js "null" ++ [10] ++ stringify (user_of sample_draw) ++ [10])
           [[32]] (js "null") [stringify (user_of sample_draw)]).
  - exact I.
  - vm_compute. reflexivity.
  - intros c H. vm_compute in H. discriminate H.
  - vm_compute. reflexivity.
  - repeat constructor.
  - reflexivity.
  - vm_compute. reflexivity.
Defined.

(** *** Line terminators *)

Lemma split_from_break (line : jsstring) :
  forall cur rest nl, printable line ->
  (nl = [10] \/ nl = [13; 10] \/ (nl = [13] /\ hd 0 rest <> 10)) ->
  split_from cur (line ++ nl ++ rest) = (cur ++ line) :: split_from [] rest.
Proof.
  induction line as [|c line IH]; intros cur rest nl Hp Hnl.
  - rewrite app_nil_r. cbn [app].
    destruct Hnl as [ -> | [ -> | [ -> Hh ] ] ]; cbn [app split_from].
    + reflexivity.
    + reflexivity.
    + change (13 =? 10) with false. change (13 =? 13) with true. cbv iota.
      destruct rest as [|d r]; [reflexivity|].
      cbn [hd] in Hh. now rewrite (proj2 (N.eqb_neq d 10)).
  - inversion Hp as [|? ? (Hc & Hc1 & Hc2) Hl]; subst.
    cbn [app split_from].
    rewrite (proj2 (N.eqb_neq c 10)) by lia.
    rewrite (proj2 (N.eqb_neq c 13)) by lia. cbn [orb].
    rewrite IH by assumption. rewrite <- app_assoc. reflexivity.
Qed.

Lemma split_from_last (line : jsstring) :
  forall cur, printable line -> cur ++ line <> [] ->
  split_from cur line = [cur ++ line].
Proof.
  induction line as [|c line IH]; intros cur Hp Hne.
  - rewrite app_nil_r in *. cbn [split_from]. destruct cur; [contradiction|reflexivity].
  - inversion Hp as [|? ? (Hc & Hc1 & Hc2) Hl]; subst.
    cbn [split_from].
    rewrite (proj2 (N.eqb_neq c 10)) by lia.
    rewrite (proj2 (N.eqb_neq c 13)) by lia. cbn [orb].
    rewrite IH; [now rewrite <- app_assoc|assumption|].
    destruct cur; discriminate.
Qed.

Lemma hd_line_not_lf (l rest : jsstring) :
  printable l -> hd 0 (l ++ 13 :: rest) <> 10.
Proof.
  intros Hp. destruct l as [|c l]; cbn [app hd]; [discriminate|].
  inversion Hp as [|? ? (Hc & _) _]; subst. lia.
Qed.

Lemma split_terminated (nl : jsstring) (ls : list jsstring) :
  nl = [10] \/ nl = [13; 10] \/ nl = [13] ->
  Forall printable ls ->
  split_lines (terminated nl ls) = ls.
Proof.
  intros Hnl H. unfold split_lines, terminated.
  induction ls as [|l ls IH]; [reflexivity|].
  inversion H as [|? ? Hl Hls]; subst.
  cbn [map concat]. rewrite <- app_assoc.
  rewrite split_from_break; [cbn [app]; now rewrite IH|assumption|].
  destruct Hnl as [ -> | [ -> | -> ] ]; auto.
  right. right. split; [reflexivity|].
  destruct ls as [|l' ls']; [cbn; discriminate|].
  inversion Hls as [|? ? Hl' _]; subst.
  cbn [map concat]. rewrite <- app_assoc. now apply hd_line_not_lf.
Qed.

Lemma split_separated (nl : jsstring) (ls : list jsstring) :
  nl = [10] \/ nl = [13; 10] \/ nl = [13] ->
  Forall printable ls ->
  last ls [10] <> [] ->
  split_lines (separated nl ls) = ls.
Proof.
  intros Hnl H. unfold split_lines.
  induction ls as [|l ls IH]; intros Hlast; [reflexivity|].
  inversion H as [|? ? Hl Hls]; subst.
  destruct ls as [|l' ls'].
  - cbn [separated last] in *. now apply split_from_last.
  - change (separated nl (l :: l' :: ls')) with (l ++ nl ++ separated nl (l' :: ls')).
    rewrite split_from_break; [cbn [app]; rewrite IH; auto|assumption|].
    destruct Hnl as [ -> | [ -> | -> ] ]; auto.
    right. right. split; [reflexivity|].
    inversion Hls as [|? ? Hl' _]; subst.
    destruct ls' as [|l'' ls''].
    + cbn [separated]. cbn [last] in Hlast.
      destruct l' as [|c r]; [contradiction|].
      inversion Hl' as [|? ? (Hc & _) _]; subst. cbn [hd]. lia.
    + change (separated [13] (l' :: l'' :: ls''))
        with (l' ++ 13 :: separated [13] (l'' :: ls'')).
      now apply hd_line_not_lf.
Qed.

(** X5. The converter reads the same lines, and so ends the same way with
    the same table, whether the lines of the source end in LF, in CR LF or in
    CR, and whether or not the last line is terminated. *)
Theorem line_endings_do_not_matter
  (rt : runtime) (w1 w2 : world) (ls : list jsstring) (nl data2 : jsstring) :
  Forall printable ls ->
  nl = [10] \/ nl = [13; 10] \/ nl = [13] ->
  data2 = terminated nl ls \/ (data2 = separated nl ls /\ last ls [10] <> []) ->
  quiet w1 ->
  fs w1 (ndjsonPath rt) = File (CText (terminated [10] ls)) ->
  (forall c, fs w1 (xlsxPath rt) <> Locked c) ->
  quiet w2 ->
  fs w2 (ndjsonPath rt) = File (CText data2) ->
  (forall c, fs w2 (xlsxPath rt) <> Locked c) ->
  split_lines data2 = ls
  /\ fst (convertNDJSONToXLSX rt w2) = fst (convertNDJSONToXLSX rt w1)
  /\ table_of rt (snd (convertNDJSONToXLSX rt w2))
     = table_of rt (snd (convertNDJSONToXLSX rt w1)).
Proof.
  intros Hp Hnl Hd Hq1 Hs1 Hu1 Hq2 Hs2 Hu2.
  assert (E2 : split_lines data2 = ls).
  { destruct Hd as [Hd|[Hd Hl]]; subst data2; [now apply split_terminated|now apply split_separated]. }
  assert (E1 : split_lines (terminated [10] ls) = ls)
    by (apply split_terminated; auto).
  destruct (convert_full rt w1 _ Hq1 Hs1 Hu1) as (w1' & Hr1 & _ & Ht1 & _).
  destruct (convert_full rt w2 _ Hq2 Hs2 Hu2) as (w2' & Hr2 & _ & Ht2 & _).
  rewrite Hr1, Hr2. cbn [fst snd]. rewrite Ht1, Ht2, E1, E2. auto.
Qed.

Lemma line_endings_do_not_matter_witness :
  let ls := [js "{}"; js "[1]"; js "{oops"] in
  let data2 := separated [13; 10] ls in
  let w1 := with_source sample_rt (terminated [10] ls) in
  let w2 := with_source sample_rt data2 in
  split_lines data2 = ls
  /\ fst (convertNDJSONToXLSX sample_rt w2) = fst (convertNDJSONToXLSX sample_rt w1)
  /\ table_of sample_rt (snd (convertNDJSONToXLSX sample_rt w2))
     = table_of sample_rt (snd (convertNDJSONToXLSX sample_rt w1)).
Proof.
  apply (line_endings_do_not_matter sample_rt
           (with_source sample_rt (terminated [10] [js "{}"; js "[1]"; js "{oops"]))
           (with_source sample_rt (separated [13; 10] [js "{}"; js "[1]"; js "{oops"]))
           [js "{}"; js "[1]"; js "{oops"] [13; 10]
           (separated [13; 10] [js "{}"; js "[1]"; js "{oops"])).
  - repeat constructor; discriminate.
  - right. left. reflexivity.
  - right. split; [reflexivity|discriminate].
  - exact I.
  - vm_compute. reflexivity.
  - intros c H. vm_compute in H. discriminate H.
  - exact I.
  - vm_compute. reflexivity.
  - intros c H. vm_compute in H. discriminate H.
Defined.

(** *** White space that is not JSON white space *)

Lemma parse_foreign_space (c : N) (rest : jsstring) :
  is_js_space c = true -> 32 < c -> parse (c :: rest) = None.
Proof.
  intros Hs Hc. unfold is_js_space in Hs.
  rewrite !orb_true_iff, !andb_true_iff, !N.leb_le, !N.eqb_eq in Hs.
  assert (Hne : forall k, k < 160 -> (c =? k) = false)
    by (intros k Hk; apply N.eqb_neq; lia).
  assert (Hd : is_digit c = false).
  { unfold is_digit. apply andb_false_iff. right. apply N.leb_gt. lia. }
  unfold parse, parse_with.
  cbn [parse_value skip_ws]. unfold is_json_ws.
  rewrite !Hne by lia. cbn [orb].
  rewrite !Hne by lia.
  unfold parse_number. rewrite Hne by lia. unfold parse_int.
  rewrite Hne by lia. rewrite Hd. reflexivity.
Qed.

Lemma nonblank_foreign_space (c : N) (line : jsstring) :
  is_js_space c = true -> nonblank (c :: line) = nonblank line.
Proof.
  intros Hs. unfold nonblank, trim. cbn [trim_start]. now rewrite Hs.
Qed.

(** X6. A source that starts with a code unit [trim] takes for white space
    but JSON does not, a byte order mark (U+FEFF) or a no-break space for
    one, is rejected at its first record: the line is not skipped as blank,
    [JSON.parse] throws on it, and the workbook is left empty and
    uncommitted. *)
Theorem foreign_space_is_rejected
  (rt : runtime) (w : world) (c : N) (line more : jsstring) :
  is_js_space c = true ->
  32 < c -> c <> 8232 -> c <> 8233 ->
  printable line ->
  nonblank line = true ->
  quiet w ->
  fs w (ndjsonPath rt) = File (CText (c :: line ++ 10 :: more)) ->
  (forall k, fs w (xlsxPath rt) <> Locked k) ->
  let r := convertNDJSONToXLSX rt w in
  fst r = Rejected (SyntaxError (c :: line))
  /\ table_of rt (snd r)
     = Some {| wb_sheet := {| ws_name := js "Users"; ws_columns := None; ws_rows := [] |};
               wb_committed := false |}.
Proof.
  intros Hs Hc H1 H2 Hp Hb Hq Hsrc Hu. cbn zeta.
  destruct (convert_full rt w _ Hq Hsrc Hu) as (w' & Hr & _ & Htab & _).
  assert (E : split_lines (c :: line ++ 10 :: more) = (c :: line) :: split_lines more).
  { unfold split_lines.
    change (c :: line ++ 10 :: more) with ((c :: line) ++ 10 :: more).
    rewrite split_from_line; [reflexivity|].
    constructor; [|exact Hp]. unfold inline. lia. }
  rewrite E in Hr, Htab.
  cbn [sheet_after book_after] in Hr, Htab.
  rewrite (nonblank_foreign_space c line Hs), Hb in Hr, Htab.
  rewrite (parse_foreign_space c line Hs Hc) in Hr, Htab.
  cbn [negb] in Hr, Htab.
  rewrite Hr. cbn [fst snd]. split; [reflexivity|exact Htab].
Qed.

Lemma foreign_space_is_rejected_witness :
  let data := 65279 :: js "{}" ++ 10 :: js "{}" in
  let r := convertNDJSONToXLSX sample_rt (with_source sample_rt data) in
  fst r = Rejected (SyntaxError (65279 :: js "{}"))
  /\ table_of sample_rt (snd r)
     = Some {| wb_sheet := {| ws_name := js "Users"; ws_columns := None; ws_rows := [] |};
               wb_committed := false |}.
Proof.
  apply (foreign_space_is_rejected sample_rt
           (with_source sample_rt (65279 :: js "{}" ++ 10 :: js "{}"))
           65279 (js "{}") (js "{}")).
  - reflexivity.
  - reflexivity.
  - discriminate.
  - discriminate.
  - repeat constructor; discriminate.
  - reflexivity.
  - exact I.
  - vm_compute. reflexivity.
  - intros k H. vm_compute in H. discriminate H.
Defined.


(* ================================================================== *)
(** ** Further properties: from the generator to the sheet *)
(* ================================================================== *)

(** X7. From the generator to the sheet: once the stream has drained, the
    converter resolves on the generated file and the committed sheet holds
    the header row of the seven field names followed by one row per
    generated user, in the order of generation, each with the five strings
    faker drew and the two dates in ISO form; the source file is left as it
    was. Faker is taken to return non-empty strings of one line. *)
Theorem sheet_rows_are_the_draws (rt : runtime) (n b : N) (w : world) :
  (forall j, valid_draw (faker rt j) = true) ->
  (forall c, fs w (ndjsonPath rt) <> Locked c) ->
  (forall c, fs w (xlsxPath rt) <> Locked c) ->
  0 < n ->
  let w1 := settle (snd (writeUsers rt n b w)) in
  exists w2 ws,
    convertNDJSONToXLSX rt w1 = (Resolved, w2)
    /\ table_of rt w2 = Some {| wb_sheet := ws; wb_committed := true |}
    /\ ws_rows ws
       = map (fun k => Some (JStr k)) user_fields
         :: map (fun j => row_of_draw (faker rt j)) (seq (draws w) (N.to_nat n))
    /\ fs w2 (ndjsonPath rt) = fs w1 (ndjsonPath rt).
Proof.
  intros Hv Hu Hx Hn. cbn zeta.
  destruct (settled_source rt n b w Hu) as (Hq & Hsrc & Hfr & _).
  cbn zeta in Hq, Hsrc, Hfr.
  set (w1 := settle (snd (writeUsers rt n b w))) in *.
  assert (Hx1 : forall c, fs w1 (xlsxPath rt) <> Locked c).
  { intros c. rewrite Hfr by apply xlsx_ndjson. apply Hx. }
  destruct (convert_full rt w1 _ Hq Hsrc Hx1) as (w2 & Hr & Hfr2 & Htab & _).
  assert (E : split_lines (text_of_draws rt (draws w) (N.to_nat n))
              = written rt (draws w) (N.to_nat n)).
  { unfold text_of_draws. apply split_lines_terminated. now apply written_printable. }
  rewrite E in Hr, Htab.
  destruct (N.to_nat n) as [|k] eqn:Ek; [lia|].
  rewrite sheet_of_draws in Hr, Htab.
  exists w2. eexists. split; [exact Hr|]. split; [exact Htab|]. split.
  - reflexivity.
  - apply Hfr2, ndjson_xlsx.
Qed.

Lemma sheet_rows_are_the_draws_witness :
  let w1 := settle (snd (writeUsers sample_rt 3 2 boot)) in
  exists w2 ws,
    convertNDJSONToXLSX sample_rt w1 = (Resolved, w2)
    /\ table_of sample_rt w2 = Some {| wb_sheet := ws; wb_committed := true |}
    /\ ws_rows ws
       = map (fun k => Some (JStr k)) user_fields
         :: map (fun j => row_of_draw (faker sample_rt j)) (seq (draws boot) (N.to_nat 3))
    /\ fs w2 (ndjsonPath sample_rt) = fs w1 (ndjsonPath sample_rt).
Proof.
  apply (sheet_rows_are_the_draws sample_rt 3 2 boot).
  - intros j. reflexivity.
  - intros c. discriminate.
  - intros c. discriminate.
  - reflexivity.
Defined.


(* ================================================================== *)
(** ** Further properties: the job on a disk that keeps up *)
(* ================================================================== *)

Lemma buffered_write (chunk : jsstring) (w : world) :
  (length (buffered (stream_write chunk w)) <= S (length (buffered w)))%nat.
Proof.
  unfold buffered, stream_write. destruct (out w) as [s|] eqn:E.
  - cbn. rewrite length_app. cbn. lia.
  - rewrite E. cbn. lia.
Qed.

Lemma buffered_turn (rt : runtime) (w : world) :
  buffered (io_turn rt w) = skipn (io_ops rt (turns w)) (buffered w).
Proof.
  unfold buffered, io_turn, flush. cbn [out].
  destruct (out w) as [s|] eqn:E.
  - reflexivity.
  - rewrite E. now rewrite skipn_nil.
Qed.

Lemma mod_step (n : N) :
  (n + 1) mod 100000 <> 0 -> (n + 1) mod 100000 = n mod 100000 + 1.
Proof.
  intros H.
  pose proof (N.div_mod n 100000 ltac:(lia)) as Hq.
  pose proof (N.mod_lt n 100000 ltac:(lia)) as Hr.
  destruct (N.eq_dec (n mod 100000 + 1) 100000) as [E|E].
  - exfalso. apply H. symmetry. apply N.mod_unique with (n / 100000 + 1); lia.
  - symmetry. apply N.mod_unique with (n / 100000); lia.
Qed.

(** When every turn of the event loop completes at least 100000 operations,
    the buffer never holds more than the records written since the last
    checkpoint. *)
Lemma fast_loop_buffer (rt : runtime) (b : N) (w1 : world) :
  (forall t, 100000 <= N.of_nat (io_ops rt t)) ->
  buffered w1 = [] ->
  forall n, N.of_nat (length (buffered (for_loop n (write_user rt b) w1))) <= n mod 100000.
Proof.
  intros Hfast H0 n. induction n as [|n IH] using N.peano_ind.
  - rewrite for_loop_zero, H0. cbn. lia.
  - rewrite for_loop_succ, <- N.add_1_r.
    set (w := for_loop n (write_user rt b) w1) in *.
    unfold write_user.
    destruct (generateUser rt w) as [user wg] eqn:Eg.
    assert (Hg : buffered wg = buffered w)
      by (unfold generateUser in Eg; inversion Eg; reflexivity).
    pose proof (buffered_write (stringify user ++ [10]) wg) as Hw.
    rewrite Hg in Hw.
    pose proof (N.mod_lt n 100000 ltac:(lia)) as Hr.
    destruct (N.eqb_spec ((n + 1) mod 100000) 0) as [Hhit|Hmiss].
    + unfold sleep. rewrite buffered_turn.
      change (buffered (emit (Sleep 500)
                (logSystemStats (LAfterBatch (n + 1) b)
                   (log (MWroteBatch (n + 1) b)
                      (stream_write (stringify user ++ [10]) wg)))))
        with (buffered (stream_write (stringify user ++ [10]) wg)).
      rewrite skipn_all2; [cbn; lia|].
      match goal with |- (_ <= io_ops rt ?t)%nat => specialize (Hfast t) end.
      lia.
    + rewrite mod_step by assumption. lia.
Qed.

(** The writer on a fast disk, for a number of records that ends on a
    checkpoint: when it returns the whole text is in the file. *)
Lemma writeUsers_fast (rt : runtime) (n b : N) (w : world) :
  (forall t, 100000 <= N.of_nat (io_ops rt t)) ->
  (forall c, fs w (ndjsonPath rt) <> Locked c) ->
  n mod 100000 = 0 ->
  exists w',
    writeUsers rt n b w = (Resolved, w')
    /\ quiet w'
    /\ fs w' (ndjsonPath rt) = File (CText (text_of_draws rt (draws w) (N.to_nat n)))
    /\ (forall q, str_eqb q (ndjsonPath rt) = false -> fs w' q = fs w q)
    /\ trace w' = trace w ++ progress b n ++ [Log MFinishedNDJSON; Stats LCompletedNDJSON].
Proof.
  intros Hfast Hu Hn.
  destruct (writeUsers_spec rt n b w Hu)
    as (disk & pend & w' & Hr & Hf & Ho & Hd & Ht & Hfr).
  exists w'. split; [exact Hr|].
  assert (Hp : buffered w' = []).
  { destruct (createWriteStream_unlocked (ndjsonPath rt) w Hu) as [w1 E1].
    assert (H1 : buffered w1 = []).
    { unfold createWriteStream in E1.
      destruct (fs w (ndjsonPath rt)); inversion E1; reflexivity. }
    pose proof (fast_loop_buffer rt b w1 Hfast H1 n) as Hb. rewrite Hn in Hb.
    unfold writeUsers in Hr. rewrite E1 in Hr. inversion Hr as [Hw'].
    unfold buffered, stream_end in *. cbn [out logSystemStats log emit].
    destruct (out (for_loop n (write_user rt b) w1)) as [s|] eqn:Eo.
    - cbn [out with_out st_pending]. destruct (st_pending s); [reflexivity|cbn in Hb; lia].
    - rewrite Eo. reflexivity. }
  unfold buffered in Hp. rewrite Ho in Hp. cbn [st_pending] in Hp. subst pend.
  cbn [concat] in Hd. rewrite app_nil_r in Hd. subst disk.
  refine (conj _ (conj _ (conj _ _))); try assumption.
  unfold quiet. rewrite Ho. reflexivity.
Qed.

Lemma archive_of_file (rt : runtime) (w : world) (z : archive) :
  archive_of rt w = Some z -> fs w (zipPath rt) = File (CZip z).
Proof.
  unfold archive_of. destruct (fs w (zipPath rt)) as [|c|c]; try discriminate.
  destruct c; try discriminate. intros H. inversion H. reflexivity.
Qed.

(** With both files present, each becomes an entry, in the order the two
    [lstat] calls complete. *)
Lemma append_both (rt : runtime) (w : world) (c1 c2 : content) :
  fs w (ndjsonPath rt) = File c1 ->
  fs w (xlsxPath rt) = File c2 ->
  append_entries rt (fs w) (queue rt w) []
  = inr (if stat_swap rt (turns w)
         then [ (js "users_stream.xlsx", bytes_of rt c2);
                (js "users_stream.ndjson", bytes_of rt c1) ]
         else [ (js "users_stream.ndjson", bytes_of rt c1);
                (js "users_stream.xlsx", bytes_of rt c2) ]).
Proof.
  intros H1 H2. unfold queue, completion_order.
  destruct (stat_swap rt (turns w)); cbn [append_entries];
    rewrite ?H1, ?H2; cbn [append_entries]; rewrite ?H1, ?H2; reflexivity.
Qed.

(** The three stages in a row on a fast disk, for any number of records that
    ends on a checkpoint. *)
Lemma pipeline_fast (rt : runtime) (n b : N) (w : world) :
  (forall t, 100000 <= N.of_nat (io_ops rt t)) ->
  (forall j, valid_draw (faker rt j) = true) ->
  (forall c, fs w (ndjsonPath rt) <> Locked c) ->
  (forall c, fs w (xlsxPath rt) <> Locked c) ->
  (forall c, fs w (zipPath rt) <> Locked c) ->
  n mod 100000 = 0 -> 0 < n ->
  let text := text_of_draws rt (draws w) (N.to_nat n) in
  let book :=
    {| wb_sheet :=
         {| ws_name := js "Users";
            ws_columns := Some (map column_of_key user_fields);
            ws_rows := map (fun f => Some (JStr f)) user_fields
                       :: map (fun j => row_of_draw (faker rt j))
                            (seq (draws w) (N.to_nat n)) |};
       wb_committed := true |} in
  let e1 := (js "users_stream.ndjson", bytes_of rt (CText text)) in
  let e2 := (js "users_stream.xlsx", bytes_of rt (CBook book)) in
  exists w1 w2 w' z,
    writeUsers rt n b w = (Resolved, w1)
    /\ convertNDJSONToXLSX rt w1 = (Resolved, w2)
    /\ zipFiles rt w2 = (Resolved, w')
    /\ fs w' (ndjsonPath rt) = File (CText text)
    /\ fs w' (xlsxPath rt) = File (CBook book)
    /\ fs w' (zipPath rt) = File (CZip z)
    /\ zip_closed z = true
    /\ zip_torn z = None
    /\ (zip_entries z = [e1; e2] \/ zip_entries z = [e2; e1])
    /\ (forall p, str_eqb p (ndjsonPath rt) = false -> str_eqb p (xlsxPath rt) = false ->
                  str_eqb p (zipPath rt) = false -> fs w' p = fs w p)
    /\ trace w'
       = trace w ++ progress b n ++ [Log MFinishedNDJSON; Stats LCompletedNDJSON]
         ++ excel_progress n ++ [Log MFinishedExcel; Stats LCompletedExcel]
         ++ [Log (MZipCreated (zipPath rt) (pointer rt z)); Stats LCompletedZip].
Proof.
  intros Hfast Hv Hu Hx Hz Hn Hpos. cbn zeta.
  destruct (writeUsers_fast rt n b w Hfast Hu Hn) as (w1 & Hr1 & Hq1 & Hf1 & Hfr1 & Ht1).
  assert (Hx1 : forall c, fs w1 (xlsxPath rt) <> Locked c).
  { intros c. rewrite Hfr1 by apply xlsx_ndjson. apply Hx. }
  destruct (convert_full rt w1 _ Hq1 Hf1 Hx1) as (w2 & Hr2 & Hfr2 & Htab2 & Hq2 & _ & Ht2).
  assert (E : split_lines (text_of_draws rt (draws w) (N.to_nat n))
              = written rt (draws w) (N.to_nat n)).
  { unfold text_of_draws. apply split_lines_terminated. now apply written_printable. }
  rewrite E in Hr2, Htab2, Ht2. rewrite committed_rows_written, N2Nat.id in Ht2.
  destruct (N.to_nat n) as [|k] eqn:Ek; [lia|].
  rewrite sheet_of_draws in Hr2, Htab2, Ht2.
  assert (Hz2 : forall c, fs w2 (zipPath rt) <> Locked c).
  { intros c. rewrite Hfr2 by apply zip_xlsx. rewrite Hfr1 by apply zip_ndjson. apply Hz. }
  assert (Hf2 : fs w2 (ndjsonPath rt)
                = File (CText (text_of_draws rt (draws w) (S k)))).
  { rewrite Hfr2 by apply ndjson_xlsx. exact Hf1. }
  pose proof (table_of_file rt w2 _ Htab2) as Hb2.
  destruct (zipFiles_spec rt w2 Hq2 Hz2) as (w3 & Hr3 & Hz3 & Hfr3 & _ & Ht3).
  rewrite (append_both rt w2 _ _ Hf2 Hb2) in Hr3, Hz3, Ht3.
  apply archive_of_file in Hz3.
  exists w1, w2, w3. eexists.
  split; [exact Hr1|]. split; [exact Hr2|]. split; [exact Hr3|].
  refine (conj _ (conj _ (conj Hz3 (conj eq_refl (conj eq_refl (conj _ (conj _ _))))))).
  - rewrite Hfr3 by apply ndjson_zip. exact Hf2.
  - rewrite Hfr3 by apply xlsx_zip. exact Hb2.
  - cbn [zip_entries]. destruct (stat_swap rt (turns w2)); [right|left]; reflexivity.
  - intros p H1 H2 H3. rewrite Hfr3, Hfr2, Hfr1 by assumption. reflexivity.
  - rewrite Ht3, Ht2, Ht1. rewrite <- !app_assoc. reflexivity.
Qed.

(** X8. On a disk that completes at least 100000 operations in every turn of
    the event loop, the job resolves: the last checkpoint of the writer falls
    on the last record, so the whole text is on disk when the converter
    opens it. The line-stream file then holds the million records, the
    committed sheet the header row and one row per record, the closed archive
    the two files under their base names, in the order their [lstat] calls
    completed; no other file is touched, and the log reads: job start, ten
    checkpoints, end of writing, ten progress reports, end of conversion,
    the archive line, job end. Faker is taken to return non-empty strings of
    one line, and the three files to be writable. *)
Theorem job_completes_on_a_fast_disk (rt : runtime) (w : world) :
  (forall t, 100000 <= N.of_nat (io_ops rt t)) ->
  (forall j, valid_draw (faker rt j) = true) ->
  (forall c, fs w (ndjsonPath rt) <> Locked c) ->
  (forall c, fs w (xlsxPath rt) <> Locked c) ->
  (forall c, fs w (zipPath rt) <> Locked c) ->
  let text := text_of_draws rt (draws w) (N.to_nat 1000000) in
  let book :=
    {| wb_sheet :=
         {| ws_name := js "Users";
            ws_columns := Some (map column_of_key user_fields);
            ws_rows := map (fun f => Some (JStr f)) user_fields
                       :: map (fun j => row_of_draw (faker rt j))
                            (seq (draws w) (N.to_nat 1000000)) |};
       wb_committed := true |} in
  let e1 := (js "users_stream.ndjson", bytes_of rt (CText text)) in
  let e2 := (js "users_stream.xlsx", bytes_of rt (CBook book)) in
  exists w' z,
    job rt w = (Resolved, w')
    /\ fs w' (ndjsonPath rt) = File (CText text)
    /\ fs w' (xlsxPath rt) = File (CBook book)
    /\ fs w' (zipPath rt) = File (CZip z)
    /\ zip_closed z = true
    /\ zip_torn z = None
    /\ (zip_entries z = [e1; e2] \/ zip_entries z = [e2; e1])
    /\ (forall p, p <> ndjsonPath rt -> p <> xlsxPath rt -> p <> zipPath rt ->
                  fs w' p = fs w p)
    /\ trace w'
       = trace w ++ [Log MJobStarted; Stats LJobStart]
         ++ progress 100000 1000000 ++ [Log MFinishedNDJSON; Stats LCompletedNDJSON]
         ++ excel_progress 1000000 ++ [Log MFinishedExcel; Stats LCompletedExcel]
         ++ [Log (MZipCreated (zipPath rt) (pointer rt z)); Stats LCompletedZip]
         ++ [Log MJobCompleted; Stats LJobEnd].
Proof.
  intros Hfast Hv Hu Hx Hz. cbn zeta.
  destruct (pipeline_fast rt 1000000 100000
              (logSystemStats LJobStart (log MJobStarted w))
              Hfast Hv Hu Hx Hz eq_refl eq_refl)
    as (w1 & w2 & w3 & z & Hr1 & Hr2 & Hr3 & Hf & Hb & Ha & Hc & Ht0 & He & Hfr & Ht).
  eexists. exists z. split.
  - unfold job, and_then, job_start, writeUsersToNDJSON, job_end.
    rewrite Hr1, Hr2, Hr3. reflexivity.
  - refine (conj Hf (conj Hb (conj Ha (conj Hc (conj Ht0 (conj He (conj _ _))))))).
    + intros p H1 H2 H3. apply Hfr; now apply StrFacts.str_eqb_neq.
    + change (trace (logSystemStats LJobEnd (log MJobCompleted w3)))
        with ((trace w3 ++ [Log MJobCompleted]) ++ [Stats LJobEnd]).
      rewrite Ht.
      change (trace (logSystemStats LJobStart (log MJobStarted w)))
        with ((trace w ++ [Log MJobStarted]) ++ [Stats LJobStart]).
      rewrite <- !app_assoc. reflexivity.
Qed.

Lemma job_completes_on_a_fast_disk_witness :
  let rt := prompt_rt in
  let w := boot in
  let text := text_of_draws rt (draws w) (N.to_nat 1000000) in
  let book :=
    {| wb_sheet :=
         {| ws_name := js "Users";
            ws_columns := Some (map column_of_key user_fields);
            ws_rows := map (fun f => Some (JStr f)) user_fields
                       :: map (fun j => row_of_draw (faker rt j))
                            (seq (draws w) (N.to_nat 1000000)) |};
       wb_committed := true |} in
  let e1 := (js "users_stream.ndjson", bytes_of rt (CText text)) in
  let e2 := (js "users_stream.xlsx", bytes_of rt (CBook book)) in
  exists w' z,
    job rt w = (Resolved, w')
    /\ fs w' (ndjsonPath rt) = File (CText text)
    /\ fs w' (xlsxPath rt) = File (CBook book)
    /\ fs w' (zipPath rt) = File (CZip z)
    /\ zip_closed z = true
    /\ zip_torn z = None
    /\ (zip_entries z = [e1; e2] \/ zip_entries z = [e2; e1])
    /\ (forall p, p <> ndjsonPath rt -> p <> xlsxPath rt -> p <> zipPath rt ->
                  fs w' p = fs w p)
    /\ trace w'
       = trace w ++ [Log MJobStarted; Stats LJobStart]
         ++ progress 100000 1000000 ++ [Log MFinishedNDJSON; Stats LCompletedNDJSON]
         ++ excel_progress 1000000 ++ [Log MFinishedExcel; Stats LCompletedExcel]
         ++ [Log (MZipCreated (zipPath rt) (pointer rt z)); Stats LCompletedZip]
         ++ [Log MJobCompleted; Stats LJobEnd].
Proof.
  apply (job_completes_on_a_fast_disk prompt_rt boot).
  - intros t. change (io_ops prompt_rt t) with (N.to_nat 100000).
    rewrite N2Nat.id. lia.
  - intros j. reflexivity.
  - intros c. discriminate.
  - intros c. discriminate.
  - intros c. discriminate.
Defined.

(* ================================================================== *)
(** ** Further properties: what the job logs *)
(* ================================================================== *)

Lemma Forall_flat_map_each (A B : Type) (P : B -> Prop) (f : A -> list B) (l : list A) :
  (forall x, Forall P (f x)) -> Forall P (flat_map f l).
Proof.
  intros H. induction l as [|a l IH]; [constructor|].
  cbn [flat_map]. apply Forall_app. split; [apply H|exact IH].
Qed.

Lemma progress_open (b n : N) : Forall (fun e => closing e = false) (progress b n).
Proof. apply Forall_flat_map_each. intros x. repeat constructor. Qed.

Lemma excel_progress_open (n : N) : Forall (fun e => closing e = false) (excel_progress n).
Proof. apply Forall_flat_map_each. intros x. repeat constructor. Qed.

(** Each stage, in whatever world it starts and however it ends, only adds
    to the log, and never one of the two closing events. *)
Lemma writeUsers_events (rt : runtime) (n b : N) (w : world) :
  exists evs, trace (snd (writeUsers rt n b w)) = trace w ++ evs
              /\ Forall (fun e => closing e = false) evs.
Proof.
  destruct (createWriteStream (ndjsonPath rt) w) as [w1|] eqn:E1.
  - assert (Hu : forall c, fs w (ndjsonPath rt) <> Locked c).
    { intros c Hc. unfold createWriteStream in E1. rewrite Hc in E1. discriminate. }
    destruct (writeUsers_spec rt n b w Hu) as (disk & pend & w' & Hr & _ & _ & _ & Ht & _).
    rewrite Hr. cbn [snd]. eexists. split; [exact Ht|].
    apply Forall_app. split; [apply progress_open|repeat constructor].
  - exists []. unfold writeUsers. rewrite E1. cbn [snd]. rewrite app_nil_r. auto.
Qed.

Lemma create_book_trace (p name : jsstring) (w : world) :
  trace (create_book p name w) = trace w.
Proof. unfold create_book. destruct (fs w p); reflexivity. Qed.

Lemma convert_events (rt : runtime) (w : world) :
  exists evs, trace (snd (convertNDJSONToXLSX rt w)) = trace w ++ evs
              /\ Forall (fun e => closing e = false) evs.
Proof.
  unfold convertNDJSONToXLSX.
  set (w1 := create_book (xlsxPath rt) (js "Users") w).
  assert (Ht1 : trace w1 = trace w) by apply create_book_trace.
  destruct (io_turn_frame rt w1) as (Ht2 & _). rewrite Ht1 in Ht2.
  destruct (read_lines rt (ndjsonPath rt) (io_turn rt w1)) as [e|lines];
    [exists []; cbn [snd]; rewrite Ht2, app_nil_r; auto|].
  assert (Ht0 : trace (io_turn rt w1) = trace w ++ excel_progress 0)
    by (rewrite Ht2; unfold excel_progress; cbn; now rewrite app_nil_r).
  pose proof (convert_lines_log rt lines true 0 (addWorksheet (js "Users"))
                (io_turn rt w1) (trace w) Ht0) as Hl.
  cbn zeta in Hl. destruct Hl as (Hl & _).
  destruct (convert_lines rt lines true 0 (addWorksheet (js "Users")) (io_turn rt w1))
    as [[e|ws] w3]; cbn [snd] in *.
  - eexists. split; [exact Hl|apply excel_progress_open].
  - destruct (io_turn_frame rt w3) as (Ht3 & _).
    destruct (fs w3 (xlsxPath rt)) as [|c|c]; cbn [snd].
    + exists (excel_progress (0 + committed_rows lines true)
              ++ [Log MFinishedExcel; Stats LCompletedExcel]).
      split.
      * change (trace (logSystemStats LCompletedExcel
                         (log MFinishedExcel (commit_book (xlsxPath rt) ws (io_turn rt w3)))))
          with ((trace (io_turn rt w3) ++ [Log MFinishedExcel]) ++ [Stats LCompletedExcel]).
        rewrite Ht3, Hl, <- !app_assoc. reflexivity.
      * apply Forall_app. split; [apply excel_progress_open|repeat constructor].
    + exists (excel_progress (0 + committed_rows lines true)
              ++ [Log MFinishedExcel; Stats LCompletedExcel]).
      split.
      * change (trace (logSystemStats LCompletedExcel
                         (log MFinishedExcel (commit_book (xlsxPath rt) ws (io_turn rt w3)))))
          with ((trace (io_turn rt w3) ++ [Log MFinishedExcel]) ++ [Stats LCompletedExcel]).
        rewrite Ht3, Hl, <- !app_assoc. reflexivity.
      * apply Forall_app. split; [apply excel_progress_open|repeat constructor].
    + eexists. split; [rewrite Ht3; exact Hl|apply excel_progress_open].
Qed.

Lemma zip_events (rt : runtime) (w : world) :
  exists evs, trace (snd (zipFiles rt w)) = trace w ++ evs
              /\ Forall (fun e => closing e = false) evs.
Proof.
  unfold zipFiles.
  set (w1 := write_zip (zipPath rt) _ w).
  destruct (io_turn_frame rt w1) as (Ht2 & _).
  change (trace w1) with (trace w) in Ht2.
  set (q := completion_order _ _ _).
  assert (H : exists evs,
             trace (snd (match append_entries rt (fs (io_turn rt w1)) q [] with
                         | inl (e, done, torn) =>
                             (Rejected e,
                              write_zip (zipPath rt)
                                {| zip_entries := done; zip_torn := Some torn;
                                   zip_closed := false |}
                                (io_turn rt w1))
                         | inr es =>
                             (Resolved,
                              logSystemStats LCompletedZip
                                (log (MZipCreated (zipPath rt)
                                        (pointer rt {| zip_entries := es;
                                                       zip_torn := None;
                                                       zip_closed := true |}))
                                   (write_zip (zipPath rt)
                                      {| zip_entries := es; zip_torn := None;
                                         zip_closed := true |}
                                      (io_turn rt w1))))
                         end)) = trace w ++ evs
             /\ Forall (fun e => closing e = false) evs).
  { destruct (append_entries rt (fs (io_turn rt w1)) q []) as [[[e done] torn]|es].
    - exists []. cbn [snd write_zip with_fs trace]. rewrite Ht2, app_nil_r. auto.
    - eexists. split.
      + cbn [snd write_zip with_fs trace logSystemStats log emit].
        rewrite Ht2, <- app_assoc. reflexivity.
      + repeat constructor. }
  destruct (fs w (zipPath rt)); try exact H.
  exists []. cbn [snd]. rewrite app_nil_r. auto.
Qed.

(** X9. Whatever the files and the disk, the log of the job starts with the
    two lines of the job start, and ends with [Job Completed] and the
    [Job End] figures exactly when the job resolves: a stage that rejects or
    brings the process down is the last one to run, and nothing is logged
    after what it logged itself. *)
Theorem job_end_logged_iff_resolved (rt : runtime) (w : world) :
  exists evs,
    trace (snd (job rt w))
    = trace w ++ [Log MJobStarted; Stats LJobStart] ++ evs
      ++ match fst (job rt w) with
         | Resolved => [Log MJobCompleted; Stats LJobEnd]
         | _ => []
         end
    /\ Forall (fun e => closing e = false) evs.
Proof.
  unfold job, and_then, job_start, job_end, writeUsersToNDJSON.
  set (w0 := logSystemStats LJobStart (log MJobStarted w)).
  assert (H0 : trace w0 = trace w ++ [Log MJobStarted; Stats LJobStart]).
  { unfold w0. cbn. now rewrite <- app_assoc. }
  destruct (writeUsers_events rt 1000000 100000 w0) as (e1 & H1 & F1).
  destruct (writeUsers rt 1000000 100000 w0) as [r1 w1]. cbn [snd] in H1.
  rewrite H0 in H1.
  assert (Stop : forall (r : outcome) (w' : world) (evs : list event),
            r <> Resolved ->
            trace w' = (trace w ++ [Log MJobStarted; Stats LJobStart]) ++ evs ->
            Forall (fun e => closing e = false) evs ->
            exists evs0,
              trace w' = trace w ++ [Log MJobStarted; Stats LJobStart] ++ evs0
                         ++ match r with
                            | Resolved => [Log MJobCompleted; Stats LJobEnd]
                            | _ => []
                            end
              /\ Forall (fun e => closing e = false) evs0).
  { intros r w' evs Hr Ht Hf. exists evs. split; [|exact Hf].
    rewrite Ht, <- app_assoc. destruct r; [contradiction| | |]; now rewrite app_nil_r. }
  destruct r1 as [|e|e|]; cbn [fst snd];
    [ | apply (Stop (Rejected e) w1 e1); [discriminate|assumption|assumption]
      | apply (Stop (Uncaught e) w1 e1); [discriminate|assumption|assumption]
      | apply (Stop Hangs w1 e1); [discriminate|assumption|assumption] ].
  destruct (convert_events rt w1) as (e2 & H2 & F2).
  destruct (convertNDJSONToXLSX rt w1) as [r2 w2]. cbn [snd] in H2.
  rewrite H1 in H2. rewrite <- app_assoc in H2.
  rewrite (app_assoc _ e1 e2) in H2.
  assert (F12 : Forall (fun e => closing e = false) (e1 ++ e2))
    by (apply Forall_app; now split).
  destruct r2 as [|e|e|]; cbn [fst snd];
    [ | apply (Stop (Rejected e) w2 (e1 ++ e2)); [discriminate| |assumption];
        rewrite H2, <- !app_assoc; reflexivity
      | apply (Stop (Uncaught e) w2 (e1 ++ e2)); [discriminate| |assumption];
        rewrite H2, <- !app_assoc; reflexivity
      | apply (Stop Hangs w2 (e1 ++ e2)); [discriminate| |assumption];
        rewrite H2, <- !app_assoc; reflexivity ].
  destruct (zip_events rt w2) as (e3 & H3 & F3).
  destruct (zipFiles rt w2) as [r3 w3]. cbn [snd] in H3.
  rewrite H2 in H3.
  assert (F123 : Forall (fun e => closing e = false) ((e1 ++ e2) ++ e3))
    by (apply Forall_app; now split).
  destruct r3 as [|e|e|]; cbn [fst snd];
    [ | apply (Stop (Rejected e) w3 ((e1 ++ e2) ++ e3)); [discriminate| |assumption];
        rewrite H3, <- !app_assoc; reflexivity
      | apply (Stop (Uncaught e) w3 ((e1 ++ e2) ++ e3)); [discriminate| |assumption];
        rewrite H3, <- !app_assoc; reflexivity
      | apply (Stop Hangs w3 ((e1 ++ e2) ++ e3)); [discriminate| |assumption];
        rewrite H3, <- !app_assoc; reflexivity ].
  exists ((e1 ++ e2) ++ e3). split; [|exact F123].
  change (trace (logSystemStats LJobEnd (log MJobCompleted w3)))
    with ((trace w3 ++ [Log MJobCompleted]) ++ [Stats LJobEnd]).
  rewrite H3, <- !app_assoc. reflexivity.
Qed.

(* ================================================================== *)
(** ** Further properties: the archiver *)
(* ================================================================== *)

(** X10. When the sheet file cannot be read, the archiver rejects with the
    error of that file. When the promise rejects, the archive on disk is not
    closed: it holds the local header of the sheet file without its data,
    after the entry of the line-stream file when that file's [lstat]
    completed first, and alone otherwise. Neither source is changed, and
    nothing has been logged. *)
Theorem archiver_stops_at_unreadable_source
  (rt : runtime) (w : world) (c1 c2 : content) :
  quiet w ->
  (forall c, fs w (zipPath rt) <> Locked c) ->
  fs w (ndjsonPath rt) = File c1 ->
  fs w (xlsxPath rt) = Locked c2 ->
  let r := zipFiles rt w in
  fst r = Rejected (EACCES (xlsxPath rt))
  /\ archive_of rt (snd r)
     = Some {| zip_entries :=
                 (if stat_swap rt (turns w) then []
                  else [ (js "users_stream.ndjson", bytes_of rt c1) ]);
               zip_torn := Some (js "users_stream.xlsx");
               zip_closed := false |}
  /\ fs (snd r) (ndjsonPath rt) = File c1
  /\ fs (snd r) (xlsxPath rt) = Locked c2
  /\ trace (snd r) = trace w.
Proof.
  intros Hq Hu H1 H2. cbn zeta.
  destruct (zipFiles_spec rt w Hq Hu) as (w' & Hr & Hz & Hfr & _ & Ht).
  assert (E : append_entries rt (fs w) (queue rt w) []
              = inl (EACCES (xlsxPath rt),
                     (if stat_swap rt (turns w) then []
                      else [ (js "users_stream.ndjson", bytes_of rt c1) ]),
                     js "users_stream.xlsx")).
  { unfold queue, completion_order.
    destruct (stat_swap rt (turns w)); cbn [append_entries];
      rewrite ?H1, ?H2; cbn [append_entries]; rewrite ?H1, ?H2; reflexivity. }
  rewrite E in Hr, Hz, Ht.
  rewrite Hr. cbn [fst snd].
  refine (conj _ (conj _ (conj _ (conj _ _)))).
  - reflexivity.
  - exact Hz.
  - rewrite Hfr by apply ndjson_zip. exact H1.
  - rewrite Hfr by apply xlsx_zip. exact H2.
  - rewrite Ht. apply app_nil_r.
Qed.

Lemma archiver_stops_at_unreadable_source_witness :
  let w := with_fs (fs_set (xlsxPath sample_rt) (Locked (CText []))
                      (fs (with_source sample_rt sample_source)))
             (with_source sample_rt sample_source) in
  let r := zipFiles sample_rt w in
  fst r = Rejected (EACCES (xlsxPath sample_rt))
  /\ archive_of sample_rt (snd r)
     = Some {| zip_entries :=
                 [ (js "users_stream.ndjson", bytes_of sample_rt (CText sample_source)) ];
               zip_torn := Some (js "users_stream.xlsx");
               zip_closed := false |}
  /\ fs (snd r) (ndjsonPath sample_rt) = File (CText sample_source)
  /\ fs (snd r) (xlsxPath sample_rt) = Locked (CText [])
  /\ trace (snd r) = trace w.
Proof.
  apply (archiver_stops_at_unreadable_source sample_rt
           (with_fs (fs_set (xlsxPath sample_rt) (Locked (CText []))
                       (fs (with_source sample_rt sample_source)))
              (with_source sample_rt sample_source))
           (CText sample_source) (CText [])).
  - exact I.
  - intros c H. vm_compute in H. discriminate H.
  - vm_compute. reflexivity.
  - vm_compute. reflexivity.
Defined.

(** The same on a run where the [lstat] of the sheet file completes first:
    when the promise rejects, the archive has no complete entry. *)
Example unreadable_first_leaves_only_a_header :
  let w := with_fs (fs_set (xlsxPath swapped_rt) (Locked (CText []))
                      (fs (with_source swapped_rt sample_source)))
             (with_source swapped_rt sample_source) in
  archive_of swapped_rt (snd (zipFiles swapped_rt w))
  = Some {| zip_entries := []; zip_torn := Some (js "users_stream.xlsx");
            zip_closed := false |}.
Proof. vm_compute. reflexivity. Qed.

(* ================================================================== *)
(** ** Further properties: a record out and back *)
(* ================================================================== *)

Lemma obj_set_fresh (k : jsstring) (v : json) (acc : list (jsstring * json)) :
  ~ In k (map fst acc) -> obj_set k v acc = acc ++ [(k, v)].
Proof.
  induction acc as [|[k' v'] acc IH]; intros H; [reflexivity|].
  cbn [obj_set]. cbn [map fst In] in H.
  rewrite StrFacts.str_eqb_neq by (intros E; apply H; left; now rewrite E).
  rewrite IH by (intros Hin; apply H; now right). reflexivity.
Qed.

Lemma parsed_props_distinct (o : jsobject) :
  forall acc,
  NoDup (map fst acc ++ map fst o) ->
  parsed_props o acc
  = acc ++ map (fun p => (fst p, JStr (string_of_value (snd p)))) o.
Proof.
  induction o as [|[k v] o IH]; intros acc H.
  - cbn. now rewrite app_nil_r.
  - unfold parsed_props in *. cbn [fold_left fst snd map].
    assert (Hk : ~ In k (map fst acc)).
    { intros Hin. apply NoDup_remove_2 in H. apply H.
      apply in_or_app. now left. }
    rewrite obj_set_fresh by assumption.
    rewrite IH.
    + rewrite <- app_assoc. reflexivity.
    + rewrite map_app. cbn [map fst]. rewrite <- app_assoc. exact H.
Qed.

Lemma lookup_distinct (o : jsobject) (k : jsstring) (x : jsvalue) :
  NoDup (map fst o) -> In (k, x) o ->
  JSObject.lookup k (map (fun p => (fst p, JStr (string_of_value (snd p)))) o)
  = Some (JStr (string_of_value x)).
Proof.
  induction o as [|[k' x'] o IH]; intros Hnd Hin; [contradiction|].
  cbn [map JSObject.lookup fst snd]. inversion Hnd as [|? ? Hk Hrest]; subst.
  destruct Hin as [E|Hin].
  - inversion E; subst. now rewrite StrFacts.str_eqb_refl.
  - rewrite StrFacts.str_eqb_neq; [now apply IH|].
    intros ->. apply Hk. apply in_map_iff. exists (k', x). now split.
Qed.

(** X11. A record written by [JSON.stringify] and read back by [JSON.parse]
    is the same record: for any object literal with distinct keys, none of
    them an array index, and whatever its strings hold (quotes, backslashes,
    control characters, lone surrogates), the parsed object has the same
    keys in the same order, each string unchanged and each date as its ISO
    string. *)
Theorem stringify_parse_round_trip (o : jsobject) :
  NoDup (map fst o) ->
  Forall (fun k => JSObject.array_index k = None) (map fst o) ->
  exists v,
    parse (stringify o) = Some v
    /\ v = JObj (map (fun p => (fst p, JStr (string_of_value (snd p)))) o)
    /\ JSObject.keys v = Some (map fst o)
    /\ (forall k x, In (k, x) o -> JSObject.get v k = Some (JStr (string_of_value x))).
Proof.
  intros Hnd Hidx. eexists. split; [|split; [reflexivity|split]].
  - destruct o as [|p o]; [reflexivity|].
    rewrite parse_stringify by discriminate.
    rewrite parsed_props_distinct by exact Hnd. reflexivity.
  - cbn [JSObject.keys]. rewrite own_keys_plain; rewrite map_map; cbn [fst].
    + reflexivity.
    + exact Hidx.
  - intros k x Hin. cbn [JSObject.get]. now rewrite (lookup_distinct o k x Hnd Hin).
Qed.

Lemma stringify_parse_round_trip_witness :
  exists v,
    parse (stringify [ (js "userId", VString [34; 92; 10; 55357]);
                       (js "registeredAt", VDate 1730592000123) ]) = Some v
    /\ v = JObj (map (fun p => (fst p, JStr (string_of_value (snd p))))
                   [ (js "userId", VString [34; 92; 10; 55357]);
                     (js "registeredAt", VDate 1730592000123) ])
    /\ JSObject.keys v
       = Some (map fst [ (js "userId", VString [34; 92; 10; 55357]);
                         (js "registeredAt", VDate 1730592000123) ])
    /\ (forall k x, In (k, x) [ (js "userId", VString [34; 92; 10; 55357]);
                                (js "registeredAt", VDate 1730592000123) ] ->
                    JSObject.get v k = Some (JStr (string_of_value x))).
Proof.
  apply (stringify_parse_round_trip
           [ (js "userId", VString [34; 92; 10; 55357]);
             (js "registeredAt", VDate 1730592000123) ]).
  - repeat constructor; cbn; intuition discriminate.
  - repeat constructor.
Defined.

(* ================================================================== *)
(** ** The database handle of [db.js] *)
(* ================================================================== *)

Lemma connect_caches (mongo : nat -> jsstring -> option nat) (env : option jsstring)
  (st st1 : Db.dbstate) (d : Db.db) :
  Db.connectToDatabase mongo env st = (Some d, st1) -> Db.dbInstance st1 = Some d.
Proof.
  unfold Db.connectToDatabase, Db.connect_begin, Db.connect_finish.
  destruct (Db.dbInstance st) as [d0|] eqn:E.
  - intros H. inversion H; subst. exact E.
  - cbn [Db.attempts]. destruct (mongo (Db.attempts st) (Db.url env)) as [c|].
    + intros H. inversion H; subst. reflexivity.
    + discriminate.
Qed.

(** X12. Once a call to [connectToDatabase] has resolved, every later call
    returns the same handle without connecting again: the state of the
    module, the number of connections made included, no longer changes. *)
Theorem connected_handle_is_reused
  (mongo : nat -> jsstring -> option nat) (env : option jsstring)
  (st st1 : Db.dbstate) (d : Db.db) (k : nat) :
  Db.connectToDatabase mongo env st = (Some d, st1) ->
  Db.calls mongo env k st1 = (repeat (Some d) k, st1)
  /\ (Db.attempts st1 <= S (Db.attempts st))%nat.
Proof.
  intros H. pose proof (connect_caches mongo env st st1 d H) as Hc. split.
  - induction k as [|k IH]; [reflexivity|].
    cbn [Db.calls repeat].
    assert (E : Db.connectToDatabase mongo env st1 = (Some d, st1)).
    { unfold Db.connectToDatabase, Db.connect_begin. rewrite Hc. reflexivity. }
    rewrite E, IH. reflexivity.
  - revert H. unfold Db.connectToDatabase, Db.connect_begin, Db.connect_finish.
    destruct (Db.dbInstance st) as [d0|].
    + intros H. inversion H; subst. lia.
    + cbn [Db.attempts]. destruct (mongo (Db.attempts st) (Db.url env)) as [c|].
      * intros H. inversion H; subst. cbn. lia.
      * discriminate.
Qed.

Lemma connected_handle_is_reused_witness :
  let mongo := fun (a : nat) (u : jsstring) => Some (length u + a)%nat in
  let env := Some (js "mongodb://db:27017") in
  let d := {| Db.db_client := 18%nat; Db.db_name := js "giftdb" |} in
  let st1 := {| Db.dbInstance := Some d; Db.attempts := 1 |} in
  Db.calls mongo env 3 st1 = (repeat (Some d) 3, st1)
  /\ (Db.attempts st1 <= S (Db.attempts {| Db.dbInstance := None; Db.attempts := 0 |}))%nat.
Proof.
  apply (connected_handle_is_reused
           (fun (a : nat) (u : jsstring) => Some (length u + a)%nat)
           (Some (js "mongodb://db:27017"))
           {| Db.dbInstance := None; Db.attempts := 0 |}).
  reflexivity.
Defined.

(** X13. A connection that fails is not remembered: as long as the driver
    rejects, every call rejects, leaves [dbInstance] empty and makes one more
    attempt. With [MONGO_URL] unset the address tried is the text
    [undefined]. *)
Theorem failed_connection_is_retried
  (mongo : nat -> jsstring -> option nat) (env : option jsstring)
  (st : Db.dbstate) (k : nat) :
  Db.dbInstance st = None ->
  (forall a, (Db.attempts st <= a < Db.attempts st + k)%nat ->
             mongo a (match env with Some u => u | None => js "undefined" end) = None) ->
  Db.calls mongo env k st
  = (repeat None k, {| Db.dbInstance := None; Db.attempts := Db.attempts st + k |}).
Proof.
  revert st. induction k as [|k IH]; intros st Hn Hf.
  - cbn [Db.calls repeat]. destruct st as [i a]. cbn in *. subst.
    now rewrite Nat.add_0_r.
  - cbn [Db.calls repeat].
    assert (E : Db.connectToDatabase mongo env st
                = (None, {| Db.dbInstance := None; Db.attempts := S (Db.attempts st) |})).
    { unfold Db.connectToDatabase, Db.connect_begin, Db.connect_finish.
      rewrite Hn. cbn [Db.attempts]. unfold Db.url.
      rewrite (Hf (Db.attempts st)) by lia. reflexivity. }
    rewrite E. rewrite IH.
    + cbn [Db.attempts].
      replace (Db.attempts st + S k)%nat with (S (Db.attempts st) + k)%nat by lia.
      reflexivity.
    + reflexivity.
    + intros a Ha. cbn [Db.attempts] in Ha. apply Hf. lia.
Qed.

Lemma failed_connection_is_retried_witness :
  let mongo := fun (a : nat) (u : jsstring) =>
                 if str_eqb u (js "undefined") then None else Some a in
  let st := {| Db.dbInstance := None; Db.attempts := 0 |} in
  Db.calls mongo None 3 st
  = (repeat None 3, {| Db.dbInstance := None; Db.attempts := Db.attempts st + 3 |}).
Proof.
  apply (failed_connection_is_retried
           (fun (a : nat) (u : jsstring) =>
              if str_eqb u (js "undefined") then None else Some a)
           None {| Db.dbInstance := None; Db.attempts := 0 |} 3).
  - reflexivity.
  - intros a Ha. reflexivity.
Defined.

(** X14. Two calls that overlap, the second starting while the first awaits
    its connection, both connect: each gets the handle of its own client,
    and [dbInstance] keeps the handle of whichever connection completes
    last, in either order of completion. *)
Theorem overlapping_calls_both_connect
  (mongo : nat -> jsstring -> option nat) (env : option jsstring)
  (st : Db.dbstate) (c1 c2 : nat) :
  Db.dbInstance st = None ->
  mongo (Db.attempts st) (Db.url env) = Some c1 ->
  mongo (S (Db.attempts st)) (Db.url env) = Some c2 ->
  let a1 := Db.attempts st in
  let a2 := S (Db.attempts st) in
  let d1 := {| Db.db_client := c1; Db.db_name := js "giftdb" |} in
  let d2 := {| Db.db_client := c2; Db.db_name := js "giftdb" |} in
  let st2 := snd (Db.connect_begin (snd (Db.connect_begin st))) in
  Db.connect_begin st = (Db.Connecting a1, snd (Db.connect_begin st))
  /\ Db.connect_begin (snd (Db.connect_begin st)) = (Db.Connecting a2, st2)
  /\ (let r1 := Db.connect_finish mongo env a1 st2 in
      let r2 := Db.connect_finish mongo env a2 (snd r1) in
      fst r1 = Some d1 /\ fst r2 = Some d2
      /\ snd r2 = {| Db.dbInstance := Some d2; Db.attempts := S (S (Db.attempts st)) |})
  /\ (let r2 := Db.connect_finish mongo env a2 st2 in
      let r1 := Db.connect_finish mongo env a1 (snd r2) in
      fst r2 = Some d2 /\ fst r1 = Some d1
      /\ snd r1 = {| Db.dbInstance := Some d1; Db.attempts := S (S (Db.attempts st)) |}).
Proof.
  intros Hn H1 H2. cbn zeta.
  unfold Db.connect_begin, Db.connect_finish. rewrite Hn.
  cbn [snd fst Db.dbInstance Db.attempts].
  rewrite H1, H2. cbn [snd fst Db.dbInstance Db.attempts].
  rewrite ?H1, ?H2. cbn [snd fst Db.dbInstance Db.attempts].
  repeat split.
Qed.

Lemma overlapping_calls_both_connect_witness :
  let mongo := fun (a : nat) (u : jsstring) => Some (10 + a)%nat in
  let env := Some (js "mongodb://db:27017") in
  let st := {| Db.dbInstance := None; Db.attempts := 0 |} in
  let a1 := Db.attempts st in
  let a2 := S (Db.attempts st) in
  let d1 := {| Db.db_client := 10%nat; Db.db_name := js "giftdb" |} in
  let d2 := {| Db.db_client := 11%nat; Db.db_name := js "giftdb" |} in
  let st2 := snd (Db.connect_begin (snd (Db.connect_begin st))) in
  Db.connect_begin st = (Db.Connecting a1, snd (Db.connect_begin st))
  /\ Db.connect_begin (snd (Db.connect_begin st)) = (Db.Connecting a2, st2)
  /\ (let r1 := Db.connect_finish mongo env a1 st2 in
      let r2 := Db.connect_finish mongo env a2 (snd r1) in
      fst r1 = Some d1 /\ fst r2 = Some d2
      /\ snd r2 = {| Db.dbInstance := Some d2; Db.attempts := S (S (Db.attempts st)) |})
  /\ (let r2 := Db.connect_finish mongo env a2 st2 in
      let r1 := Db.connect_finish mongo env a1 (snd r2) in
      fst r2 = Some d2 /\ fst r1 = Some d1
      /\ snd r1 = {| Db.dbInstance := Some d1; Db.attempts := S (S (Db.attempts st)) |}).
Proof.
  apply (overlapping_calls_both_connect
           (fun (a : nat) (u : jsstring) => Some (10 + a)%nat)
           (Some (js "mongodb://db:27017"))
           {| Db.dbInstance := None; Db.attempts := 0 |} 10%nat 11%nat).
  - reflexivity.
  - reflexivity.
  - reflexivity.
Defined.

(* ================================================================== *)
(** ** The figures of [logSystemStats] *)
(* ================================================================== *)

Lemma pad2_digits (m : N) :
  m < 100 -> JSDate.pad 2 (Z.of_N m) = [48 + m / 10; 48 + m mod 10].
Proof.
  intros H. cbn [JSDate.pad app].
  assert (H1 : m / 10 < 10) by (apply N.Div0.div_lt_upper_bound; lia).
  pose proof (N.mod_lt m 10 ltac:(lia)) as H2.
  assert (E1 : (Z.of_N m / 10)%Z = Z.of_N (m / 10))
    by (rewrite N2Z.inj_div; reflexivity).
  assert (E2 : (Z.of_N m mod 10)%Z = Z.of_N (m mod 10))
    by (rewrite N2Z.inj_mod; reflexivity).
  assert (E3 : (Z.of_N (m / 10) mod 10)%Z = Z.of_N (m / 10)).
  { change 10%Z with (Z.of_N 10). rewrite <- N2Z.inj_mod.
    now rewrite N.mod_small. }
  assert (E4 : forall x, Z.to_N (48 + Z.of_N x) = 48 + x) by (intros x; lia).
  rewrite E1, E2, E3, !E4. reflexivity.
Qed.

Lemma hundredths_whole (k d : N) : 0 < d -> StatsLine.hundredths (k * d) d = 100 * k.
Proof.
  intros H. unfold StatsLine.hundredths. symmetry.
  apply N.div_unique with d; lia.
Qed.

Lemma toFixed2_whole (k d : N) :
  0 < d -> StatsLine.toFixed2 (k * d) d = dec k ++ js ".00".
Proof.
  intros H. unfold StatsLine.toFixed2. cbn zeta. rewrite hundredths_whole by assumption.
  rewrite N.mul_comm, N.div_mul, N.Div0.mod_mul by lia. reflexivity.
Qed.

(** X15. The figures [logSystemStats] prints: a byte count is shown in units
    of 1048576 bytes, rounded to the nearest hundredth (a tie goes up) and
    always with two decimals; on whole figures the line reads
    [[label] Memory Used: k.00 MB | RSS: r.00 MB | CPU Load: l.00] after the
    magnifying glass. *)
Theorem stats_figures_have_two_decimals (num den : N) :
  0 < den ->
  let h := StatsLine.hundredths num den in
  2 * den * h <= 200 * num + den < 2 * den * (h + 1)
  /\ StatsLine.toFixed2 num den
     = dec (h / 100) ++ js "." ++ [48 + (h mod 100) / 10; 48 + (h mod 100) mod 10]
  /\ (forall bytes, StatsLine.megabytes bytes = StatsLine.toFixed2 bytes (1024 * 1024))
  /\ (forall label k r l,
        StatsLine.stats_line label
          {| StatsLine.heapUsed := k * 1048576; StatsLine.rss := r * 1048576;
             StatsLine.load_num := l * den; StatsLine.load_den := den |}
        = [55357; 56589] ++ js " [" ++ label ++ js "] Memory Used: " ++ dec k
          ++ js ".00 MB | RSS: " ++ dec r ++ js ".00 MB | CPU Load: " ++ dec l
          ++ js ".00").
Proof.
  intros Hd. cbn zeta. refine (conj _ (conj _ (conj _ _))).
  - unfold StatsLine.hundredths.
    pose proof (N.Div0.mul_div_le (200 * num + den) (2 * den)) as H1.
    pose proof (N.mul_succ_div_gt (200 * num + den) (2 * den) ltac:(lia)) as H2.
    generalize dependent ((200 * num + den) / (2 * den)). intros q H1 H2. lia.
  - unfold StatsLine.toFixed2. cbn zeta.
    rewrite pad2_digits by (apply N.mod_lt; lia). reflexivity.
  - reflexivity.
  - intros label k r l. unfold StatsLine.stats_line, StatsLine.megabytes.
    cbn [StatsLine.heapUsed StatsLine.rss StatsLine.load_num StatsLine.load_den].
    rewrite !toFixed2_whole by lia. rewrite <- !app_assoc. reflexivity.
Qed.

Lemma stats_figures_have_two_decimals_witness :
  let h := StatsLine.hundredths 52953088 1048576 in
  2 * 1048576 * h <= 200 * 52953088 + 1048576 < 2 * 1048576 * (h + 1)
  /\ StatsLine.toFixed2 52953088 1048576
     = dec (h / 100) ++ js "." ++ [48 + (h mod 100) / 10; 48 + (h mod 100) mod 10]
  /\ (forall bytes, StatsLine.megabytes bytes = StatsLine.toFixed2 bytes (1024 * 1024))
  /\ (forall label k r l,
        StatsLine.stats_line label
          {| StatsLine.heapUsed := k * 1048576; StatsLine.rss := r * 1048576;
             StatsLine.load_num := l * 1048576; StatsLine.load_den := 1048576 |}
        = [55357; 56589] ++ js " [" ++ label ++ js "] Memory Used: " ++ dec k
          ++ js ".00 MB | RSS: " ++ dec r ++ js ".00 MB | CPU Load: " ++ dec l
          ++ js ".00").
Proof.
  apply (stats_figures_have_two_decimals 52953088 1048576). reflexivity.
Defined.

(* ================================================================== *)
(** ** The three files *)
(* ================================================================== *)

(** X16. Whatever the directory of the script, with or without a trailing
    slash, the three files of the export are three different files of its
    [data] directory, named [users_stream.ndjson], [users_stream.xlsx] and
    [users_export.zip]: no stage writes over the file of another. *)
Theorem export_files_are_distinct (rt : runtime) :
  (exists slash, (slash = [] \/ slash = js "/")
                 /\ dataDir rt = dirname rt ++ slash ++ js "data")
  /\ ndjsonPath rt = dataDir rt ++ js "/users_stream.ndjson"
  /\ xlsxPath rt = dataDir rt ++ js "/users_stream.xlsx"
  /\ zipPath rt = dataDir rt ++ js "/users_export.zip"
  /\ map Path.basename [ndjsonPath rt; xlsxPath rt; zipPath rt]
     = [js "users_stream.ndjson"; js "users_stream.xlsx"; js "users_export.zip"]
  /\ NoDup [ndjsonPath rt; xlsxPath rt; zipPath rt].
Proof.
  refine (conj _ (conj _ (conj _ (conj _ (conj _ _))))).
  - unfold dataDir, Path.join. destruct (rev (dirname rt)) as [|c r] eqn:E.
    + exists []. split; [now left|].
      apply (f_equal (@rev N)) in E. rewrite rev_involutive in E. rewrite E. reflexivity.
    + destruct (c =? 47).
      * exists []. split; [now left|reflexivity].
      * exists (js "/"). split; [now right|reflexivity].
  - apply ndjsonPath_eq.
  - apply xlsxPath_eq.
  - apply zipPath_eq.
  - cbn [map]. rewrite basename_ndjson, basename_xlsx.
    rewrite zipPath_eq, basename_app by reflexivity. reflexivity.
  - pose proof (ndjson_xlsx rt) as H1. pose proof (ndjson_zip rt) as H2.
    pose proof (xlsx_zip rt) as H3.
    assert (D : forall a b, str_eqb a b = false -> a <> b).
    { intros a b H E. subst b. rewrite StrFacts.str_eqb_refl in H. discriminate. }
    apply D in H1, H2, H3.
    repeat constructor; cbn [In]; intuition congruence.
Qed.

